(** * PePPeR backend: the paper store, the generation client and the pipeline

    A shallow embedding of
      - [app/models/paper.py]            (the Pydantic records),
      - [app/services/data_store.py]     (the JSON-file backed store),
      - [app/services/llm_service.py]    (reply decoding and streaming chat),
      - [app/api/routes/chat.py], [app/api/routes/papers.py] (handlers),
      - [app/utils/scheduler.py]         (the two batch jobs),
    followed by the properties of the specification that concern them. *)

From Stdlib Require Import List String Ascii Bool Arith ZArith QArith Lia.
From Stdlib Require Import Permutation Sorted DecimalString DecimalZ.
Import ListNotations.
Open Scope string_scope.
Open Scope Z_scope.

Set Implicit Arguments.
Set Warnings "-register-all,-abstract-large-number".

(* ====================================================================== *)
(** * Python values used by the code                                       *)
(* ====================================================================== *)

Module Py.

(** ** Strings *)

(** [sub in s] *)
Fixpoint contains (sub s : string) : bool :=
  if prefix sub s then true
  else match s with
       | EmptyString => false
       | String _ s' => contains sub s'
       end.

Fixpoint rev_string (acc s : string) : string :=
  match s with
  | EmptyString => acc
  | String c s' => rev_string (String c acc) s'
  end.

(** [s.split(sep)] for a non-empty separator, scanning left to right.
    [skip] counts the characters of a separator just matched that are
    still to be dropped; [cur] is the current piece, reversed. *)
Fixpoint split_go (sep : string) (skip : nat) (cur s : string) : list string :=
  match s with
  | EmptyString => [rev_string "" cur]
  | String c s' =>
      match skip with
      | S k => split_go sep k cur s'
      | O =>
          if prefix sep s
          then rev_string "" cur :: split_go sep (String.length sep - 1) "" s'
          else split_go sep 0 (String c cur) s'
      end
  end.

Definition split (sep s : string) : list string := split_go sep 0 "" s.

(** [l[i]] for a list of strings and [i >= 0]; [None] is IndexError. *)
Definition index (l : list string) (i : nat) : option string := nth_error l i.

(** [s[:n]] *)
Definition take_str (n : nat) (s : string) : string := substring 0 n s.

Definition lower_ascii (c : ascii) : ascii :=
  let n := nat_of_ascii c in
  if ((65 <=? n) && (n <=? 90))%nat then ascii_of_nat (n + 32) else c.

(** [s.lower()], on the ASCII letters. *)
Fixpoint lower (s : string) : string :=
  match s with
  | EmptyString => EmptyString
  | String c s' => String (lower_ascii c) (lower s')
  end.

(** Truth value of an [Optional[str]]: [None] and [""] are false. *)
Definition truthy (o : option string) : bool :=
  match o with
  | Some (String _ _) => true
  | _ => false
  end.

(** ** Lists *)

Definition clamp (n : nat) (i : Z) : nat :=
  if i <? 0 then Z.to_nat (Z.max 0 (Z.of_nat n + i))
  else Nat.min n (Z.to_nat i).

(** [l[lo:hi]] with Python's treatment of negative and out-of-range
    bounds. *)
Definition slice {A} (l : list A) (lo hi : Z) : list A :=
  let n := List.length l in
  let a := clamp n lo in
  let b := clamp n hi in
  firstn (b - a)%nat (skipn a l).

(** [l[-n:]] for [n > 0]. *)
Definition last_n {A} (n : nat) (l : list A) : list A :=
  skipn (List.length l - n)%nat l.

(** ** Dictionaries: insertion-ordered, keys unique *)

Definition dict (V : Type) := list (string * V).

Fixpoint dict_get {V} (k : string) (d : dict V) : option V :=
  match d with
  | [] => None
  | (k', v) :: d' => if String.eqb k k' then Some v else dict_get k d'
  end.

Definition dict_mem {V} (k : string) (d : dict V) : bool :=
  match dict_get k d with Some _ => true | None => false end.

(** [d[k] = v]: overwrite in place, or append a new key at the end. *)
Fixpoint dict_set {V} (k : string) (v : V) (d : dict V) : dict V :=
  match d with
  | [] => [(k, v)]
  | (k', v') :: d' =>
      if String.eqb k k' then (k, v) :: d' else (k', v') :: dict_set k v d'
  end.

(** [del d[k]] *)
Fixpoint dict_del {V} (k : string) (d : dict V) : dict V :=
  match d with
  | [] => []
  | (k', v') :: d' =>
      if String.eqb k k' then d' else (k', v') :: dict_del k d'
  end.

Definition dict_values {V} (d : dict V) : list V := map snd d.
Definition dict_keys {V} (d : dict V) : list string := map fst d.

(** The dictionary built from a sequence of pairs (later pairs win). *)
Definition dict_of_pairs {V} (l : list (string * V)) : dict V :=
  fold_left (fun d kv => dict_set (fst kv) (snd kv) d) l [].

(** The class invariant of a dictionary. *)
Definition dict_wf {V} (d : dict V) : Prop := NoDup (dict_keys d).

(** ** Sorting *)

(** Place [x] in front of the first element whose key is not larger. *)
Fixpoint insert_desc {A} (key : A -> Z) (x : A) (l : list A) : list A :=
  match l with
  | [] => [x]
  | y :: l' => if key y <=? key x then x :: l else y :: insert_desc key x l'
  end.

(** [l.sort(key=key, reverse=True)]: descending and stable. *)
Definition sort_desc {A} (key : A -> Z) (l : list A) : list A :=
  fold_right (insert_desc key) [] l.

End Py.

(* ====================================================================== *)
(** * JSON documents                                                       *)
(* ====================================================================== *)

Inductive json : Type :=
| JNull
| JBool (b : bool)
| JNum (q : Q)
| JStr (s : string)
| JArr (l : list json)
| JObj (members : list (string * json)).

(** Member access on a decoded object: of repeated names the last one
    is kept, as [json.load] does. *)
Definition member (k : string) (j : json) : option json :=
  match j with
  | JObj ms => Py.dict_get k (Py.dict_of_pairs ms)
  | _ => None
  end.

(** A naive [datetime]: its position on the time line, in microseconds. *)
Definition datetime := Z.

(** The library functions the code calls and whose text formats are not
    part of the repository. *)
Class Library := {
  (** [json.loads]; [None] is [JSONDecodeError]. *)
  json_loads : string -> option json;
  (** The text Pydantic writes for a datetime in [mode="json"]. *)
  datetime_isoformat : datetime -> string;
  (** Pydantic's validation of a datetime field; [None] is a
      validation error. *)
  datetime_validate : json -> option datetime;
  (** [datetime.fromisoformat]; [None] is [ValueError]. *)
  fromisoformat : string -> option datetime
}.

(** Pydantic reads back the datetimes it wrote. *)
Class LibraryLaws (L : Library) : Prop := {
  datetime_roundtrip :
    forall d, datetime_validate (JStr (datetime_isoformat d)) = Some d
}.

(* ====================================================================== *)
(** * [app/models/paper.py]                                                *)
(* ====================================================================== *)

Record Author := {
  name : string;
  author_arxiv_id : option string        (* [Author.arxiv_id] *)
}.

Record PaperMetadata := {
  arxiv_id : string;
  title : string;
  authors : list Author;
  abstract : string;
  published_date : datetime;
  updated_date : option datetime;
  pdf_url : string;
  primary_category : string;
  categories : list string;
  comment : option string;
  journal_ref : option string;
  doi : option string
}.

Record AIAnalysis := {
  summary : string;
  key_findings : list string;
  methodology : option string;
  strengths : list string;
  limitations : list string;
  relevance_score : option Q;
  generated_at : datetime
}.

Record ChatMessage := {
  role : string;
  content : string;
  timestamp : datetime
}.

Record Paper := {
  metadata : PaperMetadata;
  pdf_path : option string;
  extracted_text : option string;
  ai_analysis : option AIAnalysis;
  chat_history : list ChatMessage;
  processed : bool;
  created_at : datetime;
  updated_at : option datetime
}.

(** [Paper(metadata=metadata)] at clock reading [now]. *)
Definition new_paper (now : datetime) (m : PaperMetadata) : Paper :=
  {| metadata := m; pdf_path := None; extracted_text := None;
     ai_analysis := None; chat_history := []; processed := false;
     created_at := now; updated_at := None |}.

(** Field updates, as attribute assignment on the record. *)
Definition with_pdf_path (v : option string) (p : Paper) : Paper :=
  {| metadata := metadata p; pdf_path := v;
     extracted_text := extracted_text p; ai_analysis := ai_analysis p;
     chat_history := chat_history p; processed := processed p;
     created_at := created_at p; updated_at := updated_at p |}.

Definition with_extracted_text (v : option string) (p : Paper) : Paper :=
  {| metadata := metadata p; pdf_path := pdf_path p;
     extracted_text := v; ai_analysis := ai_analysis p;
     chat_history := chat_history p; processed := processed p;
     created_at := created_at p; updated_at := updated_at p |}.

Definition with_ai_analysis (v : option AIAnalysis) (p : Paper) : Paper :=
  {| metadata := metadata p; pdf_path := pdf_path p;
     extracted_text := extracted_text p; ai_analysis := v;
     chat_history := chat_history p; processed := processed p;
     created_at := created_at p; updated_at := updated_at p |}.

Definition with_chat_history (v : list ChatMessage) (p : Paper) : Paper :=
  {| metadata := metadata p; pdf_path := pdf_path p;
     extracted_text := extracted_text p; ai_analysis := ai_analysis p;
     chat_history := v; processed := processed p;
     created_at := created_at p; updated_at := updated_at p |}.

Definition with_processed (v : bool) (p : Paper) : Paper :=
  {| metadata := metadata p; pdf_path := pdf_path p;
     extracted_text := extracted_text p; ai_analysis := ai_analysis p;
     chat_history := chat_history p; processed := v;
     created_at := created_at p; updated_at := updated_at p |}.

Definition with_updated_at (v : option datetime) (p : Paper) : Paper :=
  {| metadata := metadata p; pdf_path := pdf_path p;
     extracted_text := extracted_text p; ai_analysis := ai_analysis p;
     chat_history := chat_history p; processed := processed p;
     created_at := created_at p; updated_at := v |}.

(* ====================================================================== *)
(** * Exceptions and results                                               *)
(* ====================================================================== *)

Inductive exn : Type :=
| ValueError                                    (* a malformed date text *)
| AttributeError                                (* [.get] on a non-dict *)
| ValidationError                               (* Pydantic *)
| HTTPException (status_code : Z) (detail : string)
| Error (detail : string).                      (* any other, [str(e)] *)

Inductive result (A : Type) : Type :=
| Ok (a : A)
| Raise (e : exn).
Arguments Ok {A} a.
Arguments Raise {A} e.

Definition rbind {A B} (r : result A) (k : A -> result B) : result B :=
  match r with
  | Ok a => k a
  | Raise e => Raise e
  end.

Definition obind {A B} (o : option A) (k : A -> option B) : option B :=
  match o with
  | Some a => k a
  | None => None
  end.

Declare Scope result_scope.
Declare Scope opt_scope.
Notation "'do' x <- r ; k" := (rbind r (fun x => k))
  (at level 10, x name, r at level 100, k at level 200) : result_scope.
Notation "'let?' x := o 'in' k" := (obind o (fun x => k))
  (at level 10, x name, o at level 100, k at level 200) : opt_scope.
Open Scope opt_scope.

(* ====================================================================== *)
(** * [model_dump(mode="json")] and [model_validate]                       *)
(* ====================================================================== *)

(** Validation accepts a value of the JSON type of the field; the
    coercions of Pydantic's lax mode between JSON types are left out, so
    [None] below is a validation error on values of another type. *)

Definition dump_opt {A} (f : A -> json) (o : option A) : json :=
  match o with
  | Some a => f a
  | None => JNull
  end.

Definition dump_strs (l : list string) : json := JArr (map JStr l).

Definition val_str (j : json) : option string :=
  match j with JStr s => Some s | _ => None end.

Definition val_bool (j : json) : option bool :=
  match j with JBool b => Some b | _ => None end.

Definition val_float (j : json) : option Q :=
  match j with JNum q => Some q | _ => None end.

Fixpoint val_all {A} (f : json -> option A) (l : list json)
  : option (list A) :=
  match l with
  | [] => Some []
  | j :: l' =>
      let? a := f j in
      let? r := val_all f l' in
      Some (a :: r)
  end.

Definition val_list {A} (f : json -> option A) (j : json)
  : option (list A) :=
  match j with JArr l => val_all f l | _ => None end.

(** A field without default. *)
Definition required {A} (f : json -> option A) (k : string) (j : json)
  : option A :=
  match member k j with
  | Some v => f v
  | None => None
  end.

(** A value of type [Optional[X]]. *)
Definition val_opt {A} (f : json -> option A) (j : json)
  : option (option A) :=
  match j with
  | JNull => Some None
  | _ => let? a := f j in Some (Some a)
  end.

(** A field [Optional[X] = None]. *)
Definition optional {A} (f : json -> option A) (k : string) (j : json)
  : option (option A) :=
  match member k j with
  | Some v => val_opt f v
  | None => Some None
  end.

(** A field with a default value or factory. *)
Definition defaulted {A} (f : json -> option A) (dflt : A) (k : string)
  (j : json) : option A :=
  match member k j with
  | Some v => f v
  | None => Some dflt
  end.

Definition is_object (j : json) : bool :=
  match j with JObj _ => true | _ => false end.

Definition dump_datetime {L : Library} (d : datetime) : json :=
  JStr (datetime_isoformat d).

Definition Author_dump (a : Author) : json :=
  JObj [("name", JStr (name a));
        ("arxiv_id", dump_opt JStr (author_arxiv_id a))].

Definition Author_validate (j : json) : option Author :=
  let? n := required val_str "name" j in
  let? i := optional val_str "arxiv_id" j in
  Some {| name := n; author_arxiv_id := i |}.

Definition PaperMetadata_dump {L : Library} (m : PaperMetadata) : json :=
  JObj [("arxiv_id", JStr (arxiv_id m));
        ("title", JStr (title m));
        ("authors", JArr (map Author_dump (authors m)));
        ("abstract", JStr (abstract m));
        ("published_date", dump_datetime (published_date m));
        ("updated_date", dump_opt dump_datetime (updated_date m));
        ("pdf_url", JStr (pdf_url m));
        ("primary_category", JStr (primary_category m));
        ("categories", dump_strs (categories m));
        ("comment", dump_opt JStr (comment m));
        ("journal_ref", dump_opt JStr (journal_ref m));
        ("doi", dump_opt JStr (doi m))].

Definition PaperMetadata_validate {L : Library} (j : json)
  : option PaperMetadata :=
  let? i := required val_str "arxiv_id" j in
  let? t := required val_str "title" j in
  let? au := required (val_list Author_validate) "authors" j in
  let? ab := required val_str "abstract" j in
  let? pd := required datetime_validate "published_date" j in
  let? ud := optional datetime_validate "updated_date" j in
  let? pu := required val_str "pdf_url" j in
  let? pc := required val_str "primary_category" j in
  let? cs := defaulted (val_list val_str) [] "categories" j in
  let? co := optional val_str "comment" j in
  let? jr := optional val_str "journal_ref" j in
  let? d := optional val_str "doi" j in
  Some {| arxiv_id := i; title := t; authors := au; abstract := ab;
          published_date := pd; updated_date := ud; pdf_url := pu;
          primary_category := pc; categories := cs; comment := co;
          journal_ref := jr; doi := d |}.

Definition AIAnalysis_dump {L : Library} (a : AIAnalysis) : json :=
  JObj [("summary", JStr (summary a));
        ("key_findings", dump_strs (key_findings a));
        ("methodology", dump_opt JStr (methodology a));
        ("strengths", dump_strs (strengths a));
        ("limitations", dump_strs (limitations a));
        ("relevance_score", dump_opt JNum (relevance_score a));
        ("generated_at", dump_datetime (generated_at a))].

(** [now] stands for the reading of [datetime.utcnow] that a default
    factory takes. *)
Definition AIAnalysis_validate {L : Library} (now : datetime) (j : json)
  : option AIAnalysis :=
  if is_object j then
    let? s := defaulted val_str "" "summary" j in
    let? kf := defaulted (val_list val_str) [] "key_findings" j in
    let? m := optional val_str "methodology" j in
    let? st := defaulted (val_list val_str) [] "strengths" j in
    let? li := defaulted (val_list val_str) [] "limitations" j in
    let? rs := optional val_float "relevance_score" j in
    let? ga := defaulted datetime_validate now "generated_at" j in
    Some {| summary := s; key_findings := kf; methodology := m;
            strengths := st; limitations := li; relevance_score := rs;
            generated_at := ga |}
  else None.

Definition ChatMessage_dump {L : Library} (c : ChatMessage) : json :=
  JObj [("role", JStr (role c));
        ("content", JStr (content c));
        ("timestamp", dump_datetime (timestamp c))].

Definition ChatMessage_validate {L : Library} (now : datetime) (j : json)
  : option ChatMessage :=
  let? r := required val_str "role" j in
  let? c := required val_str "content" j in
  let? t := defaulted datetime_validate now "timestamp" j in
  Some {| role := r; content := c; timestamp := t |}.

Definition Paper_dump {L : Library} (p : Paper) : json :=
  JObj [("metadata", PaperMetadata_dump (metadata p));
        ("pdf_path", dump_opt JStr (pdf_path p));
        ("extracted_text", dump_opt JStr (extracted_text p));
        ("ai_analysis", dump_opt AIAnalysis_dump (ai_analysis p));
        ("chat_history", JArr (map ChatMessage_dump (chat_history p)));
        ("processed", JBool (processed p));
        ("created_at", dump_datetime (created_at p));
        ("updated_at", dump_opt dump_datetime (updated_at p))].

Definition Paper_validate {L : Library} (now : datetime) (j : json)
  : option Paper :=
  let? m := required PaperMetadata_validate "metadata" j in
  let? pp := optional val_str "pdf_path" j in
  let? et := optional val_str "extracted_text" j in
  let? ai := optional (AIAnalysis_validate now) "ai_analysis" j in
  let? ch := defaulted (val_list (ChatMessage_validate now)) []
               "chat_history" j in
  let? pr := defaulted val_bool false "processed" j in
  let? ca := defaulted datetime_validate now "created_at" j in
  let? ua := optional datetime_validate "updated_at" j in
  Some {| metadata := m; pdf_path := pp; extracted_text := et;
          ai_analysis := ai; chat_history := ch; processed := pr;
          created_at := ca; updated_at := ua |}.

(* ====================================================================== *)
(** * [app/services/data_store.py]                                         *)
(* ====================================================================== *)

(** What [settings.PAPERS_JSON] holds: text that [json.load] rejects, or
    the document it decodes to.  [json.dump] followed by [json.load] is
    taken to be the identity on documents. *)
Inductive file_content : Type :=
| NotJson (text : string)
| JsonDoc (j : json).

(** The store object together with its backing file ([None]: no file). *)
Record DataStore := {
  _papers_cache : Py.dict Paper;
  papers_file : option file_content
}.

Definition set_cache (c : Py.dict Paper) (s : DataStore) : DataStore :=
  {| _papers_cache := c; papers_file := papers_file s |}.

(** [_save_to_file]: the file is rewritten as a whole. *)
Definition _save_to_file (data : list (string * json)) (s : DataStore)
  : DataStore :=
  {| _papers_cache := _papers_cache s;
     papers_file := Some (JsonDoc (JObj data)) |}.

Definition _save_cache {L : Library} (s : DataStore) : DataStore :=
  let data :=
    map (fun kp => (fst kp, Paper_dump (snd kp))) (_papers_cache s) in
  _save_to_file data s.

(** The loop of [_load_cache]; [None] when a [model_validate] raises. *)
Fixpoint load_items {L : Library} (now : datetime)
  (items : list (string * json)) (cache : Py.dict Paper)
  : option (Py.dict Paper) :=
  match items with
  | [] => Some cache
  | (k, paper_data) :: rest =>
      match Paper_validate now paper_data with
      | Some p => load_items now rest (Py.dict_set k p cache)
      | None => None
      end
  end.

(** [_load_cache]: one [try] around opening, decoding and the whole
    loop; its handler logs and resets the cache to the empty dict. *)
Definition _load_cache {L : Library} (now : datetime) (s : DataStore)
  : DataStore :=
  let attempt :=
    match papers_file s with
    | Some (JsonDoc (JObj ms)) =>
        load_items now (Py.dict_of_pairs ms) (_papers_cache s)
    | _ => None
    end in
  match attempt with
  | Some c => set_cache c s
  | None => set_cache [] s
  end.

Definition _ensure_file_exists {L : Library} (now : datetime)
  (s : DataStore) : DataStore :=
  match papers_file s with
  | None => _save_to_file [] s
  | Some _ => _load_cache now s
  end.

(** [DataStore()] over the file system state [f]. *)
Definition init {L : Library} (now : datetime) (f : option file_content)
  : DataStore :=
  _ensure_file_exists now {| _papers_cache := []; papers_file := f |}.

Definition add_paper {L : Library} (paper : Paper) (s : DataStore)
  : bool * DataStore :=
  let id := arxiv_id (metadata paper) in
  if Py.dict_mem id (_papers_cache s) then (false, s)
  else (true, _save_cache (set_cache (Py.dict_set id paper (_papers_cache s)) s)).

Definition get_paper (id : string) (s : DataStore) : option Paper :=
  Py.dict_get id (_papers_cache s).

Definition delete_paper {L : Library} (id : string) (s : DataStore)
  : bool * DataStore :=
  if Py.dict_mem id (_papers_cache s)
  then (true, _save_cache (set_cache (Py.dict_del id (_papers_cache s)) s))
  else (false, s).

(** The filters of [list_papers], in the order of the source. *)
Definition by_category (category : option string) (papers : list Paper)
  : list Paper :=
  match category with
  | Some c =>
      if Py.truthy category
      then filter (fun p => String.eqb (primary_category (metadata p)) c) papers
      else papers
  | None => papers
  end.

Definition by_date_from {L : Library} (date_from : option string)
  (papers : list Paper) : result (list Paper) :=
  match date_from with
  | Some d =>
      if Py.truthy date_from then
        match fromisoformat d with
        | Some from_dt =>
            Ok (filter (fun p => from_dt <=? published_date (metadata p)) papers)
        | None => Raise ValueError
        end
      else Ok papers
  | None => Ok papers
  end.

Definition by_date_to {L : Library} (date_to : option string)
  (papers : list Paper) : result (list Paper) :=
  match date_to with
  | Some d =>
      if Py.truthy date_to then
        match fromisoformat d with
        | Some to_dt =>
            Ok (filter (fun p => published_date (metadata p) <=? to_dt) papers)
        | None => Raise ValueError
        end
      else Ok papers
  | None => Ok papers
  end.

Definition by_processed (flag : option bool) (papers : list Paper)
  : list Paper :=
  match flag with
  | Some b => filter (fun p => Bool.eqb (processed p) b) papers
  | None => papers
  end.

Definition by_search (search : option string) (papers : list Paper)
  : list Paper :=
  match search with
  | Some q =>
      if Py.truthy search then
        let search_lower := Py.lower q in
        filter (fun p =>
                  Py.contains search_lower (Py.lower (title (metadata p)))
                  || Py.contains search_lower (Py.lower (abstract (metadata p))))
               papers
      else papers
  | None => papers
  end.

Open Scope result_scope.

(** The body of [list_papers] up to and including the sort. *)
Definition sorted_matches {L : Library} (s : DataStore)
  (category date_from date_to : option string) (flag : option bool)
  (search : option string) : result (list Paper) :=
  let papers := Py.dict_values (_papers_cache s) in
  let papers := by_category category papers in
  do papers <- by_date_from date_from papers;
  do papers <- by_date_to date_to papers;
  let papers := by_processed flag papers in
  let papers := by_search search papers in
  Ok (Py.sort_desc (fun p => published_date (metadata p)) papers).

Definition list_papers {L : Library} (s : DataStore)
  (category date_from date_to : option string) (flag : option bool)
  (search : option string) (limit offset : Z) : result (list Paper) :=
  do papers <- sorted_matches s category date_from date_to flag search;
  Ok (Py.slice papers offset (offset + limit)).

Definition count_papers (s : DataStore) (category : option string)
  (flag : option bool) : Z :=
  let papers := Py.dict_values (_papers_cache s) in
  let papers := by_category category papers in
  let papers := by_processed flag papers in
  Z.of_nat (List.length papers).

(** The single-field mutators: look the paper up, assign, stamp
    [updated_at], save. *)
Definition mutate {L : Library} (f : Paper -> Paper) (now : datetime)
  (id : string) (s : DataStore) : bool * DataStore :=
  match Py.dict_get id (_papers_cache s) with
  | None => (false, s)
  | Some paper =>
      let paper := with_updated_at (Some now) (f paper) in
      (true, _save_cache (set_cache (Py.dict_set id paper (_papers_cache s)) s))
  end.

Definition set_ai_analysis {L : Library} (now : datetime) (id : string)
  (analysis : AIAnalysis) : DataStore -> bool * DataStore :=
  mutate (with_ai_analysis (Some analysis)) now id.

Definition add_chat_message {L : Library} (now : datetime) (id : string)
  (message : ChatMessage) : DataStore -> bool * DataStore :=
  mutate (fun p => with_chat_history (chat_history p ++ [message]) p) now id.

Definition clear_chat_history {L : Library} (now : datetime) (id : string)
  : DataStore -> bool * DataStore :=
  mutate (with_chat_history []) now id.

Definition get_chat_history (id : string) (s : DataStore)
  : list ChatMessage :=
  match Py.dict_get id (_papers_cache s) with
  | None => []
  | Some paper => chat_history paper
  end.

Definition set_extracted_text {L : Library} (now : datetime) (id : string)
  (text : string) : DataStore -> bool * DataStore :=
  mutate (with_extracted_text (Some text)) now id.

Definition set_processed {L : Library} (now : datetime) (id : string)
  (flag : bool) : DataStore -> bool * DataStore :=
  mutate (with_processed flag) now id.

Definition reload {L : Library} (now : datetime) (s : DataStore)
  : DataStore :=
  _load_cache now (set_cache [] s).

(* ====================================================================== *)
(** * The collaborators and the state the handlers run in                  *)
(* ====================================================================== *)

(** One call of [client.chat.completions.create]. *)
Record request := {
  req_model : string;
  req_messages : list (string * string);       (* role, content *)
  req_stream : bool
}.

(** How a streamed completion unfolds: the [delta.content] of the chunks
    received, and [Some detail] when an exception with that text ends it
    (at creation when there is no chunk, in mid-stream otherwise). *)
Record stream_outcome := {
  deltas : list (option string);
  failure : option string
}.

(** The outside world, as seen by one run. *)
Record Env := {
  utcnow : nat -> datetime;                     (* the n-th clock reading *)
  default_model : string;
  completion : request -> result (option string);
  completion_stream : request -> stream_outcome;
  extract_text : string -> result (option string);
  _extract_with_pymupdf : string -> result (option string);
  path_exists : string -> bool;
  download_pdf : PaperMetadata -> option string;
  fetch_by_category : string -> result (list PaperMetadata)
}.

Record World := {
  store : DataStore;
  clock_reads : nat;
  backend_calls : list request
}.

Definition M (A : Type) : Type := World -> A * World.

Definition ret {A} (a : A) : M A := fun w => (a, w).

Definition bind {A B} (m : M A) (k : A -> M B) : M B :=
  fun w => let (a, w') := m w in k a w'.

Declare Scope m_scope.
Delimit Scope m_scope with M.
Notation "x <- m ;; k" := (bind m (fun x => k))
  (at level 61, m at next level, right associativity) : m_scope.
Notation "m ;; k" := (bind m (fun _ => k))
  (at level 61, right associativity) : m_scope.

(** [datetime.utcnow()] *)
Definition now (E : Env) : M datetime :=
  fun w => (utcnow E (clock_reads w),
            {| store := store w; clock_reads := S (clock_reads w);
               backend_calls := backend_calls w |}).

Definition read_store {A} (f : DataStore -> A) : M A :=
  fun w => (f (store w), w).

Definition on_store {A} (f : DataStore -> A * DataStore) : M A :=
  fun w => let (a, s) := f (store w) in
           (a, {| store := s; clock_reads := clock_reads w;
                  backend_calls := backend_calls w |}).

Definition call_backend (r : request) : M unit :=
  fun w => (tt, {| store := store w; clock_reads := clock_reads w;
                   backend_calls := backend_calls w ++ [r] |}).

(** Bind for computations that may raise. *)
Definition bindx {A B} (m : M (result A)) (k : A -> M (result B))
  : M (result B) :=
  bind m (fun r => match r with
                   | Ok a => k a
                   | Raise e => ret (Raise e)
                   end).

Notation "x <-! m ;; k" := (bindx m (fun x => k))
  (at level 61, m at next level, right associativity) : m_scope.

(** [str(e)] *)
Definition str_exn (e : exn) : string :=
  match e with
  | ValueError => "ValueError"
  | AttributeError => "AttributeError"
  | ValidationError => "ValidationError"
  | HTTPException _ d => d
  | Error d => d
  end.

(* ====================================================================== *)
(** * [app/services/llm_service.py]                                        *)
(* ====================================================================== *)

Definition nl : string := String (ascii_of_nat 10) "".

Definition analysis_prompt : string :=
  "You are a research assistant analyzing an academic paper. " ++
  "Provide a structured analysis with: 1. A concise summary (2-3 sentences) " ++
  "2. Key findings (bullet points) 3. Methodology overview 4. Strengths " ++
  "5. Limitations 6. Relevance score (0-100) for ML/AI research. " ++
  "Return as JSON with keys: summary, key_findings (list), methodology, " ++
  "strengths (list), limitations (list), relevance_score.".

Definition analysis_context (title abstract : string)
  (full_text : option string) : string :=
  let context := "Title: " ++ title ++ nl ++ nl ++ "Abstract: " ++ abstract in
  match full_text with
  | Some t =>
      if Py.truthy full_text
      then context ++ nl ++ nl ++ "Full Text (excerpt):" ++ nl ++ Py.take_str 15000 t
      else context
  | None => context
  end.

(** [content.split(opening)[1].split("```")[0]]; [None] is IndexError. *)
Definition between (opening content : string) : option string :=
  let? rest := Py.index (Py.split opening content) 1 in
  Py.index (Py.split "```" rest) 0.

(** The handling of Markdown code blocks; the result is the new value
    of the variable [content]. *)
Definition strip_fences (content : string) : option string :=
  if Py.contains "```json" content then between "```json" content
  else if Py.contains "```" content then between "```" content
  else Some content.

(** [data.get(k, dflt)] *)
Definition get_or (k : string) (dflt : json) (data : json) : json :=
  match member k data with
  | Some v => v
  | None => dflt
  end.

(** [AIAnalysis(summary=data.get("summary", ""), ...)] *)
Definition AIAnalysis_of_data (t : datetime) (data : json)
  : result AIAnalysis :=
  if is_object data then
    let built :=
      let? s := val_str (get_or "summary" (JStr "") data) in
      let? kf := val_list val_str (get_or "key_findings" (JArr []) data) in
      let? m := val_opt val_str (get_or "methodology" JNull data) in
      let? st := val_list val_str (get_or "strengths" (JArr []) data) in
      let? li := val_list val_str (get_or "limitations" (JArr []) data) in
      let? rs := val_opt val_float (get_or "relevance_score" JNull data) in
      Some {| summary := s; key_findings := kf; methodology := m;
              strengths := st; limitations := li; relevance_score := rs;
              generated_at := t |} in
    match built with
    | Some a => Ok a
    | None => Raise ValidationError
    end
  else Raise AttributeError.

(** [AIAnalysis(summary=s)] *)
Definition summary_only (t : datetime) (s : string) : AIAnalysis :=
  {| summary := s; key_findings := []; methodology := None;
     strengths := []; limitations := []; relevance_score := None;
     generated_at := t |}.

(** The [try] block of [analyze_paper] with its handler for
    [JSONDecodeError] and [KeyError]. *)
Definition parse_analysis {L : Library} (t : datetime) (content : string)
  : result AIAnalysis :=
  match strip_fences content with
  | None => Raise (Error "IndexError")
  | Some content =>
      match json_loads content with
      | Some data => AIAnalysis_of_data t data
      | None => Ok (summary_only t (Py.take_str 500 content))
      end
  end.

(** [x or dflt] on an optional string. *)
Definition or_else (x : option string) (dflt : string) : string :=
  match x with
  | Some (String _ _ as s) => s
  | _ => dflt
  end.

Definition analysis_request (E : Env) (title abstract : string)
  (full_text : option string) : request :=
  {| req_model := default_model E;
     req_messages :=
       [("system", analysis_prompt);
        ("user", analysis_context title abstract full_text)];
     req_stream := false |}.

Definition analyze_paper {L : Library} (E : Env) (title abstract : string)
  (full_text : option string) : M (result AIAnalysis) :=
  (let req := analysis_request E title abstract full_text in
   call_backend req ;;
   match completion E req with
   | Raise e => ret (Raise e)
   | Ok reply =>
       let content := or_else reply "{}" in
       t <- now E ;;
       ret (parse_analysis t content)
   end)%M.

Definition chat_prompt (paper_text : string) : string :=
  "You are a research assistant helping a user understand an academic paper. " ++
  "You must answer based ONLY on the provided paper content. " ++
  "If the answer cannot be found in the paper, say so clearly. " ++
  "Paper content:" ++ nl ++ Py.take_str 50000 paper_text ++ nl ++ nl ++
  "Current conversation:".

(** The fragments the loop over the stream yields: the non-empty
    [delta.content]. *)
Fixpoint yielded (ds : list (option string)) : list string :=
  match ds with
  | [] => []
  | Some (String _ _ as c) :: ds' => c :: yielded ds'
  | _ :: ds' => yielded ds'
  end.

Definition chat_request (E : Env) (paper_text : string)
  (messages : list (string * string)) (model : option string) : request :=
  let selected_model := or_else model (default_model E) in
  let full_messages := ("system", chat_prompt paper_text) :: messages in
  {| req_model := selected_model; req_messages := full_messages;
     req_stream := true |}.

(** [chat_with_context], as the sequence of fragments it yields. *)
Definition chat_with_context (E : Env) (paper_text : string)
  (messages : list (string * string)) (model : option string)
  : M (list string) :=
  (let req := chat_request E paper_text messages model in
   call_backend req ;;
   let o := completion_stream E req in
   ret (app (yielded (deltas o))
            match failure o with
            | Some e => ["Error: " ++ e]
            | None => []
            end))%M.

(* ====================================================================== *)
(** * The store inside a run                                               *)
(* ====================================================================== *)

(** A mutator of the store called from a handler: the clock is read only
    when the paper is found. *)
Definition store_mutate (E : Env)
  (op : datetime -> string -> DataStore -> bool * DataStore) (id : string)
  : M bool :=
  (present <- read_store (fun s => Py.dict_mem id (_papers_cache s)) ;;
   if present
   then t <- now E ;; on_store (op t id)
   else ret false)%M.

(* ====================================================================== *)
(** * [app/api/routes/chat.py]                                             *)
(* ====================================================================== *)

Definition not_extracted : string :=
  "Paper text not extracted. Please process the paper first.".

(** Server-sent events: event name and data. *)
Definition event : Type := string * string.

(** [response_text = ""] followed by [response_text += chunk] for each
    chunk. *)
Definition accumulate (chunks : list string) : string :=
  fold_left (fun response_text chunk => response_text ++ chunk) chunks "".

(** [chat_event_generator], run to the end of the stream. *)
Definition chat_event_generator {L : Library} (E : Env) (id : string)
  (user_message : string) (model : option string) : M (list event) :=
  (paper <- read_store (get_paper id) ;;
   match paper with
   | None => ret [("error", "Paper not found")]
   | Some paper =>
       match extracted_text paper with
       | Some (String _ _ as text) =>
           let messages :=
             app (map (fun msg => (role msg, content msg))
                      (Py.last_n 10 (chat_history paper)))
                 [("user", user_message)] in
           t <- now E ;;
           let user_msg :=
             {| role := "user"; content := user_message; timestamp := t |} in
           store_mutate E (fun t id => add_chat_message t id user_msg) id ;;
           chunks <- chat_with_context E text messages model ;;
           let response_text := accumulate chunks in
           t <- now E ;;
           let assistant_msg :=
             {| role := "assistant"; content := response_text;
                timestamp := t |} in
           store_mutate E (fun t id => add_chat_message t id assistant_msg) id ;;
           ret (app (map (fun c => ("message", c)) chunks) [("done", "")])
       | _ => ret [("error", not_extracted)]
       end
   end)%M.

(** [chat_with_paper]; the response streams the generator's events. *)
Definition chat_with_paper {L : Library} (E : Env) (id : string)
  (message : string) (model : option string) : M (result (list event)) :=
  (paper <- read_store (get_paper id) ;;
   match paper with
   | None => ret (Raise (HTTPException 404 "Paper not found"))
   | Some paper =>
       if negb (Py.truthy (extracted_text paper))
       then ret (Raise (HTTPException 400 not_extracted))
       else evs <- chat_event_generator E id message model ;; ret (Ok evs)
   end)%M.

Record summary_response := {
  resp_summary : string;
  resp_key_findings : list string;
  resp_methodology : option string;
  resp_strengths : list string;
  resp_limitations : list string
}.

Definition generate_paper_summary {L : Library} (E : Env) (id : string)
  : M (result summary_response) :=
  (paper <- read_store (get_paper id) ;;
   match paper with
   | None => ret (Raise (HTTPException 404 "Paper not found"))
   | Some paper =>
       if negb (Py.truthy (extracted_text paper))
       then ret (Raise (HTTPException 400 not_extracted))
       else
         analysis <-! analyze_paper E (title (metadata paper))
                        (abstract (metadata paper)) (extracted_text paper) ;;
         store_mutate E (fun t id => set_ai_analysis t id analysis) id ;;
         ret (Ok {| resp_summary := summary analysis;
                    resp_key_findings := key_findings analysis;
                    resp_methodology := methodology analysis;
                    resp_strengths := strengths analysis;
                    resp_limitations := limitations analysis |})
   end)%M.

(* ====================================================================== *)
(** * [app/api/routes/papers.py]: [process_paper]                          *)
(* ====================================================================== *)

Record ProcessResponse := {
  resp_arxiv_id : string;
  ocr_success : bool;
  text_extracted : bool;
  ai_analysis_generated : bool;
  message : string
}.

(** [if text: data_store.set_extracted_text(arxiv_id, text)]; the result
    tells whether the text was stored. *)
Definition store_text {L : Library} (E : Env) (id : string)
  (text : option string) : M bool :=
  match text with
  | Some (String _ _ as t) =>
      (store_mutate E (fun now id => set_extracted_text now id t) id ;;
       ret true)%M
  | _ => ret false
  end.

(** The OCR block: the primary extractor and, when it raises, PyMuPDF. *)
Definition ocr_block {L : Library} (E : Env) (id path : string)
  (skip_ocr : bool) : M bool :=
  if skip_ocr then ret false
  else
    match extract_text E path with
    | Ok text => store_text E id text
    | Raise _ =>
        match _extract_with_pymupdf E path with
        | Ok text => store_text E id text
        | Raise _ => ret false
        end
    end.

(** The analysis block.  The source calls [llm_service.analyze_paper]
    here without awaiting it; the block is modelled with the call
    carried out, and [true] means that the analysis was stored. *)
Definition analysis_block {L : Library} (E : Env) (id : string)
  (paper : Paper) : M bool :=
  (r <- analyze_paper E (title (metadata paper)) (abstract (metadata paper))
          (extracted_text paper) ;;
   match r with
   | Ok analysis =>
       store_mutate E (fun t id => set_ai_analysis t id analysis) id ;;
       ret true
   | Raise _ => ret false
   end)%M.

Definition process_paper {L : Library} (E : Env) (id : string)
  (skip_ocr : bool) : M (result ProcessResponse) :=
  (paper <- read_store (get_paper id) ;;
   match paper with
   | None => ret (Raise (HTTPException 404 "Paper not found"))
   | Some paper =>
       match pdf_path paper with
       | Some (String _ _ as path) =>
           if path_exists E path then
             extracted <- ocr_block E id path skip_ocr ;;
             (* [paper] is the object held by the store: it is read
                again after the store has written to it. *)
             current <- read_store (get_paper id) ;;
             let paper := match current with Some p => p | None => paper end in
             generated <- analysis_block E id paper ;;
             store_mutate E (fun t id => set_processed t id true) id ;;
             ret (Ok {| resp_arxiv_id := id;
                        ocr_success := extracted;
                        text_extracted := extracted;
                        ai_analysis_generated := generated;
                        message := if generated then "Processing complete"
                                   else "Partial processing completed" |})
           else ret (Raise (HTTPException 400 "PDF file not found"))
       | _ => ret (Raise (HTTPException 400 "PDF file not found"))
       end
   end)%M.

(* ====================================================================== *)
(** * [app/utils/scheduler.py]                                             *)
(* ====================================================================== *)

Record fetch_tally := {
  found : Z;
  downloaded : Z;
  saved : Z
}.

(** One turn of the loop of [_fetch_category]. *)
Definition fetch_one {L : Library} (E : Env) (acc : Z * Z)
  (m : PaperMetadata) : M (Z * Z) :=
  (t <- now E ;;
   let paper := new_paper t m in
   let pdf := download_pdf E m in
   let got := Py.truthy pdf in
   let paper := if got then with_pdf_path pdf paper else paper in
   let papers_downloaded := if got then fst acc + 1 else fst acc in
   added <- on_store (add_paper paper) ;;
   let papers_saved := if added : bool then snd acc + 1 else snd acc in
   ret (papers_downloaded, papers_saved))%M.

Fixpoint for_each {A S} (step : S -> A -> M S) (acc : S) (l : list A)
  : M S :=
  match l with
  | [] => ret acc
  | x :: l' => (acc' <- step acc x ;; for_each step acc' l')%M
  end.

Definition _fetch_category {L : Library} (E : Env) (category : string)
  : M (result fetch_tally) :=
  match fetch_by_category E category with
  | Raise e => ret (Raise e)
  | Ok papers_data =>
      (acc <- for_each (fetch_one E) (0, 0) papers_data ;;
       ret (Ok {| found := Z.of_nat (List.length papers_data);
                  downloaded := fst acc;
                  saved := snd acc |}))%M
  end.

(** An entry of the result of [fetch_all_categories]: the tally of the
    category, or [{"error": str(e)}]. *)
Inductive category_result : Type :=
| Fetched (t : fetch_tally)
| Failed (error : string).

Definition fetch_category_step {L : Library} (E : Env)
  (results : Py.dict category_result) (category : string)
  : M (Py.dict category_result) :=
  (r <- _fetch_category E category ;;
   match r with
   | Ok result => ret (Py.dict_set category (Fetched result) results)
   | Raise e => ret (Py.dict_set category (Failed (str_exn e)) results)
   end)%M.

Definition fetch_all_categories {L : Library} (E : Env)
  (_categories : list string) : M (Py.dict category_result) :=
  for_each (fetch_category_step E) [] _categories.

Record process_tally := {
  n_processed : Z;                              (* [results["processed"]] *)
  n_failed : Z;                                 (* [results["failed"]] *)
  n_skipped : Z                                 (* [results["skipped"]] *)
}.

(** The body of the [try] of [process_all_papers] for one paper.  The
    papers of the work list are the objects of the cache, each stored
    under its own identifier, and the loop writes to a paper through that
    identifier only: what is read from [paper] before the first write is
    current, and after a write the paper is read from the store again. *)
Definition process_body {L : Library} (E : Env) (paper : Paper)
  (path : string) : M (result unit) :=
  (let id := arxiv_id (metadata paper) in
   _ <-! (if Py.truthy (extracted_text paper) then ret (Ok tt)
          else match extract_text E path with
               | Raise e => ret (Raise e)
               | Ok text => store_text E id text ;; ret (Ok tt)
               end) ;;
   (* [paper] is the object held by the store under [id]. *)
   current <- read_store (get_paper id) ;;
   let paper := match current with Some p => p | None => paper end in
   analysis <-! analyze_paper E (title (metadata paper))
                  (abstract (metadata paper)) (extracted_text paper) ;;
   store_mutate E (fun t id => set_ai_analysis t id analysis) id ;;
   store_mutate E (fun t id => set_processed t id true) id ;;
   ret (Ok tt))%M.

Definition process_one {L : Library} (E : Env) (results : process_tally)
  (paper : Paper) : M process_tally :=
  match pdf_path paper with
  | Some (String _ _ as path) =>
      (r <- process_body E paper path ;;
       match r with
       | Ok _ =>
           ret {| n_processed := n_processed results + 1;
                  n_failed := n_failed results;
                  n_skipped := n_skipped results |}
       | Raise _ =>
           ret {| n_processed := n_processed results;
                  n_failed := n_failed results + 1;
                  n_skipped := n_skipped results |}
       end)%M
  | _ =>
      ret {| n_processed := n_processed results;
             n_failed := n_failed results;
             n_skipped := n_skipped results + 1 |}
  end.

(** The papers the job works on: [data_store.list_papers(processed=False)],
    with the defaults [limit=50], [offset=0] of that function. *)
Definition unprocessed {L : Library} (s : DataStore) : list Paper :=
  match list_papers s None None None (Some false) None 50 0 with
  | Ok papers => papers
  | Raise _ => []
  end.

Definition process_all_papers {L : Library} (E : Env) : M process_tally :=
  (papers <- read_store unprocessed ;;
   for_each (process_one E)
     {| n_processed := 0; n_failed := 0; n_skipped := 0 |} papers)%M.

(* ====================================================================== *)
(** * The rest of [app/services/data_store.py]                             *)
(* ====================================================================== *)






Definition clear_all (s : DataStore) : Z * DataStore :=
  let count := Z.of_nat (List.length (_papers_cache s)) in
  (count, _save_to_file [] (set_cache [] s)).

(* ====================================================================== *)
(** * The rest of [app/services/llm_service.py]                            *)
(* ====================================================================== *)

Definition explain_prompt : string :=
  "You are a research assistant. Explain this academic abstract " ++
  "clearly and concisely for a researcher. Focus on the key " ++
  "contribution and methodology. Keep it brief (2-3 sentences).".

Definition explain_request (E : Env) (abstract : string) : request :=
  {| req_model := default_model E;
     req_messages := [("system", explain_prompt); ("user", abstract)];
     req_stream := false |}.

Definition explain_abstract (E : Env) (abstract : string)
  : M (result string) :=
  match abstract with
  | EmptyString => ret (Ok "")
  | _ =>
      (let req := explain_request E abstract in
       call_backend req ;;
       match completion E req with
       | Raise e => ret (Raise e)
       | Ok reply => ret (Ok (or_else reply ""))
       end)%M
  end.

(* ====================================================================== *)
(** * The rest of [app/api/routes/chat.py]                                 *)
(* ====================================================================== *)

(** An element of the answer of [get_chat_history]; the timestamp is
    sent as its [isoformat()]. *)
Record history_item := {
  item_role : string;
  item_content : string;
  item_timestamp : datetime
}.

Definition get_chat_history_route (id : string)
  : M (result (list history_item)) :=
  (paper <- read_store (get_paper id) ;;
   match paper with
   | None => ret (Raise (HTTPException 404 "Paper not found"))
   | Some paper =>
       ret (Ok (map (fun msg => {| item_role := role msg;
                                   item_content := content msg;
                                   item_timestamp := timestamp msg |})
                    (chat_history paper)))
   end)%M.

Definition clear_chat_history_route {L : Library} (E : Env) (id : string)
  : M (result string) :=
  (paper <- read_store (get_paper id) ;;
   match paper with
   | None => ret (Raise (HTTPException 404 "Paper not found"))
   | Some _ =>
       store_mutate E clear_chat_history id ;;
       ret (Ok "Chat history cleared")
   end)%M.

(* ====================================================================== *)
(** * The rest of [app/api/routes/papers.py]                               *)
(* ====================================================================== *)

Record PaperResponse := {
  pr_arxiv_id : string;
  pr_title : string;
  pr_authors : list string;
  pr_abstract : string;
  pr_published_date : datetime;
  pr_category : string;
  pr_ai_summary : option string;
  pr_processed : bool
}.



(** [get_paper_pdf]: the path and the file name of the file response. *)
Definition get_paper_pdf (E : Env) (id : string)
  : M (result (string * string)) :=
  (paper <- read_store (get_paper id) ;;
   match paper with
   | None => ret (Raise (HTTPException 404 "Paper not found"))
   | Some paper =>
       match pdf_path paper with
       | Some (String _ _ as path) =>
           if path_exists E path
           then ret (Ok (path, id ++ ".pdf"))
           else ret (Raise (HTTPException 404 "PDF file not found"))
       | _ => ret (Raise (HTTPException 404 "PDF file not found"))
       end
   end)%M.

(** The catalog as the fetch handler uses it: queried for a day, with
    the parser the handler applies to the date of the request
    ([datetime.strptime(text, "%Y-%m-%d").date()], [None] is its
    [ValueError]) and the day of the call as
    [datetime.now().strftime("%Y-%m-%d")]. *)
Record Calendar (date : Type) := {
  strptime : string -> option date;
  fetch_by_category_on : string -> option date -> result (list PaperMetadata);
  today : string
}.
Arguments strptime {date} c _.
Arguments fetch_by_category_on {date} c _ _.
Arguments today {date} c.

Record FetchResponse := {
  fr_category : string;
  fr_date : string;
  papers_found : Z;
  papers_downloaded : Z;
  fr_papers : list PaperResponse
}.

(** The element of the answer of the fetch handler for a saved paper. *)
Definition fetched (p : Paper) : PaperResponse :=
  {| pr_arxiv_id := arxiv_id (metadata p);
     pr_title := title (metadata p);
     pr_authors := map name (authors (metadata p));
     pr_abstract := abstract (metadata p);
     pr_published_date := published_date (metadata p);
     pr_category := primary_category (metadata p);
     pr_ai_summary := None;
     pr_processed := processed p |}.

(** One turn of the loop of [fetch_papers]. *)
Definition fetch_papers_step {L : Library} (E : Env)
  (acc : Z * list Paper) (m : PaperMetadata) : M (Z * list Paper) :=
  (t <- now E ;;
   let paper := new_paper t m in
   let pdf := download_pdf E m in
   let got := Py.truthy pdf in
   let paper := if got then with_pdf_path pdf paper else paper in
   let papers_downloaded := if got then fst acc + 1 else fst acc in
   added <- on_store (add_paper paper) ;;
   let saved_papers :=
     if added : bool then (snd acc ++ [paper])%list else snd acc in
   ret (papers_downloaded, saved_papers))%M.

Definition fetch_papers {L : Library} {date : Type} (C : Calendar date)
  (E : Env) (category : string) (request_date : option string)
  : M (result FetchResponse) :=
  let parsed :=
    match request_date with
    | Some (String _ _ as text) =>
        match strptime C text with
        | Some d => Ok (Some d)
        | None =>
            Raise (HTTPException 400 "Invalid date format. Use YYYY-MM-DD")
        end
    | _ => Ok None
    end in
  match parsed with
  | Raise e => ret (Raise e)
  | Ok fetch_date =>
      match fetch_by_category_on C category fetch_date with
      | Raise e =>
          ret (Raise (HTTPException 500
                        ("Failed to fetch from arXiv: " ++ str_exn e)))
      | Ok papers_data =>
          (acc <- for_each (fetch_papers_step E) (0, []) papers_data ;;
           ret (Ok {| fr_category := category;
                      fr_date := or_else request_date (today C);
                      papers_found := Z.of_nat (List.length papers_data);
                      papers_downloaded := fst acc;
                      fr_papers := map fetched (snd acc) |}))%M
      end
  end.

(* ====================================================================== *)
(** * More of Python's strings                                             *)
(* ====================================================================== *)

(** [sep.join(texts)] *)
Fixpoint join (sep : string) (texts : list string) : string :=
  match texts with
  | [] => ""
  | [t] => t
  | t :: rest => t ++ sep ++ join sep rest
  end.

(** The characters [str.strip] removes, among those below 256. *)
Definition is_space (c : ascii) : bool :=
  let n := nat_of_ascii c in
  ((9 <=? n) && (n <=? 13) || (28 <=? n) && (n <=? 32)
   || (n =? 133) || (n =? 160))%nat.

Fixpoint lstrip (s : string) : string :=
  match s with
  | EmptyString => EmptyString
  | String c s' => if is_space c then lstrip s' else s
  end.

(** [s.strip()] *)
Definition strip (s : string) : string :=
  Py.rev_string "" (lstrip (Py.rev_string "" (lstrip s))).

(* ====================================================================== *)
(** * The configuration of the scheduler                                   *)
(* ====================================================================== *)

(** The categories [SchedulerService.__init__] reads from the setting:
    [[c.strip() for c in settings.SCHEDULER_CATEGORIES.split(",")]]. *)
Definition init_categories (SCHEDULER_CATEGORIES : string) : list string :=
  map strip (Py.split "," SCHEDULER_CATEGORIES).

(* ====================================================================== *)
(** * [app/services/arxiv_service.py]                                      *)
(* ====================================================================== *)

(** The identifier [_parse_entry] gives a paper, computed from
    [entry.id] by the first statements of the function:
    [arxiv_id = entry.id.split("/abs/")[-1]], then, if ["/v" in arxiv_id],
    [arxiv_id = arxiv_id.split("/v")[0]]. *)
Definition _parse_entry_arxiv_id (entry_id : string) : string :=
  let arxiv_id := last (Py.split "/abs/" entry_id) "" in
  if Py.contains "/v" arxiv_id
  then hd "" (Py.split "/v" arxiv_id)
  else arxiv_id.

(* ====================================================================== *)
(** * [app/services/ocr_service.py]                                        *)
(* ====================================================================== *)

Module OCR.

(** The settings the service reads and the world it acts on.
    [post url pdf_path] is the decoded answer of the recognition service
    to the request [_call_paddleocr] sends for the file: [None] when
    reading the file, the request, the status check or the decoding
    raises.  [page_texts pdf_path] is [page.get_text()] for the pages of
    the document in order: [None] when PyMuPDF raises. *)
Record Service := {
  api_url : string;
  token : string;
  file_exists : string -> bool;
  post : string -> string -> option json;
  page_texts : string -> option (list string)
}.

(** The truth value of a decoded JSON value. *)
Definition truth (j : json) : bool :=
  match j with
  | JNull => false
  | JBool b => b
  | JNum q => negb (Qnum q =? 0)
  | JStr EmptyString => false
  | JStr (String _ _) => true
  | JArr [] => false
  | JArr (_ :: _) => true
  | JObj [] => false
  | JObj (_ :: _) => true
  end.

(** [v.get(k, dflt)]; [None] is the AttributeError of a value that is
    not a dict. *)
Definition get (k : string) (dflt : json) (v : json) : option json :=
  match v with
  | JObj _ => Some (get_or k dflt v)
  | _ => None
  end.

Fixpoint characters (s : string) : list json :=
  match s with
  | EmptyString => []
  | String c s' => JStr (String c "") :: characters s'
  end.

(** What a [for] loop and [list.extend] take from a value: the elements
    of a list, the characters of a string, the keys of a dict; [None] is
    the TypeError of a value that is not iterable. *)
Definition elements (v : json) : option (list json) :=
  match v with
  | JArr l => Some l
  | JStr s => Some (characters s)
  | JObj ms => Some (map JStr (Py.dict_keys (Py.dict_of_pairs ms)))
  | _ => None
  end.

(** The loop over the results: [texts.extend(item.get("rec_texts", []))]
    for each item. *)
Fixpoint collect (items texts : list json) : option (list json) :=
  match items with
  | [] => Some texts
  | item :: rest =>
      let? rec_texts := get "rec_texts" (JArr []) item in
      let? more := elements rec_texts in
      collect rest (texts ++ more)%list
  end.

(** The part of [_call_paddleocr] that reads the decoded answer.  Every
    exception ends in the handler that returns [None], as the answer
    without success does. *)
Definition recognized (result : json) : option string :=
  let? success := get "success" JNull result in
  if truth success then
    let? results := get "results" (JArr []) result in
    let? items := elements results in
    let? texts := collect items [] in
    let? lines := val_all val_str texts in
    Some (join nl lines)
  else None.

Definition _call_paddleocr (S : Service) (pdf_path : string)
  : option string :=
  match token S with
  | EmptyString => None
  | String _ _ =>
      let url := api_url S ++ "?access_token=" ++ token S in
      let? result := post S url pdf_path in
      recognized result
  end.

Definition _extract_with_pymupdf (S : Service) (pdf_path : string)
  : option string :=
  let? pages := page_texts S pdf_path in
  let text_parts :=
    filter (fun text => match strip text with
                        | EmptyString => false
                        | String _ _ => true
                        end) pages in
  Some (join nl text_parts).

Definition extract_text (S : Service) (pdf_path : string) : option string :=
  if negb (file_exists S pdf_path) then None
  else
    let paddle :=
      match token S with
      | EmptyString => None
      | String _ _ =>
          match _call_paddleocr S pdf_path with
          | Some (String _ _ as text) => Some text
          | _ => None
          end
      end in
    match paddle with
    | Some text => Some text
    | None => _extract_with_pymupdf S pdf_path
    end.

End OCR.

(* ====================================================================== *)
(** * A reference instance of the library                                  *)
(* ====================================================================== *)

(** Used to run the model on concrete inputs.  The decoder covers JSON
    without exponents and without string escapes other than the
    backslash-quote and backslash-backslash pairs; a datetime is written
    as its decimal microsecond count. *)
Module Ref.

Definition is_ws (c : ascii) : bool :=
  let n := nat_of_ascii c in
  ((n =? 32) || (n =? 9) || (n =? 10) || (n =? 13))%nat.

Fixpoint skip_ws (s : string) : string :=
  match s with
  | String c s' => if is_ws c then skip_ws s' else s
  | EmptyString => s
  end.

Definition digit (c : ascii) : option Z :=
  let n := nat_of_ascii c in
  if ((48 <=? n) && (n <=? 57))%nat then Some (Z.of_nat (n - 48)) else None.

(** Digits in front of [s]: their value, their number, and the rest. *)
Fixpoint digits (acc : Z) (count : nat) (s : string) : Z * nat * string :=
  match s with
  | String c s' =>
      match digit c with
      | Some d => digits (10 * acc + d) (S count) s'
      | None => (acc, count, s)
      end
  | EmptyString => (acc, count, s)
  end.

Definition number (s : string) : option (Q * string) :=
  let (neg, s) :=
    match s with
    | String "-" s' => (true, s')
    | _ => (false, s)
    end in
  let '(i, n, rest) := digits 0 0 s in
  match n with
  | O => None
  | S _ =>
      let '(num, den, rest) :=
        match rest with
        | String "." r =>
            let '(f, m, r') := digits 0 0 r in
            (i * 10 ^ Z.of_nat m + f, 10 ^ Z.of_nat m, r')
        | _ => (i, 1, rest)
        end in
      Some (Qmake (if neg then - num else num) (Z.to_pos den), rest)
  end.

Definition quote : ascii := ascii_of_nat 34.
Definition backslash : ascii := ascii_of_nat 92.

(** The body of a string literal, after its opening quote. *)
Fixpoint literal (acc s : string) : option (string * string) :=
  match s with
  | EmptyString => None
  | String c rest =>
      if Ascii.eqb c quote then Some (Py.rev_string "" acc, rest)
      else if Ascii.eqb c backslash then
             match rest with
             | String e rest' =>
                 if (Ascii.eqb e quote || Ascii.eqb e backslash)%bool
                 then literal (String e acc) rest'
                 else None
             | EmptyString => None
             end
           else literal (String c acc) rest
  end.

(** Comma-separated items up to the closing character [close]. *)
Fixpoint items {A} (item : string -> option (A * string)) (close : ascii)
  (n : nat) (s : string) : option (list A * string) :=
  match n with
  | O => None
  | S n' =>
      let? xr := item s in
      match skip_ws (snd xr) with
      | String c rest =>
          if Ascii.eqb c close then Some ([fst xr], rest)
          else if Ascii.eqb c "," then
                 let? lr := items item close n' rest in
                 Some (fst xr :: fst lr, snd lr)
               else None
      | EmptyString => None
      end
  end.

Definition pair_of (value : string -> option (json * string)) (s : string)
  : option (string * json * string) :=
  match skip_ws s with
  | String c rest =>
      if Ascii.eqb c quote then
        let? kr := literal "" rest in
        match skip_ws (snd kr) with
        | String ":" rest' =>
            let? vr := value rest' in
            Some (fst kr, fst vr, snd vr)
        | _ => None
        end
      else None
  | EmptyString => None
  end.

Fixpoint value (fuel : nat) (s : string) : option (json * string) :=
  match fuel with
  | O => None
  | S fuel' =>
      match skip_ws s with
      | String "n" (String "u" (String "l" (String "l" rest))) =>
          Some (JNull, rest)
      | String "t" (String "r" (String "u" (String "e" rest))) =>
          Some (JBool true, rest)
      | String "f" (String "a" (String "l" (String "s" (String "e" rest)))) =>
          Some (JBool false, rest)
      | String "[" rest =>
          match skip_ws rest with
          | String "]" rest' => Some (JArr [], rest')
          | _ =>
              let? lr := items (value fuel') "]" (S (String.length rest)) rest in
              Some (JArr (fst lr), snd lr)
          end
      | String "{" rest =>
          match skip_ws rest with
          | String "}" rest' => Some (JObj [], rest')
          | _ =>
              let? lr := items (pair_of (value fuel')) "}"
                           (S (String.length rest)) rest in
              Some (JObj (fst lr), snd lr)
          end
      | String c rest as other =>
          if Ascii.eqb c quote then
            let? sr := literal "" rest in Some (JStr (fst sr), snd sr)
          else
            let? qr := number other in Some (JNum (fst qr), snd qr)
      | EmptyString => None
      end
  end.

Definition loads (s : string) : option json :=
  let? jr := value (S (String.length s)) s in
  match skip_ws (snd jr) with
  | EmptyString => Some (fst jr)
  | _ => None
  end.

Definition text_of_datetime (d : datetime) : string :=
  NilEmpty.string_of_int (Z.to_int d).

Definition datetime_of_text (s : string) : option datetime :=
  option_map Z.of_int (NilEmpty.int_of_string s).

Definition validate_datetime (j : json) : option datetime :=
  match j with
  | JStr s => datetime_of_text s
  | _ => None
  end.

#[global] Instance library : Library := {|
  json_loads := loads;
  datetime_isoformat := text_of_datetime;
  datetime_validate := validate_datetime;
  fromisoformat := datetime_of_text
|}.

End Ref.

(* ====================================================================== *)
(** * Sample data, after [tests/conftest.py] and [tests/test_data_store.py] *)
(* ====================================================================== *)

Module Sample.

(** Midnight of a day of January 2024, counted from the start of that
    month. *)
Definition january (day : Z) : datetime := (day - 1) * 86400000000.

Definition sample_paper_metadata : PaperMetadata :=
  {| arxiv_id := "test-1234.5678";
     title := "Test Paper Title";
     authors := [{| name := "Test Author";
                    author_arxiv_id := Some "testauthor1" |}];
     abstract := "This is a test abstract for the paper.";
     published_date := january 15;
     updated_date := Some (january 20);
     pdf_url := "http://arxiv.org/pdf/test-1234.5678.pdf";
     primary_category := "cs.AI";
     categories := ["cs.AI"; "cs.LG"];
     comment := Some "Test comment";
     journal_ref := Some "Test Journal Ref";
     doi := Some "10.1234/test.doi" |}.

Definition sample_ai_analysis : AIAnalysis :=
  {| summary := "Test summary";
     key_findings := ["Finding 1"; "Finding 2"];
     methodology := Some "Test methodology";
     strengths := ["Strength 1"];
     limitations := ["Limitation 1"];
     relevance_score := Some 0.85%Q;
     generated_at := january 21 |}.

Definition sample_chat_message : ChatMessage :=
  {| role := "user"; content := "What is the main contribution?";
     timestamp := january 22 |}.

Definition sample_paper : Paper :=
  {| metadata := sample_paper_metadata;
     pdf_path := Some "papers/test-1234.5678.pdf";
     extracted_text := Some "Extracted text content";
     ai_analysis := Some sample_ai_analysis;
     chat_history := [sample_chat_message];
     processed := true;
     created_at := january 21;
     updated_at := None |}.

(** The papers of [test_list_papers_sort_by_date]. *)
Definition sort_metadata (i : string) (date : datetime) : PaperMetadata :=
  {| arxiv_id := "test-sort-" ++ i;
     title := "Paper " ++ i;
     authors := [];
     abstract := "Abstract";
     published_date := date;
     updated_date := None;
     pdf_url := "http://test.com/sort-" ++ i ++ ".pdf";
     primary_category := "cs.AI";
     categories := [];
     comment := None; journal_ref := None; doi := None |}.

Definition sort_paper (i : string) (date : datetime) : Paper :=
  new_paper (january 23) (sort_metadata i date).

Definition paper0 : Paper := sort_paper "0" (january 10).
Definition paper1 : Paper := sort_paper "1" (january 20).
Definition paper2 : Paper := sort_paper "2" (january 15).

(** A fresh store, and the store after the three papers were added in
    that order. *)
Definition empty_store : DataStore := init (january 23) None.

Definition sorted_store : DataStore :=
  snd (add_paper paper2 (snd (add_paper paper1 (snd (add_paper paper0 empty_store))))).

(** A world in which the generation backend cannot be reached and no
    document exists. *)
Definition unreachable : Env :=
  {| utcnow := fun n => january 24 + Z.of_nat n;
     default_model := "anthropic/claude-3.5-sonnet";
     completion := fun _ => Raise (Error "Connection error.");
     completion_stream :=
       fun _ => {| deltas := []; failure := Some "Connection error." |};
     extract_text := fun _ => Ok None;
     _extract_with_pymupdf := fun _ => Ok None;
     path_exists := fun _ => false;
     download_pdf := fun _ => None;
     fetch_by_category := fun _ => Raise (Error "Connection error.") |}.

(** A world in which the generation backend answers every completion
    with [reply] and every stream with [outcome]. *)
Definition answering (reply : option string) (outcome : stream_outcome)
  : Env :=
  {| utcnow := fun n => january 24 + Z.of_nat n;
     default_model := "anthropic/claude-3.5-sonnet";
     completion := fun _ => Ok reply;
     completion_stream := fun _ => outcome;
     extract_text := fun _ => Ok (Some "Extracted text content");
     _extract_with_pymupdf := fun _ => Ok None;
     path_exists := fun _ => true;
     download_pdf := fun _ => None;
     fetch_by_category := fun _ => Ok [] |}.

Definition no_stream : stream_outcome :=
  {| deltas := []; failure := None |}.


(** A paper that was fetched and downloaded, and nothing more. *)
Definition downloaded_paper : Paper :=
  with_pdf_path (Some "papers/cs.AI/2024-01-10/test-sort-0.pdf") paper0.

Definition downloaded_store : DataStore :=
  snd (add_paper downloaded_paper empty_store).

(** The catalog returns three records; the document of the second
    cannot be downloaded. *)
Definition second_download_fails : Env :=
  {| utcnow := fun n => january 24 + Z.of_nat n;
     default_model := "anthropic/claude-3.5-sonnet";
     completion := fun _ => Ok None;
     completion_stream := fun _ => {| deltas := []; failure := None |};
     extract_text := fun _ => Ok None;
     _extract_with_pymupdf := fun _ => Ok None;
     path_exists := fun _ => true;
     download_pdf :=
       fun m => if String.eqb (arxiv_id m) "test-sort-1" then None
                else Some ("papers/cs.AI/" ++ arxiv_id m ++ ".pdf");
     fetch_by_category :=
       fun _ => Ok [metadata paper0; metadata paper1; metadata paper2] |}.

(** The three papers with their documents, and a backend that fails on
    the requests about the second of them. *)
Definition with_document (p : Paper) : Paper :=
  with_pdf_path (Some ("papers/cs.AI/" ++ arxiv_id (metadata p) ++ ".pdf")) p.

Definition documents_store : DataStore :=
  snd (add_paper (with_document paper2)
         (snd (add_paper (with_document paper1)
                 (snd (add_paper (with_document paper0) empty_store))))).

Definition fails_on_paper1 : Env :=
  {| utcnow := fun n => january 24 + Z.of_nat n;
     default_model := "anthropic/claude-3.5-sonnet";
     completion :=
       fun req =>
         if existsb (fun m => Py.contains "Title: Paper 1" (snd m))
                    (req_messages req)
         then Raise (Error "Connection error.")
         else Ok (Some "{}");
     completion_stream := fun _ => {| deltas := []; failure := None |};
     extract_text := fun _ => Ok (Some "Extracted text content");
     _extract_with_pymupdf := fun _ => Ok None;
     path_exists := fun _ => true;
     download_pdf := fun _ => None;
     fetch_by_category := fun _ => Ok [] |}.

Definition world_of (s : DataStore) : World :=
  {| store := s; clock_reads := 0; backend_calls := [] |}.

End Sample.

(* ====================================================================== *)
(** * Vocabulary of the statements                                         *)
(* ====================================================================== *)

(** The file holds the dump of every paper of the cache, and nothing
    else. *)
Definition persisted {L : Library} (s : DataStore) : Prop :=
  papers_file s =
  Some (JsonDoc (JObj (map (fun kp => (fst kp, Paper_dump (snd kp)))
                           (_papers_cache s)))).

(** A date bound as [list_papers] reads it: no bound when the argument
    is absent or empty, [None] when the text is not a date. *)
Definition date_bound {L : Library} (d : option string)
  : option (option datetime) :=
  match d with
  | Some (String _ _ as text) =>
      match fromisoformat text with
      | Some t => Some (Some t)
      | None => None
      end
  | _ => Some None
  end.

(** The filter semantics in the words of the specification: category
    exact match, inclusive date bounds, processed exact match,
    case-insensitive substring search over title or abstract, all of them
    together. *)
Definition selects (category : option string) (lo hi : option datetime)
  (flag : option bool) (search : option string) (p : Paper) : bool :=
  match category with
  | Some (String _ _ as c) => String.eqb (primary_category (metadata p)) c
  | _ => true
  end
  && match lo with
     | Some t => t <=? published_date (metadata p)
     | None => true
     end
  && match hi with
     | Some t => published_date (metadata p) <=? t
     | None => true
     end
  && match flag with
     | Some b => Bool.eqb (processed p) b
     | None => true
     end
  && match search with
     | Some (String _ _ as q) =>
         Py.contains (Py.lower q) (Py.lower (title (metadata p)))
         || Py.contains (Py.lower q) (Py.lower (abstract (metadata p)))
     | _ => true
     end.

Definition date_key (p : Paper) : Z := published_date (metadata p).

(** Newest first. *)
Definition date_descending (l : list Paper) : Prop :=
  StronglySorted (fun a b => date_key b <= date_key a) l.

(** The page of [limit] papers at [offset]. *)
Definition page {A} (limit offset : nat) (l : list A) : list A :=
  firstn limit (skipn offset l).

(** A record and the paper it validates to, under the same identifier. *)
Definition loaded_from {L : Library} (now : datetime)
  (record : string * json) (entry : string * Paper) : Prop :=
  fst entry = fst record /\ Paper_validate now (snd record) = Some (snd entry).

(** The number of documents of a batch that the fetcher obtains. *)
Definition downloads (E : Env) (ms : list PaperMetadata) : Z :=
  Z.of_nat (List.length (filter (fun m => Py.truthy (download_pdf E m)) ms)).

Definition size (s : DataStore) : Z :=
  Z.of_nat (List.length (_papers_cache s)).



(** Every paper of the cache is filed under its own identifier. *)
Definition keyed (s : DataStore) : Prop :=
  forall k p, In (k, p) (_papers_cache s) -> arxiv_id (metadata p) = k.

(** Two papers that differ at most in the field a mutator writes and in
    the stamp. *)
Definition same_metadata_and_files (p q : Paper) : Prop :=
  metadata q = metadata p /\ pdf_path q = pdf_path p /\
  created_at q = created_at p.

(** What a write to the paper [p] filed under [id] leaves as it was: the
    other papers, the order of the identifiers, the metadata, the document
    path and the creation time of the paper; the result [q] is what the
    store holds under [id], stamped at [now], and the file is in step. *)
Definition writes_only {L : Library} (now : datetime) (id : string)
  (s s' : DataStore) (p q : Paper) : Prop :=
  get_paper id s' = Some q /\
  (forall k, k <> id -> get_paper k s' = get_paper k s) /\
  Py.dict_keys (_papers_cache s') = Py.dict_keys (_papers_cache s) /\
  persisted s' /\
  same_metadata_and_files p q /\
  updated_at q = Some now.

(** Reloading from the file gives the cache the store has now. *)
Definition survives_reload {L : Library} (now : datetime) (s : DataStore)
  : Prop :=
  _papers_cache (reload now s) = _papers_cache s.


(** The papers saved according to the result of [fetch_all_categories]:
    the sum of the [saved] counts of its tallies. *)
Definition saved_of (r : category_result) : Z :=
  match r with
  | Fetched t => saved t
  | Failed _ => 0
  end.

Definition saved_total (results : Py.dict category_result) : Z :=
  fold_right (fun kr total => saved_of (snd kr) + total) 0 results.

(** The text of a paper after the extraction step of the batch job: a
    paper that has a text keeps it; one that has none gets the text of
    the extractor when that is not empty. *)
Definition text_after (E : Env) (paper : Paper) (path : string)
  : option string :=
  if Py.truthy (extracted_text paper) then extracted_text paper
  else match extract_text E path with
       | Ok (Some (String _ _ as text)) => Some text
       | _ => extracted_text paper
       end.

(** The analysis request the batch job sends for a paper. *)
Definition request_for (E : Env) (p : Paper) : request :=
  analysis_request E (title (metadata p)) (abstract (metadata p))
    (extracted_text p).

(** An item of the answer of the recognition service that is as the
    service documents it: an object whose [rec_texts], when present, is a
    list of strings. *)
Definition lines_of (item : json) (lines : list string) : Prop :=
  is_object item = true /\
  get_or "rec_texts" (JArr []) item = JArr (map JStr lines).

(** A text of white space only. *)
Fixpoint blank (s : string) : bool :=
  match s with
  | EmptyString => true
  | String c s' => is_space c && blank s'
  end.

(** The number of papers of the store that wait for processing. *)
Definition waiting (s : DataStore) : Z := count_papers s None (Some false).

(** The day a fetch request asks for: none when the date is absent or
    empty, [None] when the text is not a date. *)
Definition requested_day {date : Type} (C : Calendar date)
  (request_date : option string) : option (option date) :=
  match request_date with
  | Some (String _ _ as text) =>
      match strptime C text with
      | Some d => Some (Some d)
      | None => None
      end
  | _ => Some None
  end.

(* ====================================================================== *)
(** * Properties                                                           *)
(* ====================================================================== *)

(** ** Dictionaries *)

Lemma dict_mem_In {V} (k : string) (d : Py.dict V) :
  Py.dict_mem k d = true <-> In k (Py.dict_keys d).
Proof.
  unfold Py.dict_mem.
  induction d as [|[k' v] d IH]; simpl.
  - split; [discriminate | tauto].
  - destruct (String.eqb_spec k k') as [->|Hne].
    + split; auto.
    + rewrite IH. split; [auto | intros [H|H]; [congruence | exact H]].
Qed.

Lemma dict_mem_not_In {V} (k : string) (d : Py.dict V) :
  Py.dict_mem k d = false <-> ~ In k (Py.dict_keys d).
Proof.
  rewrite <- dict_mem_In. destruct (Py.dict_mem k d); split; congruence.
Qed.

Lemma dict_set_absent {V} (k : string) (v : V) (d : Py.dict V) :
  ~ In k (Py.dict_keys d) -> Py.dict_set k v d = (d ++ [(k, v)])%list.
Proof.
  induction d as [|[k' v'] d IH]; simpl; intros Hn; [reflexivity|].
  destruct (String.eqb_spec k k') as [->|Hne]; [tauto|].
  rewrite IH; tauto.
Qed.

Lemma dict_get_set_same {V} (k : string) (v : V) (d : Py.dict V) :
  Py.dict_get k (Py.dict_set k v d) = Some v.
Proof.
  induction d as [|[k' v'] d IH]; simpl.
  - now rewrite String.eqb_refl.
  - destruct (String.eqb_spec k k') as [->|Hne]; simpl.
    + now rewrite String.eqb_refl.
    + destruct (String.eqb_spec k k'); [congruence | exact IH].
Qed.

Lemma dict_get_set_other {V} (k k' : string) (v : V) (d : Py.dict V) :
  k' <> k -> Py.dict_get k' (Py.dict_set k v d) = Py.dict_get k' d.
Proof.
  intros Hne. induction d as [|[k0 v0] d IH]; simpl.
  - destruct (String.eqb_spec k' k); [congruence | reflexivity].
  - destruct (String.eqb_spec k k0) as [->|Hk]; simpl.
    + destruct (String.eqb_spec k' k0); [congruence | reflexivity].
    + destruct (String.eqb_spec k' k0); [reflexivity | exact IH].
Qed.

Lemma dict_keys_set_present {V} (k : string) (v : V) (d : Py.dict V) :
  In k (Py.dict_keys d) -> Py.dict_keys (Py.dict_set k v d) = Py.dict_keys d.
Proof.
  induction d as [|[k' v'] d IH]; simpl; [tauto|].
  intros Hin. destruct (String.eqb_spec k k') as [->|Hne]; simpl.
  - reflexivity.
  - f_equal. apply IH. destruct Hin; [congruence | assumption].
Qed.

(** ** The store: [add_paper] *)

(** C1. [add_paper] on an identifier that is already a key returns
    [false] and leaves cache and file as they are; on a new identifier it
    returns [true], files the paper under its identifier behind the
    papers already there, and rewrites the file with the dump of the whole
    collection. *)
Theorem add_paper_spec {L : Library} (paper : Paper) (s : DataStore) :
  let id := arxiv_id (metadata paper) in
  (In id (Py.dict_keys (_papers_cache s)) -> add_paper paper s = (false, s))
  /\
  (~ In id (Py.dict_keys (_papers_cache s)) ->
   exists s',
     add_paper paper s = (true, s') /\
     _papers_cache s' = (_papers_cache s ++ [(id, paper)])%list /\
     get_paper id s' = Some paper /\
     (forall k, k <> id -> get_paper k s' = get_paper k s) /\
     persisted s').
Proof.
  intros id. unfold add_paper. fold id. split; intros H.
  - apply dict_mem_In in H. now rewrite H.
  - pose proof H as Hm. apply dict_mem_not_In in Hm. rewrite Hm.
    eexists. split; [reflexivity|].
    unfold get_paper, persisted, _save_cache; simpl.
    repeat split.
    + now apply dict_set_absent.
    + apply dict_get_set_same.
    + intros k Hk. now apply dict_get_set_other.
Qed.

(** ** Slices and pages *)

Lemma firstn_min_length {A} (k : nat) (l : list A) :
  firstn (Nat.min (List.length l) k) l = firstn k l.
Proof.
  destruct (Nat.le_ge_cases k (List.length l)) as [H|H].
  - now rewrite Nat.min_r.
  - rewrite Nat.min_l by exact H.
    rewrite firstn_all. symmetry. now apply firstn_all2.
Qed.

Lemma slice_page {A} (l : list A) (offset limit : Z) :
  0 <= offset -> 0 <= limit ->
  Py.slice l offset (offset + limit)
  = page (Z.to_nat limit) (Z.to_nat offset) l.
Proof.
  intros Ho Hl. unfold Py.slice, page, Py.clamp.
  destruct (Z.ltb_spec offset 0) as [?|_]; [lia|].
  destruct (Z.ltb_spec (offset + limit) 0) as [?|_]; [lia|].
  rewrite Z2Nat.inj_add by assumption.
  set (n := List.length l). set (o := Z.to_nat offset). set (k := Z.to_nat limit).
  destruct (Nat.le_gt_cases n o) as [Hge|Hlt].
  - rewrite (Nat.min_l n o) by exact Hge.
    assert (Hs : skipn o l = []) by (apply skipn_all2; exact Hge).
    assert (Hs' : skipn n l = []) by (apply skipn_all2; reflexivity).
    rewrite Hs, Hs'. now rewrite !firstn_nil.
  - rewrite (Nat.min_r n o) by lia.
    replace (Nat.min n (o + k) - o)%nat
      with (Nat.min (List.length (skipn o l)) k)
      by (rewrite length_skipn; fold n; lia).
    apply firstn_min_length.
Qed.



(** ** Sorting *)

Lemma insert_desc_perm {A} (key : A -> Z) (x : A) (l : list A) :
  Permutation (x :: l) (Py.insert_desc key x l).
Proof.
  induction l as [|y l IH]; simpl; [reflexivity|].
  destruct (key y <=? key x); [reflexivity|].
  rewrite perm_swap. now constructor.
Qed.

Lemma sort_desc_perm {A} (key : A -> Z) (l : list A) :
  Permutation l (Py.sort_desc key l).
Proof.
  induction l as [|x l IH]; simpl; [constructor|].
  rewrite <- insert_desc_perm. now constructor.
Qed.

Lemma insert_desc_sorted {A} (key : A -> Z) (x : A) (l : list A) :
  StronglySorted (fun a b => key b <= key a) l ->
  StronglySorted (fun a b => key b <= key a) (Py.insert_desc key x l).
Proof.
  induction 1 as [|y l Hs IH Hall]; simpl.
  - repeat constructor.
  - destruct (Z.leb_spec (key y) (key x)) as [Hle|Hgt].
    + constructor; [now constructor|].
      constructor; [exact Hle|].
      eapply Forall_impl; [|exact Hall]. simpl. intros; lia.
    + constructor; [exact IH|].
      eapply Permutation_Forall; [apply insert_desc_perm|].
      constructor; [lia | exact Hall].
Qed.

Lemma sort_desc_sorted {A} (key : A -> Z) (l : list A) :
  StronglySorted (fun a b => key b <= key a) (Py.sort_desc key l).
Proof.
  induction l as [|x l IH]; simpl; [constructor|].
  now apply insert_desc_sorted.
Qed.

(** Stability: among the elements that share a key, the order of the
    input is kept. *)
Lemma insert_desc_filter {A} (key : A -> Z) (z : Z) (x : A) (l : list A) :
  StronglySorted (fun a b => key b <= key a) l ->
  filter (fun a => key a =? z) (Py.insert_desc key x l)
  = filter (fun a => key a =? z) (x :: l).
Proof.
  induction 1 as [|y l Hs IH Hall]; simpl; [reflexivity|].
  destruct (Z.leb_spec (key y) (key x)) as [Hle|Hgt]; [reflexivity|].
  simpl. rewrite IH. simpl.
  destruct (Z.eqb_spec (key y) z) as [Hy|Hy];
    destruct (Z.eqb_spec (key x) z) as [Hx|Hx]; try reflexivity.
  lia.
Qed.

Lemma sort_desc_stable {A} (key : A -> Z) (z : Z) (l : list A) :
  filter (fun a => key a =? z) (Py.sort_desc key l)
  = filter (fun a => key a =? z) l.
Proof.
  induction l as [|x l IH]; simpl; [reflexivity|].
  rewrite insert_desc_filter by apply sort_desc_sorted.
  simpl. now rewrite IH.
Qed.

(** ** The store: [list_papers] *)

Lemma filter_filter {A} (f g : A -> bool) (l : list A) :
  filter f (filter g l) = filter (fun x => g x && f x) l.
Proof.
  induction l as [|x l IH]; simpl; [reflexivity|].
  destruct (g x); simpl; [destruct (f x)|]; now rewrite IH.
Qed.

Lemma filter_all {A} (l : list A) : filter (fun _ => true) l = l.
Proof. induction l; simpl; congruence. Qed.

Lemma by_category_filter (category : option string) (l : list Paper) :
  by_category category l
  = filter (fun p => match category with
                     | Some (String _ _ as c) =>
                         String.eqb (primary_category (metadata p)) c
                     | _ => true
                     end) l.
Proof.
  destruct category as [[|a c]|]; simpl; now rewrite ?filter_all.
Qed.

Lemma by_date_from_filter {L : Library} (d : option string)
  (lo : option datetime) (l : list Paper) :
  date_bound d = Some lo ->
  by_date_from d l
  = Ok (filter (fun p => match lo with
                         | Some t => t <=? published_date (metadata p)
                         | None => true
                         end) l).
Proof.
  unfold date_bound, by_date_from.
  destruct d as [[|a d]|]; simpl.
  - intros [= <-]. now rewrite filter_all.
  - destruct (fromisoformat (String a d)); [|discriminate].
    now intros [= <-].
  - intros [= <-]. now rewrite filter_all.
Qed.

Lemma by_date_to_filter {L : Library} (d : option string)
  (hi : option datetime) (l : list Paper) :
  date_bound d = Some hi ->
  by_date_to d l
  = Ok (filter (fun p => match hi with
                         | Some t => published_date (metadata p) <=? t
                         | None => true
                         end) l).
Proof.
  unfold date_bound, by_date_to.
  destruct d as [[|a d]|]; simpl.
  - intros [= <-]. now rewrite filter_all.
  - destruct (fromisoformat (String a d)); [|discriminate].
    now intros [= <-].
  - intros [= <-]. now rewrite filter_all.
Qed.

Lemma by_processed_filter (flag : option bool) (l : list Paper) :
  by_processed flag l
  = filter (fun p => match flag with
                     | Some b => Bool.eqb (processed p) b
                     | None => true
                     end) l.
Proof. destruct flag; simpl; now rewrite ?filter_all. Qed.

Lemma by_search_filter (search : option string) (l : list Paper) :
  by_search search l
  = filter (fun p =>
              match search with
              | Some (String _ _ as q) =>
                  Py.contains (Py.lower q) (Py.lower (title (metadata p)))
                  || Py.contains (Py.lower q) (Py.lower (abstract (metadata p)))
              | _ => true
              end) l.
Proof.
  destruct search as [[|a q]|]; simpl; now rewrite ?filter_all.
Qed.

(** The filters are applied first, all together, and the survivors are
    then sorted. *)
Lemma sorted_matches_spec {L : Library} (s : DataStore)
  (category date_from date_to : option string) (flag : option bool)
  (search : option string) (lo hi : option datetime) :
  date_bound date_from = Some lo ->
  date_bound date_to = Some hi ->
  sorted_matches s category date_from date_to flag search
  = Ok (Py.sort_desc date_key
          (filter (selects category lo hi flag search)
                  (Py.dict_values (_papers_cache s)))).
Proof.
  intros Hlo Hhi. unfold sorted_matches.
  rewrite (by_date_from_filter _ _ Hlo). simpl.
  rewrite (by_date_to_filter _ _ Hhi). simpl.
  rewrite by_search_filter, by_processed_filter, by_category_filter.
  rewrite !filter_filter. f_equal. unfold date_key. f_equal.
  apply filter_ext. intros p. unfold selects. now rewrite !andb_assoc.
Qed.




(** ** The store: [count_papers] *)

(** C5, as the code has it.  [count_papers] takes a category and a
    processed flag only: it returns the number of papers that
    [list_papers] selects for that category and flag when no date bound and
    no search text is given, without pagination. *)
Theorem count_papers_spec {L : Library} (s : DataStore)
  (category : option string) (flag : option bool) :
  count_papers s category flag
  = Z.of_nat (List.length (filter (selects category None None flag None)
                                  (Py.dict_values (_papers_cache s))))
  /\ exists full,
       sorted_matches s category None None flag None = Ok full /\
       count_papers s category flag = Z.of_nat (List.length full).
Proof.
  assert (H : count_papers s category flag
              = Z.of_nat (List.length
                            (filter (selects category None None flag None)
                                    (Py.dict_values (_papers_cache s))))).
  { unfold count_papers.
    rewrite by_processed_filter, by_category_filter, filter_filter.
    do 2 f_equal. apply filter_ext. intros p. unfold selects.
    now rewrite !andb_true_r. }
  split; [exact H|].
  eexists. split.
  - now apply sorted_matches_spec.
  - rewrite H. f_equal. apply Permutation_length, sort_desc_perm.
Qed.

(** A search text narrows what [list_papers] selects and leaves the
    count as it is: three papers of the category, none of them matches. *)
Lemma count_papers_ignores_search :
  count_papers Sample.sorted_store (Some "cs.AI") None = 3
  /\ list_papers Sample.sorted_store (Some "cs.AI") None None None
       (Some "nonexistent") 50 0 = Ok [].
Proof. split; reflexivity. Qed.

(** ** Dump and validation *)

Lemma val_all_map {A} (f : json -> option A) (g : A -> json) (l : list A) :
  (forall a, f (g a) = Some a) -> val_all f (map g l) = Some l.
Proof.
  intros H. induction l as [|a l IH]; simpl; [reflexivity|].
  now rewrite H, IH.
Qed.

Lemma val_strs_dump (l : list string) :
  val_list val_str (dump_strs l) = Some l.
Proof. apply val_all_map. reflexivity. Qed.

Lemma Author_roundtrip (a : Author) :
  Author_validate (Author_dump a) = Some a.
Proof. destruct a as [n [i|]]; reflexivity. Qed.

Lemma required_member {A} (f : json -> option A) (k : string) (j v : json) :
  member k j = Some v -> required f k j = f v.
Proof. unfold required. now intros ->. Qed.

Lemma optional_member {A} (f : json -> option A) (k : string) (j v : json) :
  member k j = Some v ->
  optional f k j = val_opt f v.
Proof. unfold optional. now intros ->. Qed.

Lemma defaulted_member {A} (f : json -> option A) (dflt : A) (k : string)
  (j v : json) :
  member k j = Some v -> defaulted f dflt k j = f v.
Proof. unfold defaulted. now intros ->. Qed.

Section Roundtrip.
Context {L : Library} {LL : LibraryLaws L}.

Lemma datetime_dump_validate (d : datetime) :
  datetime_validate (dump_datetime d) = Some d.
Proof. apply datetime_roundtrip. Qed.

Lemma PaperMetadata_roundtrip (m : PaperMetadata) :
  PaperMetadata_validate (PaperMetadata_dump m) = Some m.
Proof.
  destruct m as [i t au ab pd ud pu pc cs co jr d].
  destruct ud, co, jr, d;
    unfold PaperMetadata_validate, PaperMetadata_dump, required, optional,
      defaulted, member; cbn;
    rewrite (val_all_map Author_validate Author_dump au Author_roundtrip);
    cbn; rewrite !datetime_dump_validate; cbn;
    rewrite (val_all_map val_str JStr cs (fun _ => eq_refl));
    reflexivity.
Qed.

Lemma AIAnalysis_roundtrip (now : datetime) (a : AIAnalysis) :
  AIAnalysis_validate now (AIAnalysis_dump a) = Some a.
Proof.
  destruct a as [s kf m st li rs ga].
  destruct m, rs;
    unfold AIAnalysis_validate, AIAnalysis_dump, required, optional,
      defaulted, member; cbn;
    rewrite !(val_all_map val_str JStr _ (fun _ => eq_refl)); cbn;
    rewrite datetime_dump_validate; reflexivity.
Qed.

Lemma ChatMessage_roundtrip (now : datetime) (c : ChatMessage) :
  ChatMessage_validate now (ChatMessage_dump c) = Some c.
Proof.
  destruct c as [r c t].
  unfold ChatMessage_validate, ChatMessage_dump, required, defaulted,
    member. cbn.
  now rewrite datetime_dump_validate.
Qed.

Lemma optional_analysis_roundtrip (now : datetime) (ai : option AIAnalysis) :
  val_opt (AIAnalysis_validate now) (dump_opt AIAnalysis_dump ai) = Some ai.
Proof.
  destruct ai as [a|]; [|reflexivity].
  pose proof (AIAnalysis_roundtrip now a) as H.
  cbn [dump_opt]. unfold AIAnalysis_dump in *. unfold val_opt.
  now rewrite H.
Qed.

Lemma optional_datetime_roundtrip (d : option datetime) :
  val_opt datetime_validate (dump_opt dump_datetime d) = Some d.
Proof.
  destruct d as [d|]; [|reflexivity].
  cbn [dump_opt]. unfold dump_datetime, val_opt.
  now rewrite datetime_roundtrip.
Qed.

Lemma optional_string_roundtrip (o : option string) :
  val_opt val_str (dump_opt JStr o) = Some o.
Proof. destruct o; reflexivity. Qed.

(** A dumped paper validates to itself. *)
Lemma Paper_roundtrip (now : datetime) (p : Paper) :
  Paper_validate now (Paper_dump p) = Some p.
Proof.
  destruct p as [m pp et ai ch pr ca ua].
  unfold Paper_dump. cbn [metadata pdf_path extracted_text ai_analysis
                            chat_history processed created_at updated_at].
  remember (PaperMetadata_dump m) as jm eqn:Em.
  remember (dump_opt JStr pp) as jpp eqn:Epp.
  remember (dump_opt JStr et) as jet eqn:Eet.
  remember (dump_opt AIAnalysis_dump ai) as jai eqn:Eai.
  remember (map ChatMessage_dump ch) as jch eqn:Ech.
  remember (dump_datetime ca) as jca eqn:Eca.
  remember (dump_opt dump_datetime ua) as jua eqn:Eua.
  unfold Paper_validate.
  rewrite (@required_member _ PaperMetadata_validate "metadata" _ jm)
    by reflexivity.
  rewrite (@optional_member _ val_str "pdf_path" _ jpp) by reflexivity.
  rewrite (@optional_member _ val_str "extracted_text" _ jet) by reflexivity.
  rewrite (@optional_member _ (AIAnalysis_validate now) "ai_analysis" _ jai)
    by reflexivity.
  rewrite (@defaulted_member _ (val_list (ChatMessage_validate now)) []
             "chat_history" _ (JArr jch)) by reflexivity.
  rewrite (@defaulted_member _ val_bool false "processed" _ (JBool pr))
    by reflexivity.
  rewrite (@defaulted_member _ datetime_validate now "created_at" _ jca)
    by reflexivity.
  rewrite (@optional_member _ datetime_validate "updated_at" _ jua)
    by reflexivity.
  subst.
  rewrite PaperMetadata_roundtrip, !optional_string_roundtrip,
    optional_analysis_roundtrip, optional_datetime_roundtrip,
    datetime_dump_validate.
  cbn [obind val_list val_bool].
  now rewrite (val_all_map (ChatMessage_validate now) ChatMessage_dump ch
                 (ChatMessage_roundtrip now)).
Qed.

End Roundtrip.

(** ** The store: saving and loading *)

Lemma dict_of_pairs_from {V} (l acc : list (string * V)) :
  NoDup (Py.dict_keys (acc ++ l)%list) ->
  fold_left (fun d kv => Py.dict_set (fst kv) (snd kv) d) l acc
  = (acc ++ l)%list.
Proof.
  revert acc. induction l as [|[k v] l IH]; intros acc Hnd; simpl.
  - now rewrite app_nil_r.
  - assert (Hk : ~ In k (Py.dict_keys acc)).
    { unfold Py.dict_keys in *. rewrite map_app in Hnd. simpl in Hnd.
      apply NoDup_remove_2 in Hnd. rewrite in_app_iff in Hnd. tauto. }
    rewrite (@dict_set_absent _ _ _ _ Hk).
    rewrite IH; rewrite <- app_assoc; [reflexivity | exact Hnd].
Qed.

(** A sequence of pairs with distinct names is the dictionary it makes. *)
Lemma dict_of_pairs_wf {V} (l : list (string * V)) :
  Py.dict_wf l -> Py.dict_of_pairs l = l.
Proof. intros H. unfold Py.dict_of_pairs. now rewrite dict_of_pairs_from. Qed.

Lemma load_items_dump {L : Library} {LL : LibraryLaws L} (now : datetime)
  (c acc : Py.dict Paper) :
  NoDup (Py.dict_keys (acc ++ c)%list) ->
  load_items now (map (fun kp => (fst kp, Paper_dump (snd kp))) c) acc
  = Some (acc ++ c)%list.
Proof.
  revert acc. induction c as [|[k p] c IH]; intros acc Hnd; simpl.
  - now rewrite app_nil_r.
  - rewrite Paper_roundtrip.
    assert (Hk : ~ In k (Py.dict_keys acc)).
    { unfold Py.dict_keys in *. rewrite map_app in Hnd. simpl in Hnd.
      apply NoDup_remove_2 in Hnd. rewrite in_app_iff in Hnd. tauto. }
    rewrite (@dict_set_absent _ _ _ _ Hk).
    rewrite IH; rewrite <- app_assoc; [reflexivity | exact Hnd].
Qed.

Lemma dump_keys {L : Library} (c : Py.dict Paper) :
  Py.dict_keys (map (fun kp => (fst kp, Paper_dump (snd kp))) c)
  = Py.dict_keys c.
Proof. unfold Py.dict_keys. rewrite map_map. reflexivity. Qed.


(** The reference instance reads back the datetimes it writes. *)
Lemma ref_library_laws : LibraryLaws Ref.library.
Proof.
  constructor. intros d. cbn.
  unfold Ref.datetime_of_text, Ref.text_of_datetime.
  now rewrite NilEmpty.isi; cbn; rewrite DecimalZ.of_to.
Qed.



(** ** The store: initialisation from a file *)

Lemma dict_keys_set {V} (k : string) (v : V) (d : Py.dict V) :
  Py.dict_keys (Py.dict_set k v d)
  = if Py.dict_mem k d then Py.dict_keys d else (Py.dict_keys d ++ [k])%list.
Proof.
  destruct (Py.dict_mem k d) eqn:E.
  - apply dict_keys_set_present. now apply dict_mem_In.
  - apply dict_mem_not_In in E. rewrite (@dict_set_absent _ k v d E).
    unfold Py.dict_keys. now rewrite map_app.
Qed.

Lemma dict_set_wf {V} (k : string) (v : V) (d : Py.dict V) :
  Py.dict_wf d -> Py.dict_wf (Py.dict_set k v d).
Proof.
  unfold Py.dict_wf. intros H. rewrite dict_keys_set.
  destruct (Py.dict_mem k d) eqn:E; [exact H|].
  apply dict_mem_not_In in E.
  apply NoDup_rev in H. rewrite <- (rev_involutive (_ ++ _)%list).
  apply NoDup_rev. rewrite rev_app_distr. simpl.
  constructor; [now rewrite <- in_rev | exact H].
Qed.

Lemma dict_of_pairs_nodup {V} (l : list (string * V)) :
  Py.dict_wf (Py.dict_of_pairs l).
Proof.
  unfold Py.dict_of_pairs.
  assert (H : forall acc : Py.dict V, Py.dict_wf acc ->
            Py.dict_wf (fold_left (fun d kv => Py.dict_set (fst kv) (snd kv) d)
                                  l acc)).
  { induction l as [|[k v] l IH]; intros acc Hacc; simpl; [exact Hacc|].
    apply IH. now apply dict_set_wf. }
  apply H. constructor.
Qed.

Lemma load_items_all {L : Library} (now : datetime)
  (items : list (string * json)) (acc : Py.dict Paper) :
  Forall (fun r => Paper_validate now (snd r) <> None) items ->
  exists ps,
    Forall2 (loaded_from now) items ps /\
    load_items now items acc
    = Some (fold_left (fun d kp => Py.dict_set (fst kp) (snd kp) d) ps acc).
Proof.
  intros H. revert acc.
  induction H as [|[k j] items Hj _ IH]; intros acc; simpl.
  - exists []. split; [constructor | reflexivity].
  - simpl in Hj. destruct (Paper_validate now j) as [p|] eqn:E; [|congruence].
    destruct (IH (Py.dict_set k p acc)) as (ps & Hps & Hload).
    exists ((k, p) :: ps). split; [|exact Hload].
    constructor; [|exact Hps]. split; [reflexivity | exact E].
Qed.

Lemma load_items_bad {L : Library} (now : datetime)
  (items : list (string * json)) (acc : Py.dict Paper) :
  Exists (fun r => Paper_validate now (snd r) = None) items ->
  load_items now items acc = None.
Proof.
  intros H. revert acc.
  induction H as [[k j] items Hj|[k j] items _ IH]; intros acc; simpl.
  - simpl in Hj. now rewrite Hj.
  - destruct (Paper_validate now j); [apply IH | reflexivity].
Qed.

Lemma loaded_keys {L : Library} (now : datetime)
  (items : list (string * json)) (ps : Py.dict Paper) :
  Forall2 (loaded_from now) items ps -> Py.dict_keys ps = Py.dict_keys items.
Proof.
  induction 1 as [|r e items ps [Hk _] _ IH]; simpl; [reflexivity|].
  now rewrite Hk, IH.
Qed.

(** C4, as the code has it.  Initialisation never fails.  With no file,
    an empty collection is written.  With a file that decodes to an
    object, the records are validated in order inside one guarded block:
    when every record validates, every record is loaded; as soon as one
    record does not validate, the handler resets the cache, so the store
    starts empty, the records that validate included.  With any other
    file the store starts empty too.  The file itself is left as found. *)
Theorem init_all_or_nothing {L : Library} (now : datetime)
  (f : option file_content) :
  match f with
  | None =>
      _papers_cache (init now f) = [] /\
      papers_file (init now f) = Some (JsonDoc (JObj []))
  | Some (JsonDoc (JObj ms)) =>
      papers_file (init now f) = f /\
      (Forall (fun r => Paper_validate now (snd r) <> None)
              (Py.dict_of_pairs ms) ->
       Forall2 (loaded_from now) (Py.dict_of_pairs ms)
               (_papers_cache (init now f))) /\
      (Exists (fun r => Paper_validate now (snd r) = None)
              (Py.dict_of_pairs ms) ->
       _papers_cache (init now f) = [])
  | Some _ =>
      papers_file (init now f) = f /\ _papers_cache (init now f) = []
  end.
Proof.
  destruct f as [[text|j]|]; [split; reflexivity | | split; reflexivity].
  destruct j; try (split; reflexivity).
  unfold init, _ensure_file_exists, _load_cache. cbn [papers_file _papers_cache].
  split; [|split].
  - now destruct (load_items now (Py.dict_of_pairs members) []).
  - intros Hall.
    destruct (load_items_all now [] Hall) as (ps & Hps & Hload).
    rewrite Hload. cbn [set_cache _papers_cache].
    fold (Py.dict_of_pairs ps).
    rewrite (@dict_of_pairs_wf _ ps); [exact Hps|].
    unfold Py.dict_wf. rewrite (loaded_keys Hps). apply dict_of_pairs_nodup.
  - intros Hbad. now rewrite (load_items_bad now [] Hbad).
Qed.

(** A file of two records, the first a dumped paper, the second without
    its required fields: the store starts empty, and the first record is
    not to be found. *)
Lemma one_bad_record_empties_store :
  let good := Paper_dump Sample.paper0 in
  let bad := JObj [("metadata", JObj [("arxiv_id", JStr "broken")])] in
  let f := Some (JsonDoc (JObj [("test-sort-0", good); ("broken", bad)])) in
  Paper_validate 0 good = Some Sample.paper0 /\
  Paper_validate 0 bad = None /\
  _papers_cache (init 0 f) = [] /\
  get_paper "test-sort-0" (init 0 f) = None.
Proof. vm_compute. repeat split. Qed.

(** ** The chat handlers *)

(** C7. For a paper that is in the store without extracted text, the
    chat handler and the summary handler raise the 400 error with the
    "not extracted" message, and the generator yields that message as its
    only event; the world is unchanged, so the backend was not called and
    nothing was stored.  An unknown identifier gets the 404 error, which
    differs from the former. *)
Theorem chat_requires_extracted_text {L : Library} (E : Env) (id : string)
  (user_message : string) (model : option string) (w : World)
  (paper : Paper) :
  get_paper id (store w) = Some paper ->
  Py.truthy (extracted_text paper) = false ->
  chat_with_paper E id user_message model w
  = (Raise (HTTPException 400 not_extracted), w) /\
  generate_paper_summary E id w
  = (Raise (HTTPException 400 not_extracted), w) /\
  chat_event_generator E id user_message model w
  = ([("error", not_extracted)], w) /\
  (forall unknown, get_paper unknown (store w) = None ->
     chat_with_paper E unknown user_message model w
     = (Raise (HTTPException 404 "Paper not found"), w) /\
     generate_paper_summary E unknown w
     = (Raise (HTTPException 404 "Paper not found"), w)) /\
  HTTPException 400 not_extracted <> HTTPException 404 "Paper not found".
Proof.
  intros Hget Htext.
  unfold chat_with_paper, generate_paper_summary, chat_event_generator,
    bind, read_store, ret.
  rewrite Hget, Htext. simpl.
  repeat split.
  - destruct (extracted_text paper) as [[|a t]|]; simpl in *;
      [reflexivity | discriminate | reflexivity].
  - now rewrite H.
  - now rewrite H.
  - discriminate.
Qed.

Lemma chat_requires_extracted_text_witness :
  let w := Sample.world_of Sample.sorted_store in
  chat_with_paper Sample.unreachable "test-sort-1" "What is new?" None w
  = (Raise (HTTPException 400 not_extracted), w).
Proof.
  intros w.
  exact (proj1 (@chat_requires_extracted_text Ref.library Sample.unreachable
                  "test-sort-1" "What is new?" None w Sample.paper1
                  eq_refl eq_refl)).
Defined.

(** ** The generation client: decoding the analysis *)

Lemma split_go_cons (sep : string) (skip : nat) (cur s : string) :
  exists a rest, Py.split_go sep skip cur s = a :: rest.
Proof.
  revert skip cur. induction s as [|c s IH]; intros skip cur;
    cbn [Py.split_go].
  - eauto.
  - destruct skip as [|k]; [|apply IH].
    destruct (prefix sep (String c s)); [eauto | apply IH].
Qed.







(** ** Mutators inside a run *)

Lemma get_paper_mem (id : string) (s : DataStore) (p : Paper) :
  get_paper id s = Some p -> Py.dict_mem id (_papers_cache s) = true.
Proof. unfold get_paper, Py.dict_mem. now intros ->. Qed.

(** A mutator that finds its paper reads the clock once, replaces the
    paper in place and saves; nothing else changes. *)
Lemma store_mutate_found {L : Library} (E : Env) (f : Paper -> Paper)
  (id : string) (w : World) (p : Paper) :
  get_paper id (store w) = Some p ->
  exists w',
    store_mutate E (fun t id => mutate f t id) id w = (true, w') /\
    get_paper id (store w')
    = Some (with_updated_at (Some (utcnow E (clock_reads w))) (f p)) /\
    (forall k, k <> id -> get_paper k (store w') = get_paper k (store w)) /\
    Py.dict_keys (_papers_cache (store w'))
    = Py.dict_keys (_papers_cache (store w)) /\
    clock_reads w' = S (clock_reads w) /\
    backend_calls w' = backend_calls w /\
    persisted (store w').
Proof.
  intros Hget.
  unfold store_mutate, bind, read_store, now, on_store, mutate.
  rewrite (get_paper_mem _ _ Hget). cbn.
  unfold get_paper in Hget. rewrite Hget.
  eexists. split; [reflexivity|]. cbn. unfold get_paper. cbn.
  repeat split.
  - apply dict_get_set_same.
  - intros k Hk. now apply dict_get_set_other.
  - apply dict_keys_set_present.
    apply dict_mem_In. unfold Py.dict_mem. now rewrite Hget.
Qed.

Lemma store_mutate_missing {L : Library} (E : Env)
  (op : datetime -> string -> DataStore -> bool * DataStore)
  (id : string) (w : World) :
  get_paper id (store w) = None -> store_mutate E op id w = (false, w).
Proof.
  intros Hget. unfold store_mutate, bind, read_store, Py.dict_mem.
  unfold get_paper in Hget. now rewrite Hget.
Qed.

Lemma accumulate_app (l : list string) (x : string) :
  accumulate (l ++ [x])%list = accumulate l ++ x.
Proof. unfold accumulate. now rewrite fold_left_app. Qed.

(** ** Streaming chat *)

(** C10. Let the streamed completion for the chat request end in a
    failure with text [detail].  The streaming operation then returns
    (it has no way to raise) the fragments received so far followed by
    one last fragment ["Error: " ++ detail].  The event generator sends
    them all, then [done], and the chat history of the paper ends with
    the user message, stored before the backend is called, followed by an
    assistant message whose content is the accumulated text, the error
    text included. *)
Theorem streaming_failure_is_recorded {L : Library} (E : Env) (id : string)
  (user_message : string) (model : option string) (w : World)
  (paper : Paper) (text detail : string) :
  get_paper id (store w) = Some paper ->
  extracted_text paper = Some text ->
  text <> "" ->
  let messages :=
    (map (fun msg => (role msg, content msg))
         (Py.last_n 10 (chat_history paper)) ++ [("user", user_message)])%list in
  let req := chat_request E text messages model in
  failure (completion_stream E req) = Some detail ->
  let chunks := yielded (deltas (completion_stream E req)) in
  let fragments := (chunks ++ [("Error: " ++ detail)%string])%list in
  (forall w0, fst (chat_with_context E text messages model w0) = fragments) /\
  exists w' paper',
    chat_event_generator E id user_message model w
    = ((map (fun c => ("message", c)) fragments ++ [("done", "")])%list, w') /\
    get_paper id (store w') = Some paper' /\
    chat_history paper'
    = (chat_history paper ++
       [{| role := "user"; content := user_message;
           timestamp := utcnow E (clock_reads w) |};
        {| role := "assistant";
           content := (accumulate chunks ++ "Error: " ++ detail)%string;
           timestamp := utcnow E (clock_reads w + 2) |}])%list /\
    backend_calls w' = (backend_calls w ++ [req])%list /\
    persisted (store w').
Proof.
  intros Hget Htext Hne messages req Hfail chunks fragments.
  split.
  { intros w0. unfold chat_with_context, bind, call_backend, ret. cbn.
    fold messages. fold req. now rewrite Hfail. }
  destruct text as [|a text]; [congruence|].
  unfold chat_event_generator.
  unfold bind at 1. unfold read_store at 1. rewrite Hget, Htext.
  fold messages.
  unfold bind at 1. unfold now at 1.
  set (w1 := {| store := store w; clock_reads := S (clock_reads w);
                backend_calls := backend_calls w |}).
  set (user_msg := {| role := "user"; content := user_message;
                      timestamp := utcnow E (clock_reads w) |}).
  destruct (@store_mutate_found L E
              (fun p => with_chat_history (chat_history p ++ [user_msg]) p)
              id w1 paper Hget)
    as (w2 & Hrun2 & Hget2 & _ & _ & Hclock2 & Hcalls2 & _).
  unfold bind at 1.
  change (store_mutate E (fun t id0 => add_chat_message t id0 user_msg) id w1)
    with (store_mutate E
            (fun t id0 =>
               mutate (fun p => with_chat_history (chat_history p ++ [user_msg]) p)
                      t id0) id w1).
  rewrite Hrun2.
  unfold bind at 1. unfold chat_with_context at 1.
  unfold bind at 1. unfold call_backend at 1. unfold ret at 1.
  fold req. rewrite Hfail. fold chunks. fold fragments.
  unfold bind at 1. unfold now at 1. cbn [store clock_reads backend_calls].
  set (w3 := {| store := store w2; clock_reads := S (clock_reads w2);
                backend_calls := (backend_calls w2 ++ [req])%list |}).
  set (assistant_msg := {| role := "assistant";
                           content := accumulate fragments;
                           timestamp := utcnow E (clock_reads w2) |}).
  destruct (@store_mutate_found L E
              (fun p => with_chat_history (chat_history p ++ [assistant_msg]) p)
              id w3 _ Hget2)
    as (w4 & Hrun4 & Hget4 & _ & _ & _ & Hcalls4 & Hsaved4).
  unfold bind at 1.
  change (store_mutate E (fun t id0 => add_chat_message t id0 assistant_msg)
            id w3)
    with (store_mutate E
            (fun t id0 =>
               mutate (fun p => with_chat_history
                                  (chat_history p ++ [assistant_msg]) p)
                      t id0) id w3).
  rewrite Hrun4. unfold ret.
  eexists. eexists. split; [reflexivity|].
  split; [exact Hget4|].
  split; [|split; [|exact Hsaved4]].
  - cbn. rewrite <- app_assoc. cbn. unfold assistant_msg, user_msg.
    unfold fragments. rewrite accumulate_app.
    rewrite Hclock2. cbn. now rewrite Nat.add_comm.
  - rewrite Hcalls4. cbn. now rewrite Hcalls2.
Qed.

Lemma streaming_failure_is_recorded_witness :
  let E := Sample.answering None
             {| deltas := [Some "The main "; None; Some "contribution"];
                failure := Some "Connection reset" |} in
  let w := Sample.world_of
             (snd (add_paper Sample.sample_paper Sample.empty_store)) in
  map content
      (get_chat_history "test-1234.5678"
         (store (snd (chat_event_generator E "test-1234.5678" "Why?" None w))))
  = ["What is the main contribution?"; "Why?";
     "The main contributionError: Connection reset"].
Proof.
  intros E w.
  destruct (@streaming_failure_is_recorded Ref.library E "test-1234.5678"
              "Why?" None w Sample.sample_paper "Extracted text content"
              "Connection reset" eq_refl eq_refl ltac:(discriminate) eq_refl)
    as (_ & w' & paper' & Hrun & Hget & Hhist & _).
  rewrite Hrun. cbn [snd]. unfold get_chat_history.
  unfold get_paper in Hget. rewrite Hget, Hhist. reflexivity.
Defined.

(** ** The batch jobs *)

Lemma add_paper_grows {L : Library} (p : Paper) (s : DataStore) :
  In (arxiv_id (metadata p)) (Py.dict_keys (_papers_cache (snd (add_paper p s))))
  /\ incl (Py.dict_keys (_papers_cache s))
          (Py.dict_keys (_papers_cache (snd (add_paper p s))))
  /\ size (snd (add_paper p s))
     = size s + (if fst (add_paper p s) then 1 else 0).
Proof.
  unfold add_paper, size.
  destruct (Py.dict_mem (arxiv_id (metadata p)) (_papers_cache s)) eqn:E; cbn.
  - split; [now apply dict_mem_In|]. split; [apply incl_refl | lia].
  - apply dict_mem_not_In in E. rewrite (@dict_set_absent _ _ p _ E).
    unfold Py.dict_keys. rewrite map_app, length_app. cbn.
    split; [apply in_or_app; right; now left|].
    split; [apply incl_appl, incl_refl | lia].
Qed.

(** The loop of [_fetch_category] visits every record: the download
    counter grows by the number of documents obtained, the save counter by
    the number of papers the store gained, and every record ends up in the
    store. *)
Lemma fetch_loop {L : Library} (E : Env) (ms : list PaperMetadata)
  (acc : Z * Z) (w : World) :
  exists acc' w',
    for_each (fetch_one E) acc ms w = (acc', w') /\
    fst acc' = fst acc + downloads E ms /\
    snd acc' - snd acc = size (store w') - size (store w) /\
    0 <= snd acc' - snd acc <= Z.of_nat (List.length ms) /\
    incl (Py.dict_keys (_papers_cache (store w)))
         (Py.dict_keys (_papers_cache (store w'))) /\
    (forall m, In m ms ->
       In (arxiv_id m) (Py.dict_keys (_papers_cache (store w')))) /\
    backend_calls w' = backend_calls w.
Proof.
  revert acc w. induction ms as [|m ms IH]; intros acc w.
  - exists acc, w. cbn. unfold downloads. cbn.
    repeat split; try lia; try apply incl_refl; tauto.
  - cbn [for_each]. unfold bind at 1.
    unfold fetch_one at 1. unfold bind, now, on_store, ret.
    cbn [store clock_reads backend_calls].
    set (paper := if Py.truthy (download_pdf E m)
                  then with_pdf_path (download_pdf E m)
                         (new_paper (utcnow E (clock_reads w)) m)
                  else new_paper (utcnow E (clock_reads w)) m).
    assert (Hid : arxiv_id (metadata paper) = arxiv_id m)
      by (unfold paper; now destruct (Py.truthy (download_pdf E m))).
    destruct (add_paper_grows paper (store w)) as (Hin & Hincl & Hsize).
    destruct (add_paper paper (store w)) as [added s1] eqn:Eadd.
    cbn [fst snd] in *.
    match goal with
    | |- exists a b, for_each _ ?acc1 ms ?w1 = _ /\ _ =>
        destruct (IH acc1 w1)
          as (acc' & w' & Hrun & Hd & Hs & Hb & Hk & Hall & Hcalls)
    end.
    exists acc', w'. cbn [fst snd store backend_calls] in *.
    split; [exact Hrun|].
    unfold downloads in *. cbn [filter].
    destruct (Py.truthy (download_pdf E m)); cbn [List.length];
      destruct added; repeat split; try lia;
      try (eapply incl_tran; eassumption);
      try (intros m' [<-|Hm']; [apply Hk; now rewrite <- Hid | now apply Hall]);
      try exact Hcalls.
Qed.

Lemma _fetch_category_spec {L : Library} (E : Env) (category : string)
  (w : World) :
  match fetch_by_category E category with
  | Raise e => _fetch_category E category w = (Raise e, w)
  | Ok ms =>
      exists t w',
        _fetch_category E category w = (Ok t, w') /\
        found t = Z.of_nat (List.length ms) /\
        downloaded t = downloads E ms /\
        saved t = size (store w') - size (store w) /\
        0 <= saved t <= found t /\
        (forall m, In m ms ->
           In (arxiv_id m) (Py.dict_keys (_papers_cache (store w'))))
  end.
Proof.
  unfold _fetch_category.
  destruct (fetch_by_category E category) as [ms|e]; [|reflexivity].
  destruct (fetch_loop E ms (0, 0) w)
    as (acc' & w' & Hrun & Hd & Hs & Hb & _ & Hall & _).
  unfold bind. rewrite Hrun. unfold ret.
  eexists. eexists. split; [reflexivity|]. cbn in *.
  repeat split; try lia; exact Hall.
Qed.



(** Each paper of the batch moves exactly one of the three counters. *)
Lemma process_loop {L : Library} (E : Env) (papers : list Paper)
  (r : process_tally) (w : World) :
  let r' := fst (for_each (process_one E) r papers w) in
  n_processed r' + n_failed r' + n_skipped r'
  = n_processed r + n_failed r + n_skipped r + Z.of_nat (List.length papers)
  /\ n_processed r <= n_processed r'
  /\ n_failed r <= n_failed r'
  /\ n_skipped r <= n_skipped r'.
Proof.
  revert r w. induction papers as [|p papers IH]; intros r w.
  - cbn. lia.
  - cbn [for_each]. cbn zeta. unfold bind.
    destruct (process_one E r p w) as [r1 w1] eqn:E1.
    specialize (IH r1 w1). cbn zeta in *.
    assert (H1 : n_processed r1 + n_failed r1 + n_skipped r1
                 = n_processed r + n_failed r + n_skipped r + 1
                 /\ n_processed r <= n_processed r1
                 /\ n_failed r <= n_failed r1
                 /\ n_skipped r <= n_skipped r1).
    { unfold process_one in E1.
      destruct (pdf_path p) as [[|a path]|].
      - injection E1 as <- <-. cbn. lia.
      - unfold bind, ret in E1.
        destruct (process_body E p (String a path) w) as [[u|e] w2];
          injection E1 as <- <-; cbn; lia.
      - injection E1 as <- <-. cbn. lia. }
    cbn [List.length]. lia.
Qed.


(** Three records, the document of the second cannot be obtained: all
    three papers are stored, two of them with a document path, and the
    tally says found 3, downloaded 2. *)
Lemma fetch_three_one_download_fails :
  let run := _fetch_category Sample.second_download_fails "cs.AI"
               (Sample.world_of Sample.empty_store) in
  fst run = Ok {| found := 3; downloaded := 2; saved := 3 |} /\
  map (fun kp => (fst kp, pdf_path (snd kp)))
      (_papers_cache (store (snd run)))
  = [("test-sort-0", Some "papers/cs.AI/test-sort-0.pdf");
     ("test-sort-1", None);
     ("test-sort-2", Some "papers/cs.AI/test-sort-2.pdf")].
Proof. split; reflexivity. Qed.

(** ** Processing one paper *)

Lemma store_text_spec {L : Library} (E : Env) (id : string)
  (text : option string) (w : World) (p : Paper) :
  get_paper id (store w) = Some p ->
  exists p1,
    get_paper id (store (snd (store_text E id text w))) = Some p1 /\
    processed p1 = processed p /\
    metadata p1 = metadata p /\
    extracted_text p1
    = (if Py.truthy text then text else extracted_text p).
Proof.
  intros Hget. unfold store_text.
  destruct text as [[|a t]|]; cbn [Py.truthy]; try (exists p; now cbn).
  unfold bind.
  destruct (@store_mutate_found L E (with_extracted_text (Some (String a t)))
              id w p Hget) as (w' & Hrun & Hget' & _).
  change (store_mutate E (fun now0 id0 => set_extracted_text now0 id0 (String a t))
            id w)
    with (store_mutate E
            (fun t0 id0 => mutate (with_extracted_text (Some (String a t))) t0 id0)
            id w).
  rewrite Hrun. cbn. eexists. split; [exact Hget'|]. now cbn.
Qed.

Lemma analyze_paper_store {L : Library} (E : Env) (title abstract : string)
  (full_text : option string) (w : World) :
  store (snd (analyze_paper E title abstract full_text w)) = store w.
Proof.
  unfold analyze_paper, bind, call_backend.
  now destruct (completion E _).
Qed.









(** Three papers to process, newest first; the backend fails on the
    first of them.  The job goes on: the other two are processed, and the
    tally says processed 2, failed 1. *)
Lemma processing_continues_after_failure :
  let run := process_all_papers Sample.fails_on_paper1
               (Sample.world_of Sample.documents_store) in
  map (fun p => arxiv_id (metadata p)) (unprocessed Sample.documents_store)
  = ["test-sort-1"; "test-sort-2"; "test-sort-0"] /\
  fst run = {| n_processed := 2; n_failed := 1; n_skipped := 0 |} /\
  map (fun kp => (fst kp, processed (snd kp)))
      (_papers_cache (store (snd run)))
  = [("test-sort-0", true); ("test-sort-1", false); ("test-sort-2", true)].
Proof. vm_compute. repeat split. Qed.

(** The example of the specification: published on the 10th, the 20th
    and the 15th, added in that order, listed as 20th, 15th, 10th. *)
Lemma list_papers_example :
  match list_papers Sample.sorted_store None None None None None 50 0 with
  | Ok papers =>
      map (fun p => published_date (metadata p)) papers
      = [Sample.january 20; Sample.january 15; Sample.january 10]
  | Raise _ => False
  end.
Proof. reflexivity. Qed.

(** ** The invariant of the cache *)

Lemma dict_del_keys {V} (k : string) (d : Py.dict V) :
  incl (Py.dict_keys (Py.dict_del k d)) (Py.dict_keys d) /\
  (Py.dict_wf d -> Py.dict_wf (Py.dict_del k d)).
Proof.
  induction d as [|[k' v] d [IHi IHw]]; cbn.
  - split; [apply incl_refl | auto].
  - destruct (String.eqb k k').
    + split; [apply incl_tl, incl_refl|].
      intros H. now inversion H.
    + split; [now apply incl_cons; [left | apply incl_tl]|].
      unfold Py.dict_wf in *. cbn. intros H. inversion H; subst.
      constructor; [|now apply IHw].
      intros Hin. now apply IHi in Hin.
Qed.

Lemma load_items_wf {L : Library} (now : datetime)
  (items : list (string * json)) (acc c : Py.dict Paper) :
  Py.dict_wf acc -> load_items now items acc = Some c -> Py.dict_wf c.
Proof.
  revert acc. induction items as [|[k j] items IH]; intros acc Hacc; cbn.
  - now intros [= <-].
  - destruct (Paper_validate now j); [|discriminate].
    apply IH. now apply dict_set_wf.
Qed.

(** Every operation of the store keeps the identifiers of the cache
    distinct, and a new store has them distinct. *)
Lemma store_operations_keep_wf {L : Library} (now : datetime)
  (s : DataStore) :
  (forall f, Py.dict_wf (_papers_cache (init now f))) /\
  (Py.dict_wf (_papers_cache s) ->
   (forall p, Py.dict_wf (_papers_cache (snd (add_paper p s)))) /\
   (forall id, Py.dict_wf (_papers_cache (snd (delete_paper id s)))) /\
   (forall f id, Py.dict_wf (_papers_cache (snd (mutate f now id s)))) /\
   Py.dict_wf (_papers_cache (reload now s))).
Proof.
  assert (Hload : forall s0, Py.dict_wf (_papers_cache s0) ->
            Py.dict_wf (_papers_cache (_load_cache now s0))).
  { intros s0 H0. unfold _load_cache.
    destruct (match papers_file s0 with
              | Some (JsonDoc (JObj ms)) =>
                  load_items now (Py.dict_of_pairs ms) (_papers_cache s0)
              | _ => None
              end) as [c|] eqn:E; cbn; [|constructor].
    destruct (papers_file s0) as [[t|[]]|]; try discriminate.
    eapply load_items_wf; eassumption. }
  split.
  - intros [fc|]; unfold init, _ensure_file_exists; cbn [papers_file].
    + apply Hload. constructor.
    + constructor.
  - intros Hwf. repeat split.
    + intros p. unfold add_paper.
      destruct (Py.dict_mem _ _); cbn; [exact Hwf | now apply dict_set_wf].
    + intros id. unfold delete_paper.
      destruct (Py.dict_mem _ _); cbn; [now apply dict_del_keys | exact Hwf].
    + intros f id. unfold mutate.
      destruct (Py.dict_get id (_papers_cache s)); cbn;
        [now apply dict_set_wf | exact Hwf].
    + unfold reload. apply Hload. constructor.
Qed.

(* ====================================================================== *)
(** * Further properties of the store                                      *)
(* ====================================================================== *)

Lemma dict_get_In {V} (k : string) (v : V) (d : Py.dict V) :
  Py.dict_get k d = Some v -> In (k, v) d.
Proof.
  induction d as [|[k' v'] d IH]; cbn; [discriminate|].
  destruct (String.eqb_spec k k') as [->|Hne].
  - intros [= ->]. now left.
  - intros H. right. now apply IH.
Qed.

Lemma dict_In_get {V} (k : string) (v : V) (d : Py.dict V) :
  Py.dict_wf d -> In (k, v) d -> Py.dict_get k d = Some v.
Proof.
  unfold Py.dict_wf.
  induction d as [|[k' v'] d IH]; cbn; [tauto|].
  intros Hnd [[= -> ->]|Hin].
  - now rewrite String.eqb_refl.
  - inversion Hnd as [|? ? Hk Hnd']; subst.
    destruct (String.eqb_spec k k') as [->|Hne]; [|now apply IH].
    exfalso. apply Hk. change k' with (fst (k', v)).
    now apply in_map.
Qed.

Lemma dict_get_None {V} (k : string) (d : Py.dict V) :
  Py.dict_get k d = None <-> ~ In k (Py.dict_keys d).
Proof.
  rewrite <- dict_mem_not_In. unfold Py.dict_mem.
  destruct (Py.dict_get k d); split; congruence.
Qed.

Lemma dict_get_del_other {V} (k k' : string) (d : Py.dict V) :
  k' <> k -> Py.dict_get k' (Py.dict_del k d) = Py.dict_get k' d.
Proof.
  intros Hne. induction d as [|[k0 v0] d IH]; cbn; [reflexivity|].
  destruct (String.eqb_spec k k0) as [->|Hk]; cbn.
  - destruct (String.eqb_spec k' k0); [congruence | reflexivity].
  - destruct (String.eqb_spec k' k0); [reflexivity | exact IH].
Qed.

Lemma dict_get_del_same {V} (k : string) (d : Py.dict V) :
  Py.dict_wf d -> Py.dict_get k (Py.dict_del k d) = None.
Proof.
  unfold Py.dict_wf.
  induction d as [|[k0 v0] d IH]; cbn; [reflexivity|].
  intros Hnd. inversion Hnd as [|? ? Hk Hnd']; subst.
  destruct (String.eqb_spec k k0) as [->|Hk0]; cbn.
  - now apply dict_get_None.
  - destruct (String.eqb_spec k k0); [congruence | now apply IH].
Qed.

Lemma dict_del_length {V} (k : string) (d : Py.dict V) :
  Py.dict_mem k d = true ->
  S (List.length (Py.dict_del k d)) = List.length d.
Proof.
  unfold Py.dict_mem.
  induction d as [|[k0 v0] d IH]; cbn; [discriminate|].
  destruct (String.eqb k k0); cbn; [reflexivity|].
  intros H. now rewrite IH.
Qed.

Lemma dict_del_last {V} (k : string) (v : V) (d : Py.dict V) :
  ~ In k (Py.dict_keys d) -> Py.dict_del k (d ++ [(k, v)])%list = d.
Proof.
  induction d as [|[k0 v0] d IH]; cbn.
  - now rewrite String.eqb_refl.
  - intros Hn. destruct (String.eqb_spec k k0) as [->|Hk]; [tauto|].
    rewrite IH; tauto.
Qed.

(** X1. [delete_paper] on an identifier that is not in the store
    returns [false] and changes nothing; on one that is, it returns
    [true], the paper is gone, every other paper is as before, the store
    has one paper less and the file is the dump of what is left.  Deleting
    a paper that was just added gives back the cache as it was. *)
Theorem delete_paper_spec {L : Library} (id : string) (s : DataStore) :
  Py.dict_wf (_papers_cache s) ->
  (get_paper id s = None -> delete_paper id s = (false, s)) /\
  (forall p, get_paper id s = Some p ->
     exists s',
       delete_paper id s = (true, s') /\
       get_paper id s' = None /\
       (forall k, k <> id -> get_paper k s' = get_paper k s) /\
       size s' = size s - 1 /\
       persisted s') /\
  (forall paper,
     get_paper (arxiv_id (metadata paper)) s = None ->
     _papers_cache
       (snd (delete_paper (arxiv_id (metadata paper)) (snd (add_paper paper s))))
     = _papers_cache s).
Proof.
  intros Hwf. unfold delete_paper, get_paper, Py.dict_mem. split; [|split].
  - now intros ->.
  - intros p Hp. rewrite Hp. eexists. split; [reflexivity|].
    unfold persisted, size, _save_cache; cbn. repeat split.
    + now apply dict_get_del_same.
    + intros k Hk. now apply dict_get_del_other.
    + rewrite <- (@dict_del_length _ id (_papers_cache s)); [lia|].
      unfold Py.dict_mem. now rewrite Hp.
  - intros paper Hnone. unfold add_paper, Py.dict_mem. rewrite Hnone.
    cbn [snd _papers_cache _save_cache _save_to_file set_cache].
    rewrite dict_get_set_same. cbn.
    apply dict_get_None in Hnone.
    rewrite (@dict_set_absent _ _ paper _ Hnone).
    now apply dict_del_last.
Qed.

Lemma delete_paper_spec_witness :
  get_paper "test-sort-1" (snd (delete_paper "test-sort-1" Sample.sorted_store))
  = None
  /\ get_paper "test-sort-2"
       (snd (delete_paper "test-sort-1" Sample.sorted_store))
     = Some Sample.paper2.
Proof.
  assert (Hwf : Py.dict_wf (_papers_cache Sample.sorted_store)).
  { unfold Py.dict_wf. cbn.
    repeat (constructor; [cbn; intuition discriminate|]). constructor. }
  destruct (@delete_paper_spec Ref.library "test-sort-1" Sample.sorted_store Hwf)
    as (_ & Hfound & _).
  destruct (Hfound Sample.paper1 eq_refl) as (s' & Hrun & Hgone & Hother & _).
  rewrite Hrun. cbn [snd]. split; [exact Hgone|].
  rewrite Hother; [reflexivity | discriminate].
Defined.

Lemma mutate_missing {L : Library} (f : Paper -> Paper) (now : datetime)
  (id : string) (s : DataStore) :
  get_paper id s = None -> mutate f now id s = (false, s).
Proof. unfold mutate, get_paper. now intros ->. Qed.

Lemma mutate_found {L : Library} (f : Paper -> Paper) (now : datetime)
  (id : string) (s : DataStore) (p : Paper) :
  get_paper id s = Some p ->
  (forall x, same_metadata_and_files x (f x)) ->
  exists s',
    mutate f now id s = (true, s') /\
    writes_only now id s s' p (with_updated_at (Some now) (f p)).
Proof.
  intros Hget Hf. unfold mutate. unfold get_paper in Hget. rewrite Hget.
  eexists. split; [reflexivity|].
  unfold writes_only, get_paper, persisted. cbn.
  repeat split; try apply (Hf p).
  - apply dict_get_set_same.
  - intros k Hk. now apply dict_get_set_other.
  - apply dict_keys_set_present. apply dict_mem_In.
    unfold Py.dict_mem. now rewrite Hget.
Qed.

(** X2. The five single-field writers.  On an identifier that is not in
    the store each returns [false] and changes nothing.  On one that is,
    each returns [true], writes its field of that paper and the stamp, and
    nothing else: the other fields of the paper, the other papers and the
    order of the identifiers are as before, and the file is in step. *)
Theorem field_writers_spec {L : Library} (now : datetime) (id : string)
  (s : DataStore) :
  (get_paper id s = None ->
   (forall text, set_extracted_text now id text s = (false, s)) /\
   (forall a, set_ai_analysis now id a s = (false, s)) /\
   (forall b, set_processed now id b s = (false, s)) /\
   (forall m, add_chat_message now id m s = (false, s)) /\
   clear_chat_history now id s = (false, s) /\
   get_chat_history id s = []) /\
  (forall p, get_paper id s = Some p ->
   (forall text, exists s' q,
      set_extracted_text now id text s = (true, s') /\
      writes_only now id s s' p q /\
      extracted_text q = Some text /\ ai_analysis q = ai_analysis p /\
      chat_history q = chat_history p /\ processed q = processed p) /\
   (forall a, exists s' q,
      set_ai_analysis now id a s = (true, s') /\
      writes_only now id s s' p q /\
      ai_analysis q = Some a /\ extracted_text q = extracted_text p /\
      chat_history q = chat_history p /\ processed q = processed p) /\
   (forall b, exists s' q,
      set_processed now id b s = (true, s') /\
      writes_only now id s s' p q /\
      processed q = b /\ extracted_text q = extracted_text p /\
      ai_analysis q = ai_analysis p /\ chat_history q = chat_history p) /\
   (forall m, exists s' q,
      add_chat_message now id m s = (true, s') /\
      writes_only now id s s' p q /\
      chat_history q = (chat_history p ++ [m])%list /\
      extracted_text q = extracted_text p /\
      ai_analysis q = ai_analysis p /\ processed q = processed p) /\
   (exists s' q,
      clear_chat_history now id s = (true, s') /\
      writes_only now id s s' p q /\
      chat_history q = [] /\ extracted_text q = extracted_text p /\
      ai_analysis q = ai_analysis p /\ processed q = processed p) /\
   get_chat_history id s = chat_history p).
Proof.
  split.
  - intros Hnone.
    unfold set_extracted_text, set_ai_analysis, set_processed,
      add_chat_message, clear_chat_history, get_chat_history.
    repeat split; intros; try now apply mutate_missing.
    unfold get_paper in Hnone. now rewrite Hnone.
  - intros p Hp.
    unfold set_extracted_text, set_ai_analysis, set_processed,
      add_chat_message, clear_chat_history, get_chat_history.
    repeat split.
    + intros text.
      destruct (@mutate_found L (with_extracted_text (Some text)) now id s p Hp)
        as (s' & Hrun & Hw); [intros x; now repeat split|].
      exists s'. eexists. split; [exact Hrun|]. split; [exact Hw|].
      now repeat split.
    + intros a.
      destruct (@mutate_found L (with_ai_analysis (Some a)) now id s p Hp)
        as (s' & Hrun & Hw); [intros x; now repeat split|].
      exists s'. eexists. split; [exact Hrun|]. split; [exact Hw|].
      now repeat split.
    + intros b.
      destruct (@mutate_found L (with_processed b) now id s p Hp)
        as (s' & Hrun & Hw); [intros x; now repeat split|].
      exists s'. eexists. split; [exact Hrun|]. split; [exact Hw|].
      now repeat split.
    + intros m.
      destruct (@mutate_found L
                  (fun x => with_chat_history (chat_history x ++ [m]) x)
                  now id s p Hp)
        as (s' & Hrun & Hw); [intros x; now repeat split|].
      exists s'. eexists. split; [exact Hrun|]. split; [exact Hw|].
      now repeat split.
    + destruct (@mutate_found L (with_chat_history []) now id s p Hp)
        as (s' & Hrun & Hw); [intros x; now repeat split|].
      exists s'. eexists. split; [exact Hrun|]. split; [exact Hw|].
      now repeat split.
    + unfold get_paper in Hp. now rewrite Hp.
Qed.

Lemma In_dict_set {V} (k k' : string) (v v' : V) (d : Py.dict V) :
  In (k', v') (Py.dict_set k v d) -> (k', v') = (k, v) \/ In (k', v') d.
Proof.
  induction d as [|[k0 v0] d IH]; cbn.
  - intros [H|[]]. now left.
  - destruct (String.eqb k k0); cbn.
    + intros [H|H]; [now left | now right; right].
    + intros [H|H]; [now right; left|].
      destruct (IH H); [now left | now right; right].
Qed.

Lemma In_dict_del {V} (k k' : string) (v' : V) (d : Py.dict V) :
  In (k', v') (Py.dict_del k d) -> In (k', v') d.
Proof.
  induction d as [|[k0 v0] d IH]; cbn; [tauto|].
  destruct (String.eqb k k0); cbn; [now right|].
  intros [H|H]; [now left | right; now apply IH].
Qed.

Lemma mutate_keyed {L : Library} (f : Paper -> Paper) (now : datetime)
  (id : string) (s : DataStore) :
  (forall x, metadata (f x) = metadata x) ->
  keyed s -> keyed (snd (mutate f now id s)).
Proof.
  intros Hf Hk. unfold mutate.
  destruct (Py.dict_get id (_papers_cache s)) as [p|] eqn:E; [|exact Hk].
  intros k q Hin. cbn in Hin.
  apply In_dict_set in Hin. destruct Hin as [[= -> ->]|Hin]; [|now apply Hk].
  cbn. rewrite Hf. apply Hk. now apply dict_get_In.
Qed.

(** X3. Every paper stays filed under the identifier of its own
    metadata: adding, deleting, the five single-field writers and clearing
    keep this, from an empty store on. *)
Theorem identifiers_stay_in_step {L : Library} (now : datetime)
  (s : DataStore) :
  keyed (init now None) /\
  (keyed s ->
   (forall paper, keyed (snd (add_paper paper s))) /\
   (forall id, keyed (snd (delete_paper id s))) /\
   (forall id text, keyed (snd (set_extracted_text now id text s))) /\
   (forall id a, keyed (snd (set_ai_analysis now id a s))) /\
   (forall id b, keyed (snd (set_processed now id b s))) /\
   (forall id m, keyed (snd (add_chat_message now id m s))) /\
   (forall id, keyed (snd (clear_chat_history now id s))) /\
   keyed (snd (clear_all s)) /\
   (forall id p, get_paper id s = Some p -> arxiv_id (metadata p) = id)).
Proof.
  split; [intros k p []|].
  intros Hk. repeat split.
  - intros paper. unfold add_paper.
    destruct (Py.dict_mem _ _); [exact Hk|].
    intros k q Hin. cbn in Hin. apply In_dict_set in Hin.
    destruct Hin as [[= -> ->]|Hin]; [reflexivity | now apply Hk].
  - intros id. unfold delete_paper.
    destruct (Py.dict_mem _ _); [|exact Hk].
    intros k q Hin. cbn in Hin. apply In_dict_del in Hin. now apply Hk.
  - intros id text. now apply mutate_keyed.
  - intros id a. now apply mutate_keyed.
  - intros id b. now apply mutate_keyed.
  - intros id m. now apply mutate_keyed.
  - intros id. now apply mutate_keyed.
  - intros k p [].
  - intros id p Hget. apply Hk. now apply dict_get_In.
Qed.

Lemma identifiers_stay_in_step_witness :
  keyed (snd (set_processed 0 "test-sort-1" true Sample.sorted_store)).
Proof.
  assert (Hk : keyed Sample.sorted_store).
  { intros k p Hin. cbn in Hin.
    repeat (destruct Hin as [[= <- <-]|Hin]; [reflexivity|]).
    destruct Hin. }
  exact (proj1 (proj2 (proj2 (proj2 (proj2
           (proj2 (@identifiers_stay_in_step Ref.library 0
                     Sample.sorted_store) Hk)))))
           "test-sort-1" true).
Defined.

Lemma saved_survives_reload {L : Library} {LL : LibraryLaws L}
  (now : datetime) (c : Py.dict Paper) (s : DataStore) :
  Py.dict_wf c -> survives_reload now (_save_cache (set_cache c s)).
Proof.
  intros Hwf.
  unfold survives_reload, reload, _load_cache, _save_cache, _save_to_file,
    set_cache.
  cbn [papers_file _papers_cache].
  rewrite dict_of_pairs_wf by (unfold Py.dict_wf; now rewrite dump_keys).
  now rewrite load_items_dump.
Qed.

(** X4. After every write that reports success (adding, deleting, the
    five single-field writers), and after clearing, the file is such that
    reloading gives exactly the cache of that moment: nothing that was
    written is lost, and nothing else comes back. *)
Theorem writes_survive_reload {L : Library} {LL : LibraryLaws L}
  (now later : datetime) (s : DataStore) :
  Py.dict_wf (_papers_cache s) ->
  (forall paper, fst (add_paper paper s) = true ->
     survives_reload later (snd (add_paper paper s))) /\
  (forall id, fst (delete_paper id s) = true ->
     survives_reload later (snd (delete_paper id s))) /\
  (forall id text, fst (set_extracted_text now id text s) = true ->
     survives_reload later (snd (set_extracted_text now id text s))) /\
  (forall id a, fst (set_ai_analysis now id a s) = true ->
     survives_reload later (snd (set_ai_analysis now id a s))) /\
  (forall id b, fst (set_processed now id b s) = true ->
     survives_reload later (snd (set_processed now id b s))) /\
  (forall id m, fst (add_chat_message now id m s) = true ->
     survives_reload later (snd (add_chat_message now id m s))) /\
  (forall id, fst (clear_chat_history now id s) = true ->
     survives_reload later (snd (clear_chat_history now id s))) /\
  survives_reload later (snd (clear_all s)).
Proof.
  intros Hwf.
  assert (Hm : forall f id, fst (mutate f now id s) = true ->
            survives_reload later (snd (mutate f now id s))).
  { intros f id. unfold mutate.
    destruct (Py.dict_get id (_papers_cache s)); cbn; [|discriminate].
    intros _. apply saved_survives_reload. now apply dict_set_wf. }
  repeat split; try (intros; now apply Hm).
  - intros paper. unfold add_paper.
    destruct (Py.dict_mem _ _); cbn; [discriminate|].
    intros _. apply saved_survives_reload. now apply dict_set_wf.
  - intros id. unfold delete_paper.
    destruct (Py.dict_mem _ _); cbn; [|discriminate].
    intros _. apply saved_survives_reload. now apply dict_del_keys.
Qed.

Lemma writes_survive_reload_witness :
  _papers_cache
    (reload 7 (snd (add_chat_message 5 "test-1234.5678"
                      Sample.sample_chat_message
                      (snd (add_paper Sample.sample_paper Sample.sorted_store)))))
  = _papers_cache
      (snd (add_chat_message 5 "test-1234.5678" Sample.sample_chat_message
              (snd (add_paper Sample.sample_paper Sample.sorted_store)))).
Proof.
  assert (Hwf : Py.dict_wf
                  (_papers_cache
                     (snd (add_paper Sample.sample_paper Sample.sorted_store)))).
  { unfold Py.dict_wf. cbn.
    repeat (constructor; [cbn; intuition discriminate|]). constructor. }
  destruct (@writes_survive_reload Ref.library ref_library_laws 5 7 _ Hwf)
    as (_ & _ & _ & _ & _ & Hchat & _).
  exact (Hchat "test-1234.5678" Sample.sample_chat_message eq_refl).
Defined.



(** ** Listing and counting *)

Lemma in_firstn {A} (n : nat) (l : list A) (x : A) :
  In x (firstn n l) -> In x l.
Proof.
  intros H. rewrite <- (firstn_skipn n l). apply in_or_app. now left.
Qed.


Lemma length_filter_le {A} (f : A -> bool) (l : list A) :
  (List.length (filter f l) <= List.length l)%nat.
Proof.
  induction l as [|x l IH]; cbn; [lia|]. destruct (f x); cbn; lia.
Qed.


Lemma StronglySorted_firstn {A} (R : A -> A -> Prop) (n : nat) (l : list A) :
  StronglySorted R l -> StronglySorted R (firstn n l).
Proof.
  revert l. induction n as [|n IH]; intros l H; [constructor|].
  destruct l as [|x l]; [constructor|]. cbn.
  inversion H as [|? ? Hs Hall]; subst. constructor; [now apply IH|].
  rewrite Forall_forall in *. intros y Hy. apply Hall.
  eapply in_firstn; exact Hy.
Qed.







Lemma filter_split_length {A} (f : A -> bool) (l : list A) :
  (List.length (filter f l) + List.length (filter (fun x => negb (f x)) l)
   = List.length l)%nat.
Proof.
  induction l as [|x l IH]; cbn; [reflexivity|].
  destruct (f x); cbn; lia.
Qed.

(** X8. Counting.  With no filter [count_papers] is the number of papers
    of the store; with a filter it is between 0 and that number; for any
    category the processed and the unprocessed papers add up to all papers
    of that category; an empty category text counts as none given. *)
Theorem count_papers_partition (s : DataStore) (category : option string)
  (flag : option bool) :
  count_papers s None None = size s /\
  0 <= count_papers s category flag <= size s /\
  count_papers s category (Some true) + count_papers s category (Some false)
  = count_papers s category None /\
  count_papers s (Some "") flag = count_papers s None flag.
Proof.
  unfold count_papers, size, Py.dict_values.
  split; [cbn; now rewrite length_map|].
  split.
  - rewrite by_processed_filter, by_category_filter.
    pose proof (length_filter_le
                  (fun p => match flag with
                            | Some b => Bool.eqb (processed p) b
                            | None => true
                            end)
                  (filter (fun p => match category with
                                    | Some (String _ _ as c) =>
                                        String.eqb (primary_category (metadata p)) c
                                    | _ => true
                                    end) (map snd (_papers_cache s)))) as H1.
    pose proof (length_filter_le
                  (fun p => match category with
                            | Some (String _ _ as c) =>
                                String.eqb (primary_category (metadata p)) c
                            | _ => true
                            end) (map snd (_papers_cache s))) as H2.
    rewrite length_map in H2. lia.
  - split; [|reflexivity].
    cbn [by_processed].
    set (l := by_category category (map snd (_papers_cache s))).
    pose proof (filter_split_length (fun p => Bool.eqb (processed p) true) l)
      as H.
    assert (E : filter (fun p => negb (Bool.eqb (processed p) true)) l
                = filter (fun p => Bool.eqb (processed p) false) l).
    { apply filter_ext. intros p. now destruct (processed p). }
    cbv beta in H. rewrite E in H. lia.
Qed.

(* ====================================================================== *)
(** * Further properties of the generation client                          *)
(* ====================================================================== *)

Lemma append_length (a b : string) :
  String.length (a ++ b) = (String.length a + String.length b)%nat.
Proof. induction a as [|c a IH]; cbn; [reflexivity | now rewrite IH]. Qed.

Lemma append_assoc_string (a b c : string) :
  (a ++ b) ++ c = a ++ (b ++ c).
Proof. induction a as [|x a IH]; cbn; [reflexivity | now rewrite IH]. Qed.







Lemma append_empty_r (a : string) : a ++ "" = a.
Proof. induction a as [|x a IH]; cbn; [reflexivity | now rewrite IH]. Qed.

Lemma yielded_nonempty (ds : list (option string)) :
  Forall (fun f => f <> "") (yielded ds).
Proof.
  induction ds as [|[[|c s]|] ds IH]; cbn; try exact IH; [constructor|].
  constructor; [discriminate | exact IH].
Qed.

Lemma yielded_accumulates (ds : list (option string)) (acc : string) :
  fold_left (fun response_text chunk => response_text ++ chunk)
            (yielded ds) acc
  = fold_left (fun response_text d =>
                 response_text ++ match d with Some c => c | None => "" end)
              ds acc.
Proof.
  revert acc. induction ds as [|[[|c s]|] ds IH]; intros acc; cbn.
  - reflexivity.
  - now rewrite append_empty_r.
  - apply IH.
  - now rewrite append_empty_r.
Qed.

(** X10. What the client costs and what it leaves alone.  An empty
    abstract is explained by the empty text without a request; every other
    explanation, every analysis and every chat sends exactly one request
    and never writes to the store.  An explanation is the reply, or the
    empty text when the reply has no content, and a failure of the backend
    is passed on.  A chat request carries the system prompt first and the
    given messages after it; no fragment of the stream is empty, and when
    the stream does not fail their concatenation is all the backend
    sent. *)
Theorem client_requests {L : Library} (E : Env) (w : World) :
  explain_abstract E "" w = (Ok "", w) /\
  (forall abstract, abstract <> "" ->
     backend_calls (snd (explain_abstract E abstract w))
     = (backend_calls w ++ [explain_request E abstract])%list /\
     store (snd (explain_abstract E abstract w)) = store w /\
     fst (explain_abstract E abstract w)
     = match completion E (explain_request E abstract) with
       | Ok reply => Ok (or_else reply "")
       | Raise e => Raise e
       end) /\
  (forall title abstract full_text,
     backend_calls (snd (analyze_paper E title abstract full_text w))
     = (backend_calls w ++ [analysis_request E title abstract full_text])%list /\
     store (snd (analyze_paper E title abstract full_text w)) = store w) /\
  (forall text messages model,
     backend_calls (snd (chat_with_context E text messages model w))
     = (backend_calls w ++ [chat_request E text messages model])%list /\
     store (snd (chat_with_context E text messages model w)) = store w /\
     req_messages (chat_request E text messages model)
     = ("system", chat_prompt text) :: messages /\
     Forall (fun f => f <> "") (fst (chat_with_context E text messages model w)) /\
     (failure (completion_stream E (chat_request E text messages model)) = None ->
      accumulate (fst (chat_with_context E text messages model w))
      = fold_left (fun response_text d =>
                     response_text ++ match d with Some c => c | None => "" end)
                  (deltas (completion_stream E (chat_request E text messages model)))
                  "")).
Proof.
  split; [reflexivity|]. split; [|split].
  - intros abstract Hne. destruct abstract as [|c a]; [congruence|].
    unfold explain_abstract, bind, call_backend, ret.
    destruct (completion E (explain_request E (String c a)));
      cbn [fst snd store backend_calls]; now repeat split.
  - intros title abstract full_text.
    unfold analyze_paper, bind, call_backend, ret, now.
    destruct (completion E (analysis_request E title abstract full_text));
      cbn [fst snd store backend_calls]; now repeat split.
  - intros text messages model.
    unfold chat_with_context, bind, call_backend, ret.
    cbn [fst snd store backend_calls].
    split; [reflexivity|]. split; [reflexivity|]. split; [reflexivity|].
    split.
    + apply Forall_app. split; [apply yielded_nonempty|].
      destruct (failure _); constructor; [discriminate | constructor].
    + intros ->. rewrite app_nil_r. unfold accumulate.
      apply yielded_accumulates.
Qed.

(* ====================================================================== *)
(** * Further properties of the chat handlers                              *)
(* ====================================================================== *)

Lemma last_n_length {A} (n : nat) (l : list A) :
  (List.length (Py.last_n n l) <= n)%nat.
Proof. unfold Py.last_n. rewrite length_skipn. lia. Qed.

(** X11. One turn of chat on a paper with extracted text, whatever the
    stream does.  The request carries at most the last ten messages of
    the history and the new user message.  The events are one [message]
    per fragment, then [done].  Afterwards the history is the old one
    followed by the user message and by one assistant message whose
    content is the fragments put together; text, analysis, processed flag
    and metadata of the paper and all other papers are as before; the
    backend was called once.  For an identifier that is not in the store
    the only event is the error, and nothing changes. *)
Theorem chat_turn_is_recorded {L : Library} (E : Env) (id : string)
  (user_message : string) (model : option string) (w : World)
  (paper : Paper) (text : string) :
  get_paper id (store w) = Some paper ->
  extracted_text paper = Some text ->
  text <> "" ->
  let messages :=
    (map (fun msg => (role msg, content msg))
         (Py.last_n 10 (chat_history paper)) ++ [("user", user_message)])%list in
  let req := chat_request E text messages model in
  let fragments :=
    (yielded (deltas (completion_stream E req)) ++
     match failure (completion_stream E req) with
     | Some e => [("Error: " ++ e)%string]
     | None => []
     end)%list in
  (List.length messages <= 11)%nat /\
  (exists w' paper',
     chat_event_generator E id user_message model w
     = ((map (fun c => ("message", c)) fragments ++ [("done", "")])%list, w') /\
     get_paper id (store w') = Some paper' /\
     chat_history paper'
     = (chat_history paper ++
        [{| role := "user"; content := user_message;
            timestamp := utcnow E (clock_reads w) |};
         {| role := "assistant"; content := accumulate fragments;
            timestamp := utcnow E (clock_reads w + 2) |}])%list /\
     extracted_text paper' = Some text /\
     ai_analysis paper' = ai_analysis paper /\
     processed paper' = processed paper /\
     metadata paper' = metadata paper /\
     (forall k, k <> id -> get_paper k (store w') = get_paper k (store w)) /\
     backend_calls w' = (backend_calls w ++ [req])%list /\
     persisted (store w')) /\
  (forall unknown, get_paper unknown (store w) = None ->
     chat_event_generator E unknown user_message model w
     = ([("error", "Paper not found")], w)).
Proof.
  intros Hget Htext Hne messages req fragments.
  split.
  { unfold messages. rewrite length_app, length_map. cbn.
    pose proof (last_n_length 10 (chat_history paper)). lia. }
  split.
  2:{ intros unknown Hnone.
      unfold chat_event_generator, bind, read_store. now rewrite Hnone. }
  destruct text as [|a text]; [congruence|].
  unfold chat_event_generator.
  unfold bind at 1. unfold read_store at 1. rewrite Hget, Htext.
  fold messages.
  unfold bind at 1. unfold now at 1.
  set (w1 := {| store := store w; clock_reads := S (clock_reads w);
                backend_calls := backend_calls w |}).
  set (user_msg := {| role := "user"; content := user_message;
                      timestamp := utcnow E (clock_reads w) |}).
  destruct (@store_mutate_found L E
              (fun p => with_chat_history (chat_history p ++ [user_msg]) p)
              id w1 paper Hget)
    as (w2 & Hrun2 & Hget2 & Hother2 & _ & Hclock2 & Hcalls2 & _).
  unfold bind at 1.
  change (store_mutate E (fun t id0 => add_chat_message t id0 user_msg) id w1)
    with (store_mutate E
            (fun t id0 =>
               mutate (fun p => with_chat_history (chat_history p ++ [user_msg]) p)
                      t id0) id w1).
  rewrite Hrun2.
  unfold bind at 1. unfold chat_with_context at 1.
  unfold bind at 1. unfold call_backend at 1. unfold ret at 1.
  fold req. fold fragments.
  unfold bind at 1. unfold now at 1. cbn [store clock_reads backend_calls].
  set (w3 := {| store := store w2; clock_reads := S (clock_reads w2);
                backend_calls := (backend_calls w2 ++ [req])%list |}).
  set (assistant_msg := {| role := "assistant";
                           content := accumulate fragments;
                           timestamp := utcnow E (clock_reads w2) |}).
  destruct (@store_mutate_found L E
              (fun p => with_chat_history (chat_history p ++ [assistant_msg]) p)
              id w3 _ Hget2)
    as (w4 & Hrun4 & Hget4 & Hother4 & _ & _ & Hcalls4 & Hsaved4).
  unfold bind at 1.
  change (store_mutate E (fun t id0 => add_chat_message t id0 assistant_msg)
            id w3)
    with (store_mutate E
            (fun t id0 =>
               mutate (fun p => with_chat_history
                                  (chat_history p ++ [assistant_msg]) p)
                      t id0) id w3).
  rewrite Hrun4. unfold ret.
  eexists. eexists. split; [reflexivity|].
  split; [exact Hget4|].
  cbn [chat_history extracted_text ai_analysis processed metadata
         with_updated_at with_chat_history].
  split.
  { rewrite <- app_assoc. cbn [app]. unfold assistant_msg, user_msg.
    rewrite Hclock2. cbn [clock_reads w1].
    now replace (clock_reads w + 2)%nat with (S (S (clock_reads w))) by lia. }
  split; [exact Htext|]. split; [reflexivity|]. split; [reflexivity|].
  split; [reflexivity|].
  split.
  { intros k Hk. rewrite (Hother4 k Hk). cbn [store w3].
    now rewrite (Hother2 k Hk). }
  split; [|exact Hsaved4].
  rewrite Hcalls4. cbn [backend_calls w3]. now rewrite Hcalls2.
Qed.

Lemma chat_turn_is_recorded_witness :
  let E := Sample.answering None
             {| deltas := [Some "It "; Some ""; Some "works."];
                failure := None |} in
  let w := Sample.world_of
             (snd (add_paper Sample.sample_paper Sample.empty_store)) in
  map content
      (get_chat_history "test-1234.5678"
         (store (snd (chat_event_generator E "test-1234.5678" "Why?" None w))))
  = ["What is the main contribution?"; "Why?"; "It works."].
Proof.
  intros E w.
  destruct (@chat_turn_is_recorded Ref.library E "test-1234.5678"
              "Why?" None w Sample.sample_paper "Extracted text content"
              eq_refl eq_refl ltac:(discriminate))
    as (_ & (w' & paper' & Hrun & Hget & Hhist & _) & _).
  rewrite Hrun. cbn [snd]. unfold get_chat_history.
  unfold get_paper in Hget. rewrite Hget, Hhist. reflexivity.
Defined.

(** X12. The history handlers.  For an identifier that is not in the
    store both raise the 404 error and change nothing.  Otherwise reading
    gives one item per stored message, in order, and changes nothing;
    clearing empties the history of that paper, so that reading it right
    after gives the empty list, and keeps its text, its analysis and its
    processed flag, the other papers and the backend untouched. *)
Theorem chat_history_handlers {L : Library} (E : Env) (id : string)
  (w : World) :
  (get_paper id (store w) = None ->
   get_chat_history_route id w
   = (Raise (HTTPException 404 "Paper not found"), w) /\
   clear_chat_history_route E id w
   = (Raise (HTTPException 404 "Paper not found"), w)) /\
  (forall paper, get_paper id (store w) = Some paper ->
   get_chat_history_route id w
   = (Ok (map (fun msg => {| item_role := role msg;
                             item_content := content msg;
                             item_timestamp := timestamp msg |})
              (chat_history paper)), w) /\
   exists w' paper',
     clear_chat_history_route E id w = (Ok "Chat history cleared", w') /\
     get_paper id (store w') = Some paper' /\
     chat_history paper' = [] /\
     get_chat_history_route id w' = (Ok [], w') /\
     extracted_text paper' = extracted_text paper /\
     ai_analysis paper' = ai_analysis paper /\
     processed paper' = processed paper /\
     (forall k, k <> id -> get_paper k (store w') = get_paper k (store w)) /\
     backend_calls w' = backend_calls w).
Proof.
  split.
  - intros Hnone.
    unfold get_chat_history_route, clear_chat_history_route, bind, read_store.
    now rewrite Hnone.
  - intros paper Hget. split.
    + unfold get_chat_history_route, bind, read_store. now rewrite Hget.
    + destruct (@store_mutate_found L E (with_chat_history []) id w paper Hget)
        as (w' & Hrun & Hget' & Hother & _ & _ & Hcalls & _).
      unfold clear_chat_history_route. unfold bind at 1.
      unfold read_store at 1. rewrite Hget. unfold bind.
      change (store_mutate E clear_chat_history id w)
        with (store_mutate E
                (fun t id0 => mutate (with_chat_history []) t id0) id w).
      rewrite Hrun. unfold ret.
      eexists. eexists. split; [reflexivity|].
      split; [exact Hget'|]. split; [reflexivity|].
      split.
      { unfold get_chat_history_route, bind, read_store, ret.
        now rewrite Hget'. }
      repeat split; assumption.
Qed.

(* ====================================================================== *)
(** * Further properties of the paper handlers                             *)
(* ====================================================================== *)

(** X13. What the document handlers ask for.  For an identifier that is
    not in the store, processing and serving the document both raise the
    404 error.  For a paper without a recorded document path, or whose
    file is not there, processing raises the 400 error and serving raises
    a 404 error with the same text.  In all these cases nothing is
    extracted, no request is sent and the store is as before.  A recorded
    file that exists is served under the name of the identifier. *)
Theorem document_preconditions {L : Library} (E : Env) (id : string)
  (skip_ocr : bool) (w : World) :
  (get_paper id (store w) = None ->
   process_paper E id skip_ocr w
   = (Raise (HTTPException 404 "Paper not found"), w) /\
   get_paper_pdf E id w = (Raise (HTTPException 404 "Paper not found"), w)) /\
  (forall paper, get_paper id (store w) = Some paper ->
   (Py.truthy (pdf_path paper) = false \/
    exists path, pdf_path paper = Some path /\ path_exists E path = false) ->
   process_paper E id skip_ocr w
   = (Raise (HTTPException 400 "PDF file not found"), w) /\
   get_paper_pdf E id w
   = (Raise (HTTPException 404 "PDF file not found"), w)) /\
  (forall paper path, get_paper id (store w) = Some paper ->
   pdf_path paper = Some path -> path <> "" -> path_exists E path = true ->
   get_paper_pdf E id w = (Ok (path, id ++ ".pdf"), w)).
Proof.
  unfold process_paper, get_paper_pdf, bind, read_store, ret.
  split; [|split].
  - now intros ->.
  - intros paper -> [Hno|(path & Hpath & Hex)].
    + destruct (pdf_path paper) as [[|c p]|]; cbn in Hno; try discriminate;
        now split.
    + rewrite Hpath. destruct path as [|c p]; [now split|].
      now rewrite Hex.
  - intros paper path -> -> Hne Hex.
    destruct path as [|c p]; [congruence|]. now rewrite Hex.
Qed.





Lemma fetch_papers_loop {L : Library} (E : Env) (ms : list PaperMetadata)
  (acc : Z * list Paper) (w : World) :
  exists acc' w' new,
    for_each (fetch_papers_step E) acc ms w = (acc', w') /\
    fst acc' = fst acc + downloads E ms /\
    snd acc' = (snd acc ++ new)%list /\
    Z.of_nat (List.length new) = size (store w') - size (store w) /\
    Forall (fun p => In (metadata p) ms /\
                     get_paper (arxiv_id (metadata p)) (store w) = None /\
                     processed p = false /\ ai_analysis p = None) new /\
    incl (Py.dict_keys (_papers_cache (store w)))
         (Py.dict_keys (_papers_cache (store w'))) /\
    (forall m, In m ms ->
       In (arxiv_id m) (Py.dict_keys (_papers_cache (store w')))) /\
    backend_calls w' = backend_calls w.
Proof.
  revert acc w. induction ms as [|m ms IH]; intros acc w.
  - exists acc, w, []. cbn. unfold downloads. cbn. rewrite app_nil_r.
    repeat split; try lia; try apply incl_refl; try tauto. constructor.
  - cbn [for_each]. unfold bind at 1.
    unfold fetch_papers_step at 1. unfold bind, now, on_store, ret.
    cbn [store clock_reads backend_calls].
    set (paper := if Py.truthy (download_pdf E m)
                  then with_pdf_path (download_pdf E m)
                         (new_paper (utcnow E (clock_reads w)) m)
                  else new_paper (utcnow E (clock_reads w)) m).
    assert (Hmeta : metadata paper = m /\ processed paper = false /\
                    ai_analysis paper = None)
      by (unfold paper; now destruct (Py.truthy (download_pdf E m))).
    destruct Hmeta as (Hmeta & Hproc & Hai).
    destruct (add_paper_grows paper (store w)) as (Hin & Hincl & Hsize).
    assert (Hadded : fst (add_paper paper (store w)) = true ->
                     get_paper (arxiv_id (metadata paper)) (store w) = None).
    { unfold add_paper, get_paper, Py.dict_mem.
      destruct (Py.dict_get _ _); cbn; [discriminate | reflexivity]. }
    destruct (add_paper paper (store w)) as [added s1] eqn:Eadd.
    cbn [fst snd] in *.
    match goal with
    | |- exists a b c, for_each _ ?acc1 ms ?w1 = _ /\ _ =>
        destruct (IH acc1 w1)
          as (acc' & w' & new & Hrun & Hd & Hs & Hn & Hall & Hk & Hms & Hcalls)
    end.
    cbn [fst snd store backend_calls] in *.
    assert (Hall' : Forall (fun p => In (metadata p) (m :: ms) /\
                       get_paper (arxiv_id (metadata p)) (store w) = None /\
                       processed p = false /\ ai_analysis p = None) new).
    { eapply Forall_impl; [|exact Hall]. cbn.
      intros p (H1 & H2 & H3 & H4). split; [now right|]. split; [|now split].
      unfold get_paper in *. apply dict_get_None. intros Hc.
      apply dict_get_None in H2. apply H2. now apply Hincl. }
    exists acc', w'.
    exists (if added then paper :: new else new).
    split; [exact Hrun|].
    unfold downloads in *. cbn [filter].
    destruct (Py.truthy (download_pdf E m)); cbn [List.length];
      destruct added; cbn [fst snd] in *;
      (split; [lia|]);
      (split; [rewrite Hs; try rewrite <- app_assoc; reflexivity|]);
      (split; [cbn [List.length]; lia|]);
      (split; [try constructor; try exact Hall';
               repeat split; try (now left); try assumption;
               try (now apply Hadded)|]);
      (split; [eapply incl_tran; eassumption|]);
      (split; [intros m' [<-|Hm']; [apply Hk; now rewrite <- Hmeta
                                   | now apply Hms]|]);
      exact Hcalls.
Qed.

Lemma fetch_papers_loop_known {L : Library} (E : Env)
  (ms : list PaperMetadata) (acc : Z * list Paper) (w : World) :
  (forall m, In m ms ->
     In (arxiv_id m) (Py.dict_keys (_papers_cache (store w)))) ->
  snd (fst (for_each (fetch_papers_step E) acc ms w)) = snd acc /\
  store (snd (for_each (fetch_papers_step E) acc ms w)) = store w.
Proof.
  revert acc w. induction ms as [|m ms IH]; intros acc w Hknown.
  - now cbn.
  - cbn [for_each]. unfold bind.
    destruct (fetch_papers_step E acc m w) as [acc1 w1] eqn:Estep.
    unfold fetch_papers_step, bind, now, on_store, ret in Estep.
    cbn [store clock_reads backend_calls] in Estep.
    set (paper := if Py.truthy (download_pdf E m)
                  then with_pdf_path (download_pdf E m)
                         (new_paper (utcnow E (clock_reads w)) m)
                  else new_paper (utcnow E (clock_reads w)) m) in Estep.
    assert (Hmeta : metadata paper = m)
      by (unfold paper; now destruct (Py.truthy (download_pdf E m))).
    assert (Hadd : add_paper paper (store w) = (false, store w)).
    { unfold add_paper. rewrite Hmeta.
      assert (Hm : Py.dict_mem (arxiv_id m) (_papers_cache (store w)) = true)
        by (apply dict_mem_In, Hknown; now left).
      now rewrite Hm. }
    rewrite Hadd in Estep. injection Estep as <- <-.
    match goal with
    | |- snd (fst (for_each _ ?a1 ms ?w1)) = _ /\ _ =>
        destruct (IH a1 w1) as (H1 & H2);
          [intros m' Hm'; cbn; apply Hknown; now right|]
    end.
    cbn [fst snd store] in *. now split.
Qed.

(** X15. The fetch handler.  A date that is not a date is answered with
    the 400 error, a failure of the catalog with the 500 error that
    carries its text, and in both cases nothing is stored.  Otherwise the
    answer counts every record of the catalog as found and every obtained
    document as downloaded, and lists exactly the papers that were new to
    the store, each unprocessed: as many as the store gained, none of them
    present before.  Every record is in the store afterwards.  When all
    records were in the store already, the list is empty and the store is
    as before: fetching again creates no duplicate. *)
Theorem fetch_papers_spec {L : Library} {date : Type} (C : Calendar date)
  (E : Env) (category : string) (request_date : option string) (w : World) :
  (requested_day C request_date = None ->
   fetch_papers C E category request_date w
   = (Raise (HTTPException 400 "Invalid date format. Use YYYY-MM-DD"), w)) /\
  (forall day, requested_day C request_date = Some day ->
   match fetch_by_category_on C category day with
   | Raise e =>
       fetch_papers C E category request_date w
       = (Raise (HTTPException 500
                   ("Failed to fetch from arXiv: " ++ str_exn e)), w)
   | Ok ms =>
       exists resp w',
         fetch_papers C E category request_date w = (Ok resp, w') /\
         fr_category resp = category /\
         fr_date resp = or_else request_date (today C) /\
         papers_found resp = Z.of_nat (List.length ms) /\
         papers_downloaded resp = downloads E ms /\
         Z.of_nat (List.length (fr_papers resp))
         = size (store w') - size (store w) /\
         Forall (fun r => get_paper (pr_arxiv_id r) (store w) = None /\
                          pr_processed r = false /\
                          exists m, In m ms /\ pr_arxiv_id r = arxiv_id m)
                (fr_papers resp) /\
         (forall m, In m ms ->
            In (arxiv_id m) (Py.dict_keys (_papers_cache (store w')))) /\
         backend_calls w' = backend_calls w /\
         ((forall m, In m ms ->
             In (arxiv_id m) (Py.dict_keys (_papers_cache (store w)))) ->
          fr_papers resp = [] /\ store w' = store w)
   end).
Proof.
  split.
  - unfold requested_day, fetch_papers.
    destruct request_date as [[|c t]|]; try discriminate.
    now destruct (strptime C (String c t)).
  - intros day Hday.
    assert (Hparsed :
              match request_date with
              | Some (String _ _ as text) =>
                  match strptime C text with
                  | Some d => Ok (Some d)
                  | None =>
                      Raise (HTTPException 400
                               "Invalid date format. Use YYYY-MM-DD")
                  end
              | _ => Ok None
              end = Ok day).
    { unfold requested_day in Hday.
      destruct request_date as [[|c t]|]; try (now injection Hday as <-).
      destruct (strptime C (String c t)); [now injection Hday as <- | discriminate]. }
    unfold fetch_papers. rewrite Hparsed.
    destruct (fetch_by_category_on C category day) as [ms|e]; [|reflexivity].
    destruct (fetch_papers_loop E ms (0, []) w)
      as (acc' & w' & new & Hrun & Hd & Hs & Hn & Hall & _ & Hms & Hcalls).
    pose proof (fetch_papers_loop_known E ms (0, []) w) as Hknown.
    unfold bind. rewrite Hrun in *. unfold ret. cbn [fst snd] in *.
    eexists. eexists. split; [reflexivity|].
    cbn [fr_category fr_date papers_found papers_downloaded fr_papers].
    split; [reflexivity|]. split; [reflexivity|]. split; [reflexivity|].
    split; [lia|].
    split; [rewrite length_map, Hs; exact Hn|].
    split.
    { rewrite Hs. cbn [app]. apply Forall_map.
      eapply Forall_impl; [|exact Hall]. cbn.
      intros p (H1 & H2 & H3 & _). split; [exact H2|]. split; [exact H3|].
      exists (metadata p). now split. }
    split; [exact Hms|]. split; [exact Hcalls|].
    intros Hall_known. destruct (Hknown Hall_known) as (H1 & H2).
    rewrite H1. now split.
Qed.

(* ====================================================================== *)
(** * Further properties of the batch jobs                                 *)
(* ====================================================================== *)

Lemma add_paper_keeps {L : Library} (q : Paper) (s : DataStore)
  (id : string) (p : Paper) :
  get_paper id s = Some p ->
  get_paper id (snd (add_paper q s)) = Some p.
Proof.
  intros Hget. unfold add_paper.
  destruct (Py.dict_mem (arxiv_id (metadata q)) (_papers_cache s)) eqn:Emem;
    [exact Hget|].
  cbn. unfold get_paper in *. cbn.
  rewrite dict_get_set_other; [exact Hget|].
  intros ->. unfold Py.dict_mem in Emem. now rewrite Hget in Emem.
Qed.

Lemma add_paper_known {L : Library} (q : Paper) (s : DataStore) :
  In (arxiv_id (metadata q)) (Py.dict_keys (_papers_cache s)) ->
  add_paper q s = (false, s).
Proof.
  intros Hin. unfold add_paper.
  apply dict_mem_In in Hin. now rewrite Hin.
Qed.

(** The loop of [_fetch_category] leaves the papers of the store as they
    are, and writes nothing when every record is known. *)
Lemma fetch_loop_keeps {L : Library} (E : Env) (ms : list PaperMetadata)
  (acc : Z * Z) (w : World) :
  (forall id p,
     get_paper id (store w) = Some p ->
     get_paper id (store (snd (for_each (fetch_one E) acc ms w))) = Some p) /\
  ((forall m, In m ms ->
      In (arxiv_id m) (Py.dict_keys (_papers_cache (store w)))) ->
   snd (fst (for_each (fetch_one E) acc ms w)) = snd acc /\
   store (snd (for_each (fetch_one E) acc ms w)) = store w).
Proof.
  revert acc w. induction ms as [|m ms IH]; intros acc w.
  - cbn. split; [tauto | split; reflexivity].
  - cbn [for_each]. unfold bind at 1 2 3.
    destruct (fetch_one E acc m w) as [acc1 w1] eqn:Estep.
    unfold fetch_one, bind, now, on_store, ret in Estep.
    cbn [store clock_reads backend_calls] in Estep.
    set (paper := if Py.truthy (download_pdf E m)
                  then with_pdf_path (download_pdf E m)
                         (new_paper (utcnow E (clock_reads w)) m)
                  else new_paper (utcnow E (clock_reads w)) m) in *.
    assert (Hid : arxiv_id (metadata paper) = arxiv_id m)
      by (unfold paper; now destruct (Py.truthy (download_pdf E m))).
    destruct (IH acc1 w1) as (Hkeep & Hknown).
    split.
    + intros id p Hget. apply Hkeep.
      pose proof (add_paper_keeps paper (store w) id Hget) as H1.
      destruct (add_paper paper (store w)) as [added s1].
      injection Estep as <- <-. exact H1.
    + intros Hall.
      assert (Hadd : add_paper paper (store w) = (false, store w)).
      { apply add_paper_known. rewrite Hid. apply Hall. now left. }
      rewrite Hadd in Estep. injection Estep as <- <-.
      cbn [store snd] in Hknown.
      destruct Hknown as (H1 & H2); [intros m' Hm'; apply Hall; now right|].
      split; [exact H1 | exact H2].
Qed.

Lemma fetch_papers_loop_keeps {L : Library} (E : Env)
  (ms : list PaperMetadata) (acc : Z * list Paper) (w : World) :
  forall id p,
    get_paper id (store w) = Some p ->
    get_paper id (store (snd (for_each (fetch_papers_step E) acc ms w)))
    = Some p.
Proof.
  revert acc w. induction ms as [|m ms IH]; intros acc w id p Hget.
  - exact Hget.
  - cbn [for_each]. unfold bind at 1.
    destruct (fetch_papers_step E acc m w) as [acc1 w1] eqn:Estep.
    apply IH.
    unfold fetch_papers_step, bind, now, on_store, ret in Estep.
    cbn [store clock_reads backend_calls] in Estep.
    match type of Estep with
    | context [add_paper ?q (store w)] =>
        pose proof (add_paper_keeps q (store w) id Hget) as H1;
        destruct (add_paper q (store w)) as [added s1]
    end.
    injection Estep as <- <-. exact H1.
Qed.

(** X16. Fetching never touches a paper that is already stored: after
    the job for a category, and after the fetch handler, every paper of
    the store is the one it was, document path included, also when the
    catalog lists it again and its document is obtained this time.  The
    job calls no backend.  When every record of the catalog is known, the
    job saves nothing and the store is as before; so fetching a category
    a second time, the catalog answering alike, saves nothing. *)
Theorem fetch_keeps_stored_papers {L : Library} {date : Type}
  (C : Calendar date) (E : Env) (category : string)
  (request_date : option string) (w : World) :
  let run := _fetch_category E category w in
  let again := _fetch_category E category (snd run) in
  (forall id p,
     get_paper id (store w) = Some p ->
     get_paper id (store (snd run)) = Some p /\
     get_paper id (store (snd (fetch_papers C E category request_date w)))
     = Some p) /\
  backend_calls (snd run) = backend_calls w /\
  match fetch_by_category E category with
  | Raise e => run = (Raise e, w)
  | Ok ms =>
      ((forall m, In m ms ->
          In (arxiv_id m) (Py.dict_keys (_papers_cache (store w)))) ->
       store (snd run) = store w /\
       exists t, fst run = Ok t /\ saved t = 0) /\
      store (snd again) = store (snd run) /\
      exists t, fst again = Ok t /\ saved t = 0 /\
                found t = Z.of_nat (List.length ms)
  end.
Proof.
  cbn zeta.
  assert (Hknown : forall ms w0,
            fetch_by_category E category = Ok ms ->
            (forall m, In m ms ->
               In (arxiv_id m) (Py.dict_keys (_papers_cache (store w0)))) ->
            store (snd (_fetch_category E category w0)) = store w0 /\
            exists t, fst (_fetch_category E category w0) = Ok t /\
                      saved t = 0 /\ found t = Z.of_nat (List.length ms)).
  { intros ms w0 Hms Hall. unfold _fetch_category. rewrite Hms.
    destruct (fetch_loop_keeps E ms (0, 0) w0) as (_ & Hk).
    destruct (Hk Hall) as (H1 & H2).
    unfold bind.
    destruct (for_each (fetch_one E) (0, 0) ms w0) as [acc' w'].
    cbn in *. split; [exact H2|].
    eexists. split; [reflexivity|]. now cbn. }
  split; [|split].
  - intros id p Hget. split.
    + unfold _fetch_category.
      destruct (fetch_by_category E category) as [ms|e]; [|exact Hget].
      destruct (fetch_loop_keeps E ms (0, 0) w) as (Hkeep & _).
      specialize (Hkeep id p Hget). unfold bind.
      now destruct (for_each (fetch_one E) (0, 0) ms w).
    + unfold fetch_papers.
      destruct (match request_date with
                | Some (String _ _ as text) =>
                    match strptime C text with
                    | Some d => Ok (Some d)
                    | None =>
                        Raise (HTTPException 400
                                 "Invalid date format. Use YYYY-MM-DD")
                    end
                | _ => Ok None
                end) as [day|e]; [|exact Hget].
      destruct (fetch_by_category_on C category day) as [ms|e]; [|exact Hget].
      pose proof (fetch_papers_loop_keeps E ms (0, []) w id Hget) as Hkeep.
      unfold bind.
      now destruct (for_each (fetch_papers_step E) (0, []) ms w).
  - pose proof (_fetch_category_spec E category w) as H.
    unfold _fetch_category in *.
    destruct (fetch_by_category E category) as [ms|e]; [|reflexivity].
    destruct (fetch_loop E ms (0, 0) w) as (acc' & w' & Hrun & _ & _ & _ & _ & _ & Hc).
    unfold bind. now rewrite Hrun.
  - pose proof (_fetch_category_spec E category w) as H.
    destruct (fetch_by_category E category) as [ms|e] eqn:Ecat; [|exact H].
    destruct H as (t & w' & Hrun & _ & _ & _ & _ & Hall).
    split.
    + intros Hk. destruct (Hknown ms w eq_refl Hk) as (H1 & t0 & H2 & H3 & _).
      split; [exact H1|]. now exists t0.
    + rewrite Hrun. cbn [snd].
      destruct (Hknown ms w' eq_refl Hall) as (H1 & t0 & H2 & H3 & H4).
      split; [exact H1|]. now exists t0.
Qed.

Lemma keys_get_paper (id : string) (s : DataStore) :
  In id (Py.dict_keys (_papers_cache s)) <->
  exists p, get_paper id s = Some p.
Proof.
  rewrite <- dict_mem_In. unfold Py.dict_mem, get_paper.
  destruct (Py.dict_get id (_papers_cache s)) as [p|].
  - split; [eauto | reflexivity].
  - split; [discriminate | intros (p & H); discriminate H].
Qed.

(** What one run of [_fetch_category] does to the world. *)
Lemma _fetch_category_world {L : Library} (E : Env) (category : string)
  (w : World) :
  let run := _fetch_category E category w in
  (forall id p,
     get_paper id (store w) = Some p ->
     get_paper id (store (snd run)) = Some p) /\
  backend_calls (snd run) = backend_calls w /\
  (forall ms m,
     fetch_by_category E category = Ok ms -> In m ms ->
     In (arxiv_id m) (Py.dict_keys (_papers_cache (store (snd run))))) /\
  match fst run with
  | Ok t => saved t = size (store (snd run)) - size (store w)
  | Raise _ => snd run = w
  end.
Proof.
  cbn zeta. pose proof (_fetch_category_spec E category w) as H.
  unfold _fetch_category in *.
  destruct (fetch_by_category E category) as [ms|e].
  - destruct (fetch_loop_keeps E ms (0, 0) w) as (Hkeep & _).
    destruct (fetch_loop E ms (0, 0) w)
      as (acc' & w' & Hrun & _ & _ & _ & _ & _ & Hc).
    destruct H as (t & w1 & Hrun1 & _ & _ & Hs & _ & Hall).
    unfold bind in *. rewrite Hrun in *. unfold ret in *.
    injection Hrun1 as <- <-. cbn [fst snd] in *.
    split; [exact Hkeep|]. split; [exact Hc|].
    split; [intros ms' m [= <-]; apply Hall | exact Hs].
  - cbn. split; [tauto|]. split; [reflexivity|].
    split; [discriminate | reflexivity].
Qed.

Lemma fetch_category_step_spec {L : Library} (E : Env)
  (results : Py.dict category_result) (category : string) (w : World) :
  exists r,
    fetch_category_step E results category w
    = (Py.dict_set category r results, snd (_fetch_category E category w)) /\
    saved_of r
    = size (store (snd (_fetch_category E category w))) - size (store w).
Proof.
  destruct (_fetch_category_world E category w) as (_ & _ & _ & H).
  unfold fetch_category_step, bind.
  destruct (_fetch_category E category w) as [[t|e] w1]; cbn [fst snd] in *.
  - exists (Fetched t). split; [reflexivity | exact H].
  - exists (Failed (str_exn e)). subst w1. split; [reflexivity | cbn; lia].
Qed.

Lemma saved_total_app (a b : Py.dict category_result) :
  saved_total (a ++ b)%list = saved_total a + saved_total b.
Proof.
  unfold saved_total. induction a as [|x a IH]; cbn; [reflexivity|].
  fold (saved_total a) in *. cbn in IH. lia.
Qed.

(** The loop of [fetch_all_categories]. *)
Lemma fetch_all_world {L : Library} (E : Env) (cats : list string)
  (results : Py.dict category_result) (w : World) :
  let run := for_each (fetch_category_step E) results cats w in
  (Py.dict_wf results -> Py.dict_wf (fst run)) /\
  (forall c, In c (Py.dict_keys (fst run)) <->
             In c (Py.dict_keys results) \/ In c cats) /\
  (forall id p,
     get_paper id (store w) = Some p ->
     get_paper id (store (snd run)) = Some p) /\
  backend_calls (snd run) = backend_calls w /\
  (forall c ms m,
     In c cats -> fetch_by_category E c = Ok ms -> In m ms ->
     In (arxiv_id m) (Py.dict_keys (_papers_cache (store (snd run))))) /\
  (NoDup cats -> (forall c, In c cats -> ~ In c (Py.dict_keys results)) ->
   saved_total (fst run)
   = saved_total results + (size (store (snd run)) - size (store w))).
Proof.
  revert results w. induction cats as [|c0 cats IH]; intros results w.
  - cbn. split; [tauto|]. split; [tauto|]. split; [tauto|].
    split; [reflexivity|]. split; [tauto | intros; unfold saved_total; lia].
  - cbn [for_each]. cbn zeta. unfold bind.
    destruct (fetch_category_step_spec E results c0 w) as (r0 & Hstep & Hsaved).
    destruct (_fetch_category_world E c0 w) as (Hkeep0 & Hc0 & Hall0 & _).
    rewrite Hstep.
    set (w1 := snd (_fetch_category E c0 w)) in *.
    destruct (IH (Py.dict_set c0 r0 results) w1)
      as (Hwf & Hkeys & Hkeep & Hc & Hall & Hsum).
    split; [intros H; now apply Hwf, dict_set_wf|].
    split.
    { intros c. rewrite Hkeys, dict_keys_set.
      destruct (Py.dict_mem c0 results) eqn:Emem.
      - apply dict_mem_In in Emem. cbn [In].
        split; [tauto|]. intros [H|[<-|H]]; tauto.
      - rewrite in_app_iff. cbn [In]. tauto. }
    split; [intros id p Hget; now apply Hkeep, Hkeep0|].
    split; [now rewrite Hc|].
    split.
    { intros c ms m [<-|Hin] Hms Hm.
      - apply keys_get_paper.
        destruct (proj1 (keys_get_paper _ _) (Hall0 ms m Hms Hm)) as (p & Hp).
        exists p. now apply Hkeep.
      - now apply (Hall c ms m). }
    intros Hnd Hfresh. inversion Hnd as [|? ? Hnot Hnd']; subst.
    assert (Habs : ~ In c0 (Py.dict_keys results))
      by (apply Hfresh; now left).
    rewrite Hsum.
    + rewrite (dict_set_absent c0 r0 results)
        by exact Habs.
      rewrite saved_total_app. unfold saved_total at 2. cbn [fold_right snd].
      lia.
    + exact Hnd'.
    + intros c Hin. rewrite dict_keys_set.
      replace (Py.dict_mem c0 results) with false
        by (symmetry; now apply dict_mem_not_In).
      rewrite in_app_iff. cbn [In].
      intros [H|[<-|[]]]; [apply (Hfresh c); [now right | exact H] | tauto].
Qed.

(** X17. The job over all categories.  Its result has one entry for each
    configured category and no other, a repeated category once.  Every
    record of every category whose catalog query succeeded is in the
    store at the end, the papers stored before are as they were, and no
    backend is called.  When no category is repeated, the [saved] counts
    of the result add up to the number of papers the store gained: a
    paper listed under two categories is saved, and counted, once. *)
Theorem fetch_all_categories_spec {L : Library} (E : Env)
  (_categories : list string) (w : World) :
  let run := fetch_all_categories E _categories w in
  NoDup (Py.dict_keys (fst run)) /\
  (forall c, In c (Py.dict_keys (fst run)) <-> In c _categories) /\
  (forall c ms m,
     In c _categories -> fetch_by_category E c = Ok ms -> In m ms ->
     In (arxiv_id m) (Py.dict_keys (_papers_cache (store (snd run))))) /\
  (forall id p,
     get_paper id (store w) = Some p ->
     get_paper id (store (snd run)) = Some p) /\
  backend_calls (snd run) = backend_calls w /\
  (NoDup _categories ->
   saved_total (fst run) = size (store (snd run)) - size (store w)).
Proof.
  cbn zeta. unfold fetch_all_categories.
  destruct (fetch_all_world E _categories [] w)
    as (Hwf & Hkeys & Hkeep & Hc & Hall & Hsum).
  split; [apply Hwf; constructor|].
  split; [intros c; rewrite Hkeys; cbn; tauto|].
  split; [exact Hall|]. split; [exact Hkeep|]. split; [exact Hc|].
  intros Hnd. rewrite Hsum; [cbn; lia | exact Hnd | intros c _ []].
Qed.

Lemma analyze_paper_calls {L : Library} (E : Env) (title abstract : string)
  (full_text : option string) (w : World) :
  backend_calls (snd (analyze_paper E title abstract full_text w))
  = (backend_calls w ++ [analysis_request E title abstract full_text])%list.
Proof.
  unfold analyze_paper, bind, call_backend.
  now destruct (completion E _).
Qed.

Lemma analyze_paper_result {L : Library} (E : Env) (title abstract : string)
  (full_text : option string) (w : World) (a : AIAnalysis) :
  fst (analyze_paper E title abstract full_text w) = Ok a ->
  exists reply t,
    completion E (analysis_request E title abstract full_text) = Ok reply /\
    parse_analysis t (or_else reply "{}") = Ok a.
Proof.
  unfold analyze_paper, bind, call_backend.
  destruct (completion E _) as [reply|e]; [|discriminate].
  cbn. intros H. eauto.
Qed.

Lemma analyze_paper_raises {L : Library} (E : Env) (title abstract : string)
  (full_text : option string) (w : World) (e : exn) :
  fst (analyze_paper E title abstract full_text w) = Raise e ->
  completion E (analysis_request E title abstract full_text) = Raise e \/
  exists reply t,
    completion E (analysis_request E title abstract full_text) = Ok reply /\
    parse_analysis t (or_else reply "{}") = Raise e.
Proof.
  unfold analyze_paper, bind, call_backend.
  destruct (completion E _) as [reply|e0].
  - cbn. intros H. right. eauto.
  - cbn. intros [= ->]. now left.
Qed.

(** What the batch job does to a paper once its text is settled: the
    analysis, and the two writes when the analysis was obtained. *)
Lemma analyse_and_mark {L : Library} (E : Env) (id : string)
  (paper p1 : Paper) (w1 : World) :
  get_paper id (store w1) = Some p1 ->
  let run :=
    (current <- read_store (get_paper id) ;;
     let paper := match current with Some p => p | None => paper end in
     analysis <-! analyze_paper E (title (metadata paper))
                    (abstract (metadata paper)) (extracted_text paper) ;;
     store_mutate E (fun t id => set_ai_analysis t id analysis) id ;;
     store_mutate E (fun t id => set_processed t id true) id ;;
     ret (Ok tt))%M w1 in
  exists p',
    get_paper id (store (snd run)) = Some p' /\
    metadata p' = metadata p1 /\ pdf_path p' = pdf_path p1 /\
    chat_history p' = chat_history p1 /\
    extracted_text p' = extracted_text p1 /\
    (forall k, k <> id ->
       get_paper k (store (snd run)) = get_paper k (store w1)) /\
    backend_calls (snd run) = (backend_calls w1 ++ [request_for E p1])%list /\
    match fst run with
    | Ok _ =>
        processed p' = true /\
        exists a reply t,
          ai_analysis p' = Some a /\
          completion E (request_for E p1) = Ok reply /\
          parse_analysis t (or_else reply "{}") = Ok a
    | Raise e =>
        processed p' = processed p1 /\ ai_analysis p' = ai_analysis p1 /\
        (completion E (request_for E p1) = Raise e \/
         exists reply t,
           completion E (request_for E p1) = Ok reply /\
           parse_analysis t (or_else reply "{}") = Raise e)
    end.
Proof.
  intros Hget run.
  assert (Erun : run = run) by reflexivity.
  unfold run at 2 in Erun. clearbody run.
  unfold bind at 1 in Erun. unfold read_store at 1 in Erun.
  rewrite Hget in Erun. cbv zeta in Erun. unfold bindx, bind in Erun.
  pose proof (analyze_paper_store E (title (metadata p1))
                (abstract (metadata p1)) (extracted_text p1) w1) as Hst.
  pose proof (analyze_paper_calls E (title (metadata p1))
                (abstract (metadata p1)) (extracted_text p1) w1) as Hcalls.
  pose proof (@analyze_paper_result L E (title (metadata p1))
                (abstract (metadata p1)) (extracted_text p1) w1) as Hres.
  pose proof (@analyze_paper_raises L E (title (metadata p1))
                (abstract (metadata p1)) (extracted_text p1) w1) as Hexn.
  destruct (analyze_paper E (title (metadata p1))
              (abstract (metadata p1)) (extracted_text p1) w1)
    as [[analysis|e] w2]; cbn [fst snd] in *.
  - rewrite <- Hst in Hget.
    destruct (@store_mutate_found L E (with_ai_analysis (Some analysis))
                id w2 p1 Hget)
      as (w3 & Hrun3 & Hget3 & Hoth3 & _ & _ & Hcalls3 & _).
    change (store_mutate E (fun t id0 => set_ai_analysis t id0 analysis) id w2)
      with (store_mutate E
              (fun t id0 => mutate (with_ai_analysis (Some analysis)) t id0)
              id w2) in Erun.
    rewrite Hrun3 in Erun.
    destruct (@store_mutate_found L E (with_processed true) id w3 _ Hget3)
      as (w4 & Hrun4 & Hget4 & Hoth4 & _ & _ & Hcalls4 & _).
    change (store_mutate E (fun t id0 => set_processed t id0 true) id w3)
      with (store_mutate E (fun t id0 => mutate (with_processed true) t id0)
              id w3) in Erun.
    rewrite Hrun4 in Erun. unfold ret in Erun. subst run. cbn [fst snd].
    eexists. split; [exact Hget4|]. cbn.
    split; [reflexivity|]. split; [reflexivity|]. split; [reflexivity|].
    split; [reflexivity|].
    split; [intros k Hk; now rewrite Hoth4, Hoth3, Hst by exact Hk|].
    split; [now rewrite Hcalls4, Hcalls3, Hcalls|].
    split; [reflexivity|].
    destruct (Hres analysis eq_refl) as (reply & t & H1 & H2).
    exists analysis, reply, t. repeat split; assumption.
  - unfold ret in Erun. subst run. cbn [fst snd]. exists p1. rewrite Hst.
    split; [exact Hget|]. repeat split; try reflexivity; [exact Hcalls|].
    exact (Hexn e eq_refl).
Qed.

Lemma store_text_rest {L : Library} (E : Env) (id : string)
  (text : option string) (w : World) (p p1 : Paper) :
  get_paper id (store w) = Some p ->
  get_paper id (store (snd (store_text E id text w))) = Some p1 ->
  pdf_path p1 = pdf_path p /\
  chat_history p1 = chat_history p /\
  ai_analysis p1 = ai_analysis p /\
  backend_calls (snd (store_text E id text w)) = backend_calls w /\
  forall k, k <> id ->
    get_paper k (store (snd (store_text E id text w)))
    = get_paper k (store w).
Proof.
  intros Hget Hget1. unfold store_text in *.
  destruct text as [[|c t]|]; cbn [snd ret] in *;
    try (rewrite Hget in Hget1; injection Hget1 as <-;
         repeat split; reflexivity).
  unfold bind in *.
  destruct (@store_mutate_found L E
              (with_extracted_text (Some (String c t))) id w p Hget)
    as (w' & Hrun & Hget' & Hoth & _ & _ & Hcalls & _).
  change (store_mutate E
            (fun now0 id0 => set_extracted_text now0 id0 (String c t))
            id w)
    with (store_mutate E
            (fun t0 id0 =>
               mutate (with_extracted_text (Some (String c t))) t0 id0)
            id w) in *.
  rewrite Hrun in *. cbn [snd ret] in *.
  rewrite Hget' in Hget1. injection Hget1 as <-.
  repeat split; try reflexivity; assumption.
Qed.

Lemma process_body_spec {L : Library} (E : Env) (paper : Paper)
  (path : string) (w : World) :
  get_paper (arxiv_id (metadata paper)) (store w) = Some paper ->
  let id := arxiv_id (metadata paper) in
  let run := process_body E paper path w in
  exists p',
    get_paper id (store (snd run)) = Some p' /\
    metadata p' = metadata paper /\ pdf_path p' = pdf_path paper /\
    chat_history p' = chat_history paper /\
    extracted_text p' = text_after E paper path /\
    (forall k, k <> id ->
       get_paper k (store (snd run)) = get_paper k (store w)) /\
    match fst run with
    | Ok _ =>
        processed p' = true /\
        backend_calls (snd run)
        = (backend_calls w ++ [request_for E p'])%list /\
        exists a reply t,
          ai_analysis p' = Some a /\
          completion E (request_for E p') = Ok reply /\
          parse_analysis t (or_else reply "{}") = Ok a
    | Raise e =>
        processed p' = processed paper /\
        ai_analysis p' = ai_analysis paper /\
        ((Py.truthy (extracted_text paper) = false /\
          extract_text E path = Raise e /\
          backend_calls (snd run) = backend_calls w) \/
         (backend_calls (snd run)
          = (backend_calls w ++ [request_for E p'])%list /\
          (completion E (request_for E p') = Raise e \/
           exists reply t,
             completion E (request_for E p') = Ok reply /\
             parse_analysis t (or_else reply "{}") = Raise e)))
    end.
Proof.
  intros Hget id run.
  assert (Erun : run = run) by reflexivity.
  unfold run at 2 in Erun. clearbody run.
  assert (Hreq : forall p1 p',
            metadata p' = metadata p1 ->
            extracted_text p' = extracted_text p1 ->
            request_for E p' = request_for E p1).
  { intros p1 p' H1 H2. unfold request_for. now rewrite H1, H2. }
  unfold process_body in Erun. fold id in Erun, Hget.
  unfold bindx at 1 in Erun. unfold bind at 1 in Erun.
  unfold text_after.
  destruct (Py.truthy (extracted_text paper)) eqn:Etext.
  - unfold ret at 1 in Erun.
    pose proof (analyse_and_mark E id paper w Hget) as H.
    cbv beta zeta in H, Erun. rewrite <- Erun in H.
    destruct H as (p' & Hget' & Hm & Hp & Hc & Ht & Hoth & Hcalls & Hout).
    exists p'. rewrite (Hreq paper p' Hm Ht).
    destruct (fst run) as [u|e].
    + destruct Hout as (Hproc & Ha). repeat split; assumption.
    + destruct Hout as (Hproc & Ha & Hwhy).
      split; [exact Hget'|]. split; [exact Hm|]. split; [exact Hp|].
      split; [exact Hc|]. split; [exact Ht|]. split; [exact Hoth|].
      split; [exact Hproc|]. split; [exact Ha|]. right. now split.
  - destruct (extract_text E path) as [text|e] eqn:Eocr.
    + destruct (store_text_spec E id text w Hget)
        as (p1 & Hget1 & Hproc1 & Hmeta1 & Htext1).
      destruct (store_text_rest E id text w Hget Hget1)
        as (Hpdf1 & Hchat1 & Hai1 & Hcalls1 & Hoth1).
      unfold bind at 1 in Erun.
      destruct (store_text E id text w) as [stored w1].
      cbn [snd] in *. unfold ret at 1 in Erun.
      pose proof (analyse_and_mark E id paper w1 Hget1) as H.
      cbv beta zeta in H, Erun. rewrite <- Erun in H.
      destruct H as (p' & Hget' & Hm & Hp & Hc & Ht & Hoth & Hcalls & Hout).
      assert (Htext' : extracted_text p'
                       = match text with
                         | Some (String _ _ as text) => Some text
                         | _ => extracted_text paper
                         end).
      { rewrite Ht, Htext1.
        destruct text as [[|c t]|]; reflexivity. }
      exists p'. rewrite (Hreq p1 p' Hm Ht).
      split; [exact Hget'|]. split; [congruence|]. split; [congruence|].
      split; [congruence|]. split; [exact Htext'|].
      split; [intros k Hk; now rewrite Hoth, Hoth1 by exact Hk|].
      destruct (fst run) as [u|e].
      * destruct Hout as (Hproc & Ha).
        split; [exact Hproc|]. split; [now rewrite Hcalls, Hcalls1|].
        exact Ha.
      * destruct Hout as (Hproc & Ha & Hwhy).
        split; [congruence|]. split; [congruence|].
        right. split; [now rewrite Hcalls, Hcalls1 | exact Hwhy].
    + unfold ret in Erun. subst run. cbn [fst snd]. exists paper.
      split; [exact Hget|]. repeat split; try reflexivity. now left.
Qed.

(** X18. What the batch job does with one paper of its work list.  A
    paper without a document path is counted as skipped and nothing else
    happens.  A paper with one is counted as processed or as failed,
    never skipped, and the store agrees with the count.  Counted as
    processed: the paper is marked processed and holds the analysis
    decoded from the reply to the one request that was sent, and that
    request was made on the text the paper has afterwards, the freshly
    extracted one included.  Counted as failed: flag and analysis are as
    before, and either the extractor raised and no request was sent, or
    the one request raised, or its reply could not be made into an
    analysis.  In both cases the text is the one the extraction step
    leaves, metadata, document path and chat history are as before, and
    no other paper is touched. *)
Theorem batch_count_matches_store {L : Library} (E : Env)
  (r : process_tally) (paper : Paper) (w : World) :
  get_paper (arxiv_id (metadata paper)) (store w) = Some paper ->
  let id := arxiv_id (metadata paper) in
  let run := process_one E r paper w in
  match pdf_path paper with
  | Some (String _ _ as path) =>
      n_skipped (fst run) = n_skipped r /\
      exists p',
        get_paper id (store (snd run)) = Some p' /\
        metadata p' = metadata paper /\ pdf_path p' = pdf_path paper /\
        chat_history p' = chat_history paper /\
        extracted_text p' = text_after E paper path /\
        (forall k, k <> id ->
           get_paper k (store (snd run)) = get_paper k (store w)) /\
        ((n_processed (fst run) = n_processed r + 1 /\
          n_failed (fst run) = n_failed r /\
          processed p' = true /\
          backend_calls (snd run)
          = (backend_calls w ++ [request_for E p'])%list /\
          exists a reply t,
            ai_analysis p' = Some a /\
            completion E (request_for E p') = Ok reply /\
            parse_analysis t (or_else reply "{}") = Ok a)
         \/
         (n_processed (fst run) = n_processed r /\
          n_failed (fst run) = n_failed r + 1 /\
          processed p' = processed paper /\
          ai_analysis p' = ai_analysis paper /\
          exists e,
            (Py.truthy (extracted_text paper) = false /\
             extract_text E path = Raise e /\
             backend_calls (snd run) = backend_calls w) \/
            (backend_calls (snd run)
             = (backend_calls w ++ [request_for E p'])%list /\
             (completion E (request_for E p') = Raise e \/
              exists reply t,
                completion E (request_for E p') = Ok reply /\
                parse_analysis t (or_else reply "{}") = Raise e))))
  | _ =>
      run = ({| n_processed := n_processed r; n_failed := n_failed r;
                n_skipped := n_skipped r + 1 |}, w)
  end.
Proof.
  intros Hget id run. unfold run, process_one.
  destruct (pdf_path paper) as [[|c path]|] eqn:Epdf; try reflexivity.
  destruct (@process_body_spec L E paper (String c path) w Hget)
    as (p' & Hget' & Hm & Hp & Hc & Ht & Hoth & Hout).
  cbn zeta in *. fold id in Hget', Hoth. unfold bind.
  destruct (process_body E paper (String c path) w) as [[u|e] w'];
    unfold ret; cbn [fst snd n_processed n_failed n_skipped] in *.
  - split; [reflexivity|]. exists p'.
    destruct Hout as (Hproc & Hcalls & Ha).
    split; [exact Hget'|]. split; [exact Hm|]. split; [congruence|].
    split; [exact Hc|]. split; [exact Ht|]. split; [exact Hoth|].
    left. repeat split; assumption.
  - split; [reflexivity|]. exists p'.
    destruct Hout as (Hproc & Ha & Hwhy).
    split; [exact Hget'|]. split; [exact Hm|]. split; [congruence|].
    split; [exact Hc|]. split; [exact Ht|]. split; [exact Hoth|].
    right. split; [reflexivity|]. split; [reflexivity|].
    split; [exact Hproc|]. split; [exact Ha|]. now exists e.
Qed.

Lemma batch_count_matches_store_witness :
  let run := process_one (Sample.answering (Some "{}") Sample.no_stream)
               {| n_processed := 0; n_failed := 0; n_skipped := 0 |}
               Sample.downloaded_paper
               (Sample.world_of Sample.downloaded_store) in
  n_processed (fst run) = 1 /\
  exists p',
    get_paper "test-sort-0" (store (snd run)) = Some p' /\
    processed p' = true /\
    extracted_text p' = Some "Extracted text content".
Proof.
  cbn zeta.
  pose proof (@batch_count_matches_store Ref.library
                (Sample.answering (Some "{}") Sample.no_stream)
                {| n_processed := 0; n_failed := 0; n_skipped := 0 |}
                Sample.downloaded_paper
                (Sample.world_of Sample.downloaded_store) eq_refl) as H.
  cbv zeta in H.
  change (pdf_path Sample.downloaded_paper)
    with (Some "papers/cs.AI/2024-01-10/test-sort-0.pdf") in H.
  cbv iota in H.
  destruct H as (_ & p' & Hget & _ & _ & _ & Ht & _ & [Hok|Hfail]).
  - destruct Hok as (Hn & _ & Hproc & _).
    split; [exact Hn|]. exists p'.
    split; [exact Hget|]. split; [exact Hproc | exact Ht].
  - destruct Hfail as (_ & Hf & _). vm_compute in Hf. discriminate Hf.
Defined.

(** The loop of [process_all_papers] over papers without a document. *)
Lemma process_loop_skips {L : Library} (E : Env) (papers : list Paper)
  (r : process_tally) (w : World) :
  (forall p, In p papers -> Py.truthy (pdf_path p) = false) ->
  for_each (process_one E) r papers w
  = ({| n_processed := n_processed r; n_failed := n_failed r;
        n_skipped := n_skipped r + Z.of_nat (List.length papers) |}, w).
Proof.
  revert r. induction papers as [|p papers IH]; intros r Hall.
  - cbn. unfold ret. destruct r. cbn. now rewrite Z.add_0_r.
  - cbn [for_each]. unfold bind.
    assert (Hp : process_one E r p w
                 = ({| n_processed := n_processed r; n_failed := n_failed r;
                       n_skipped := n_skipped r + 1 |}, w)).
    { unfold process_one. specialize (Hall p (or_introl eq_refl)).
      destruct (pdf_path p) as [[|c t]|]; try reflexivity.
      discriminate Hall. }
    rewrite Hp, IH by (intros q Hq; apply Hall; now right).
    cbn [n_processed n_failed n_skipped List.length].
    replace (Z.of_nat (S (List.length papers)))
      with (1 + Z.of_nat (List.length papers)) by lia.
    now rewrite Z.add_assoc.
Qed.

(** X19. The work list of the batch job.  One run handles the
    unprocessed papers of the store, newest first, and at most 50 of
    them: its three counters add up to the smaller of 50 and the number
    of unprocessed papers, and when there are more than 50 the older ones
    wait for a later run.  When none of the papers of the work list has a
    document, all of them are counted as skipped and nothing is written,
    extracted or sent; with no unprocessed paper the counters are 0. *)
Theorem batch_work_list {L : Library} (E : Env) (w : World) :
  let papers := unprocessed (store w) in
  let waiting := count_papers (store w) None (Some false) in
  let t := fst (process_all_papers E w) in
  Z.of_nat (List.length papers) = Z.min 50 waiting /\
  (forall p, In p papers ->
     In p (Py.dict_values (_papers_cache (store w))) /\
     processed p = false) /\
  date_descending papers /\
  (waiting <= 50 ->
   forall p, In p (Py.dict_values (_papers_cache (store w))) ->
             processed p = false -> In p papers) /\
  n_processed t + n_failed t + n_skipped t = Z.min 50 waiting /\
  ((forall p, In p papers -> Py.truthy (pdf_path p) = false) ->
   process_all_papers E w
   = ({| n_processed := 0; n_failed := 0;
         n_skipped := Z.min 50 waiting |}, w)).
Proof.
  cbn zeta.
  pose proof (@sorted_matches_spec L (store w) None None None (Some false)
                None None None eq_refl eq_refl) as Hs.
  set (sel := selects None None None (Some false) None) in *.
  set (values := Py.dict_values (_papers_cache (store w))) in *.
  set (full := Py.sort_desc date_key (filter sel values)) in *.
  assert (Hsel : forall p, sel p = true <-> processed p = false).
  { intros p. unfold sel, selects. cbn. destruct (processed p); cbn.
    - split; discriminate.
    - split; reflexivity. }
  assert (Hin : forall p, In p full <-> In p values /\ processed p = false).
  { intros p. rewrite <- Hsel, <- filter_In. split; apply Permutation_in;
      [symmetry|]; apply sort_desc_perm. }
  assert (Hun : unprocessed (store w) = firstn 50 full).
  { unfold unprocessed, list_papers. rewrite Hs.
    change (Py.slice full 0 (0 + 50) = firstn 50 full).
    rewrite slice_page by lia. reflexivity. }
  assert (Hcount : count_papers (store w) None (Some false)
                   = Z.of_nat (List.length full)).
  { unfold count_papers. rewrite by_processed_filter, by_category_filter.
    rewrite filter_filter. unfold full.
    rewrite <- (Permutation_length (sort_desc_perm date_key _)).
    do 2 f_equal. apply filter_ext. intros p. unfold sel, selects.
    cbn. now rewrite !andb_true_r. }
  assert (Hlen : Z.of_nat (List.length (unprocessed (store w)))
                 = Z.min 50 (count_papers (store w) None (Some false))).
  { rewrite Hun, Hcount, length_firstn. lia. }
  split; [exact Hlen|].
  split; [intros p Hp; apply Hin; rewrite Hun in Hp; eapply in_firstn; exact Hp|].
  split; [rewrite Hun; apply StronglySorted_firstn, sort_desc_sorted|].
  split.
  { intros Hfew p Hp Hproc. rewrite Hun, firstn_all2 by lia.
    apply Hin. now split. }
  split.
  { unfold process_all_papers, bind, read_store.
    pose proof (process_loop E (unprocessed (store w))
                  {| n_processed := 0; n_failed := 0; n_skipped := 0 |} w)
      as H.
    cbv zeta in H. cbn [n_processed n_failed n_skipped] in H. lia. }
  intros Hall. unfold process_all_papers, bind, read_store.
  rewrite process_loop_skips by exact Hall.
  cbn [n_processed n_failed n_skipped]. now rewrite Hlen.
Qed.

(* ====================================================================== *)
(** * Further properties of the catalog client                             *)
(* ====================================================================== *)

Lemma rev_string_app (acc s : string) :
  Py.rev_string acc s = Py.rev_string "" s ++ acc.
Proof.
  revert acc. induction s as [|c s IH]; intros acc; cbn [Py.rev_string].
  - reflexivity.
  - rewrite (IH (String c acc)), (IH (String c "")).
    now rewrite append_assoc_string.
Qed.

Lemma prefix_nil (s : string) : prefix "" s = true.
Proof. now destruct s. Qed.

Lemma prefix_app (sep t : string) : prefix sep (sep ++ t) = true.
Proof.
  induction sep as [|c sep IH]; cbn; [apply prefix_nil|].
  destruct (ascii_dec c c); [exact IH | congruence].
Qed.

(** A prefix found in a text is a prefix of every extension of it. *)
Lemma prefix_extend (sep y t : string) :
  prefix sep y = true -> prefix sep (y ++ t) = true.
Proof.
  revert y. induction sep as [|c sep IH]; intros y H; [apply prefix_nil|].
  destruct y as [|d y]; [discriminate|]. cbn in *.
  destruct (ascii_dec c d); [now apply IH | discriminate].
Qed.

(** Whether a text starts with [sep] depends on its first
    [length sep] characters only. *)
Lemma prefix_long (sep x t : string) :
  (String.length sep <= String.length x)%nat ->
  prefix sep (x ++ t) = prefix sep x.
Proof.
  revert x. induction sep as [|c sep IH]; intros x H.
  - now rewrite !prefix_nil.
  - destruct x as [|d x]; [cbn in H; lia|]. cbn in *.
    destruct (ascii_dec c d); [apply IH; lia | reflexivity].
Qed.

Lemma contains_prefix (sep s : string) :
  prefix sep s = true -> Py.contains sep s = true.
Proof. intros H. destruct s; cbn [Py.contains]; now rewrite H. Qed.

Lemma contains_app_r (sep x y : string) :
  Py.contains sep y = true -> Py.contains sep (x ++ y) = true.
Proof.
  intros H. induction x as [|c x IH]; [exact H|].
  cbn [append Py.contains]. rewrite IH. now destruct (prefix sep _).
Qed.

(** An occurrence of [sep] starts somewhere. *)
Lemma contains_occurrence (sep s : string) :
  Py.contains sep s = true ->
  exists x y, s = x ++ y /\ prefix sep y = true.
Proof.
  induction s as [|c s IH]; cbn [Py.contains].
  - destruct (prefix sep "") eqn:E; [|discriminate].
    intros _. now exists "", "".
  - destruct (prefix sep (String c s)) eqn:E.
    + intros _. now exists "", (String c s).
    + intros H. destruct (IH H) as (x & y & -> & Hy).
      now exists (String c x), y.
Qed.

Lemma contains_none_prefix (sep s : string) :
  Py.contains sep s = false -> prefix sep s = false.
Proof.
  intros H. destruct (prefix sep s) eqn:E; [|reflexivity].
  now rewrite (contains_prefix _ _ E) in H.
Qed.

Lemma contains_none_tail (sep : string) (c : ascii) (s : string) :
  Py.contains sep (String c s) = false -> Py.contains sep s = false.
Proof.
  cbn [Py.contains]. now destruct (prefix sep (String c s)).
Qed.

(** A text without the separator is one piece. *)
Lemma split_go_none (sep cur s : string) :
  Py.contains sep s = false ->
  Py.split_go sep 0 cur s = [Py.rev_string "" cur ++ s].
Proof.
  revert cur. induction s as [|c s IH]; intros cur H; cbn [Py.split_go].
  - now rewrite append_empty_r.
  - rewrite (contains_none_prefix _ _ H).
    rewrite IH by (eapply contains_none_tail; exact H).
    cbn [Py.rev_string]. rewrite (rev_string_app (String c "") cur).
    now rewrite append_assoc_string.
Qed.

(** Dropping the rest of a separator just matched. *)
Lemma split_go_skip (sep x cur b : string) :
  Py.split_go sep (String.length x) cur (x ++ b) = Py.split_go sep 0 cur b.
Proof.
  induction x as [|c x IH]; [reflexivity|]. cbn. exact IH.
Qed.

(** The piece in front of the first separator. *)
Lemma split_go_first (sep cur a b : string) :
  sep <> "" ->
  (forall a1 a2, a = a1 ++ a2 -> a2 <> "" ->
                 prefix sep (a2 ++ sep ++ b) = false) ->
  Py.split_go sep 0 cur (a ++ sep ++ b)
  = (Py.rev_string "" cur ++ a) :: Py.split_go sep 0 "" b.
Proof.
  intros Hsep. revert cur. induction a as [|c a IH]; intros cur Hfirst.
  - destruct sep as [|d sep]; [congruence|].
    cbn [append Py.split_go]. 
    change (String d (sep ++ b)) with (String d sep ++ b).
    rewrite prefix_app. rewrite append_empty_r. f_equal.
    cbn [String.length]. rewrite Nat.sub_succ, Nat.sub_0_r.
    apply split_go_skip.
  - cbn [append Py.split_go].
    change (String c (a ++ sep ++ b)) with (String c a ++ sep ++ b).
    rewrite (Hfirst "" (String c a) eq_refl) by discriminate.
    rewrite IH.
    + f_equal. cbn [Py.rev_string].
      rewrite (rev_string_app (String c "") cur).
      now rewrite append_assoc_string.
    + intros a1 a2 -> Ha2. apply (Hfirst (String c a1) a2 eq_refl Ha2).
Qed.

Lemma app_snoc_split (u x y : string) (c : ascii) :
  u ++ String c "" = x ++ y -> y <> "" ->
  exists y', y = y' ++ String c "" /\ u = x ++ y'.
Proof.
  revert x. induction u as [|d u IH]; intros x H Hy.
  - destruct x as [|e x].
    + cbn in H. subst y. now exists "".
    + cbn in H. injection H as _ H.
      destruct x; [destruct y; [congruence | discriminate] | discriminate].
  - destruct x as [|e x].
    + cbn in H. subst y. exists (String d u). split; reflexivity.
    + cbn in H. injection H as <- H.
      destruct (IH x H Hy) as (y' & -> & ->). now exists y'.
Qed.

(** The first piece of a split holds no separator. *)
Lemma split_go_hd (sep cur s : string) :
  sep <> "" ->
  (forall x y, Py.rev_string "" cur = x ++ y -> y <> "" ->
               prefix sep (y ++ s) = false) ->
  Py.contains sep (hd "" (Py.split_go sep 0 cur s)) = false.
Proof.
  intros Hsep. revert cur.
  assert (Hend : forall cur s,
            (forall x y, Py.rev_string "" cur = x ++ y -> y <> "" ->
                         prefix sep (y ++ s) = false) ->
            Py.contains sep (Py.rev_string "" cur) = false).
  { intros cur s0 Hinv.
    destruct (Py.contains sep (Py.rev_string "" cur)) eqn:E; [|reflexivity].
    destruct (contains_occurrence _ _ E) as (x & y & Hxy & Hy).
    assert (Hne : y <> "").
    { intros ->. destruct sep; [congruence | discriminate]. }
    pose proof (Hinv x y Hxy Hne) as H. rewrite (prefix_extend _ _ s0 Hy) in H.
    discriminate H. }
  induction s as [|c s IH]; intros cur Hinv; cbn [Py.split_go hd].
  - now apply (Hend cur "").
  - destruct (prefix sep (String c s)) eqn:E; cbn [hd].
    + now apply (Hend cur (String c s)).
    + apply IH. intros x y Hxy Hy. cbn [Py.rev_string] in Hxy.
      rewrite (rev_string_app (String c "") cur) in Hxy.
      destruct (app_snoc_split _ _ _ Hxy Hy) as (y' & -> & Hcur).
      rewrite append_assoc_string. cbn [append].
      destruct y' as [|d y']; [exact E|].
      apply (Hinv x (String d y') Hcur). discriminate.
Qed.

(** X20. The identifier the catalog client gives a paper.  It never
    holds the text "/v".  An entry id without "/abs/" and without "/v" is
    taken whole.  For an entry id of the form base "/abs/" ident, where
    this "/abs/" is the first of the entry id and ident holds neither
    "/abs/" nor "/v", the identifier is ident as it stands: the version
    suffix of an identifier such as 2301.00001v2 is kept, since it does
    not follow a slash. *)
Theorem parse_entry_identifier :
  (forall entry_id,
     Py.contains "/v" (_parse_entry_arxiv_id entry_id) = false) /\
  (forall entry_id,
     Py.contains "/abs/" entry_id = false ->
     Py.contains "/v" entry_id = false ->
     _parse_entry_arxiv_id entry_id = entry_id) /\
  (forall base ident,
     Py.contains "/abs/" (base ++ "/abs") = false ->
     Py.contains "/abs/" ident = false ->
     Py.contains "/v" ident = false ->
     _parse_entry_arxiv_id (base ++ "/abs/" ++ ident) = ident).
Proof.
  split; [|split].
  - intros entry_id. unfold _parse_entry_arxiv_id. cbv zeta.
    destruct (Py.contains "/v" (last (Py.split "/abs/" entry_id) "")) eqn:E;
      [|exact E].
    apply split_go_hd; [discriminate|].
    intros x y Hxy Hy. cbn in Hxy.
    destruct x; [cbn in Hxy; congruence | discriminate].
  - intros entry_id Habs Hv. unfold _parse_entry_arxiv_id, Py.split.
    rewrite (split_go_none _ "" _ Habs). cbn [last Py.rev_string append].
    now rewrite Hv.
  - intros base ident Hfirst Habs Hv.
    unfold _parse_entry_arxiv_id, Py.split.
    rewrite (@split_go_first "/abs/" "" base ident); [|discriminate|].
    + rewrite (split_go_none _ "" _ Habs).
      cbn [last Py.rev_string append]. now rewrite Hv.
    + intros a1 a2 -> Ha2.
      destruct (prefix "/abs/" (a2 ++ "/abs/" ++ ident)) eqn:E;
        [|reflexivity].
      assert (H : prefix "/abs/" (a2 ++ "/abs") = true).
      { rewrite <- (prefix_long "/abs/" (a2 ++ "/abs") ("/" ++ ident)).
        - rewrite append_assoc_string. exact E.
        - rewrite append_length. destruct a2; [congruence | cbn; lia]. }
      rewrite append_assoc_string in Hfirst.
      now rewrite (contains_app_r _ a1 _ (contains_prefix _ _ H)) in Hfirst.
Qed.

Lemma parse_entry_identifier_witness :
  _parse_entry_arxiv_id ("http://arxiv.org" ++ "/abs/" ++ "2301.00001v2")
  = "2301.00001v2".
Proof.
  destruct parse_entry_identifier as (_ & _ & H).
  exact (H "http://arxiv.org" "2301.00001v2" eq_refl eq_refl eq_refl).
Defined.

(* ====================================================================== *)
(** * Further properties of the text extraction service                    *)
(* ====================================================================== *)

Lemma collect_lines (items : list json) (lines : list (list string))
  (texts : list json) :
  Forall2 lines_of items lines ->
  OCR.collect items texts
  = Some (texts ++ map JStr (List.concat lines))%list.
Proof.
  intros H. revert texts.
  induction H as [|item ls items lines (Hobj & Hrec) _ IH]; intros texts.
  - cbn. now rewrite app_nil_r.
  - cbn [OCR.collect]. unfold OCR.get.
    destruct item; try discriminate Hobj.
    rewrite Hrec. cbn [obind OCR.elements]. rewrite IH.
    cbn [List.concat]. now rewrite map_app, app_assoc.
Qed.

Lemma collect_not_object (items : list json) (item : json)
  (texts : list json) :
  In item items -> is_object item = false ->
  OCR.collect items texts = None.
Proof.
  intros Hin Hobj. revert texts.
  induction items as [|x items IH]; intros texts; [destruct Hin|].
  cbn [OCR.collect].
  destruct (OCR.get "rec_texts" (JArr []) x) as [rec_texts|] eqn:Eget;
    [|reflexivity].
  cbn [obind].
  destruct (OCR.elements rec_texts) as [more|]; [|reflexivity].
  cbn [obind]. destruct Hin as [->|Hin]; [|now apply IH].
  destruct item; try discriminate Eget. discriminate Hobj.
Qed.

(** X21. Reading the answer of the recognition service.  A text is
    returned only for an answer that is an object with a true [success]
    member.  For such an answer whose [results] are objects with lists of
    strings as [rec_texts] (an absent [results] or [rec_texts] counting
    as empty), the text is all lines of all results, in order, one per
    line.  An answer with a result that is not an object gives no text,
    and neither does a missing access token, whatever the service would
    answer.  A text that is returned comes from the answer to the one
    request made at the configured address with that token. *)
Theorem recognition_answer_decoding (S : OCR.Service) (pdf_path : string) :
  (OCR.token S = "" -> OCR._call_paddleocr S pdf_path = None) /\
  (forall t, OCR._call_paddleocr S pdf_path = Some t ->
     exists result,
       OCR.post S (OCR.api_url S ++ "?access_token=" ++ OCR.token S) pdf_path
       = Some result /\
       OCR.recognized result = Some t) /\
  (forall result t,
     OCR.recognized result = Some t ->
     is_object result = true /\
     OCR.truth (get_or "success" JNull result) = true) /\
  (forall result items lines,
     is_object result = true ->
     OCR.truth (get_or "success" JNull result) = true ->
     get_or "results" (JArr []) result = JArr items ->
     Forall2 lines_of items lines ->
     OCR.recognized result = Some (join nl (List.concat lines))) /\
  (forall result items item,
     get_or "results" (JArr []) result = JArr items ->
     In item items -> is_object item = false ->
     OCR.recognized result = None).
Proof.
  split; [|split; [|split; [|split]]].
  - intros H. unfold OCR._call_paddleocr. now rewrite H.
  - intros t. unfold OCR._call_paddleocr.
    destruct (OCR.token S) as [|c tk]; [discriminate|].
    destruct (OCR.post S _ pdf_path) as [result|]; [|discriminate].
    cbn [obind]. intros H. now exists result.
  - intros result t. unfold OCR.recognized, OCR.get.
    destruct result; try discriminate. cbn [obind is_object].
    destruct (OCR.truth (get_or "success" JNull (JObj members)));
      [now split | discriminate].
  - intros result items lines Hobj Hsucc Hres Hlines.
    unfold OCR.recognized, OCR.get.
    destruct result; try discriminate Hobj. cbn [obind].
    rewrite Hsucc, Hres. cbn [OCR.elements obind].
    rewrite (collect_lines [] Hlines). cbn [app obind].
    rewrite val_all_map by reflexivity. reflexivity.
  - intros result items item Hres Hin Hobj.
    unfold OCR.recognized, OCR.get.
    destruct result; try reflexivity. cbn [obind].
    destruct (OCR.truth _); [|reflexivity].
    rewrite Hres. cbn [OCR.elements obind].
    now rewrite (collect_not_object items item [] Hin Hobj).
Qed.

Lemma recognition_answer_decoding_witness :
  OCR.recognized
    (JObj [("success", JBool true);
           ("results",
            JArr [JObj [("rec_texts", JArr [JStr "Title"; JStr "Abstract"])];
                  JObj [];
                  JObj [("rec_texts", JArr [JStr "Body"])]])])
  = Some ("Title" ++ nl ++ "Abstract" ++ nl ++ "Body").
Proof.
  destruct (recognition_answer_decoding
              {| OCR.api_url := ""; OCR.token := "";
                 OCR.file_exists := fun _ => true;
                 OCR.post := fun _ _ => None;
                 OCR.page_texts := fun _ => None |} "")
    as (_ & _ & _ & H & _).
  apply (H _ [JObj [("rec_texts", JArr [JStr "Title"; JStr "Abstract"])];
              JObj [];
              JObj [("rec_texts", JArr [JStr "Body"])]]
           [["Title"; "Abstract"]; []; ["Body"]]);
    try reflexivity.
  repeat constructor.
Defined.

Lemma blank_app (a b : string) : blank (a ++ b) = blank a && blank b.
Proof.
  induction a as [|c a IH]; cbn; [reflexivity|].
  now rewrite IH, andb_assoc.
Qed.

Lemma blank_rev (s : string) : blank (Py.rev_string "" s) = blank s.
Proof.
  induction s as [|c s IH]; [reflexivity|].
  cbn [Py.rev_string]. rewrite rev_string_app, blank_app, IH.
  cbn [blank]. rewrite andb_true_r. apply andb_comm.
Qed.

Lemma blank_lstrip (s : string) : blank (lstrip s) = blank s.
Proof.
  induction s as [|c s IH]; [reflexivity|]. cbn [lstrip].
  destruct (is_space c) eqn:E; [|reflexivity].
  cbn [blank]. now rewrite E, IH.
Qed.

Lemma lstrip_empty (s : string) :
  match lstrip s with EmptyString => true | String _ _ => false end
  = blank s.
Proof.
  induction s as [|c s IH]; [reflexivity|]. cbn [lstrip blank].
  destruct (is_space c); [exact IH | reflexivity].
Qed.

Lemma rev_string_empty (s : string) :
  match Py.rev_string "" s with EmptyString => true | String _ _ => false end
  = match s with EmptyString => true | String _ _ => false end.
Proof.
  destruct s as [|c s]; [reflexivity|].
  cbn [Py.rev_string]. rewrite rev_string_app.
  now destruct (Py.rev_string "" s).
Qed.

(** What [strip] leaves of a text is empty exactly when the text is
    white space only. *)
Lemma strip_blank (s : string) :
  match strip s with EmptyString => false | String _ _ => true end
  = negb (blank s).
Proof.
  unfold strip.
  pose proof (rev_string_empty
                (lstrip (Py.rev_string "" (lstrip s)))) as H1.
  pose proof (lstrip_empty (Py.rev_string "" (lstrip s))) as H2.
  rewrite blank_rev, blank_lstrip in H2.
  destruct (Py.rev_string "" (lstrip (Py.rev_string "" (lstrip s))));
    destruct (lstrip (Py.rev_string "" (lstrip s)));
    try discriminate H1; now rewrite <- H2.
Qed.

Lemma join_not_blank (parts : list string) :
  Forall (fun t => blank t = false) parts -> parts <> [] ->
  blank (join nl parts) = false.
Proof.
  intros H Hne. destruct H as [|t rest Ht Hrest]; [congruence|].
  cbn [join]. destruct rest; [exact Ht|].
  now rewrite blank_app, Ht.
Qed.

Lemma kept_pages (pages : list string) :
  filter (fun text => match strip text with
                      | EmptyString => false
                      | String _ _ => true
                      end) pages
  = filter (fun text => negb (blank text)) pages.
Proof. apply filter_ext. intros text. apply strip_blank. Qed.

(** X22. Which text [extract_text] returns.  For a file that is not
    there it returns nothing.  With a file: the text of the recognition
    service when a token is configured and that text is not empty; in
    every other case (no token, no answer, an answer without text) what
    the page extractor returns.  The page extractor joins the pages that
    are not white space only, one per line, so that its text is empty or
    holds a character that is not white space, and is all pages when none
    is blank.  So nothing is returned only when the file is missing or
    the page extractor failed, and the empty text only when every page
    is blank. *)
Theorem extract_text_fallback (S : OCR.Service) (pdf_path : string) :
  (OCR.file_exists S pdf_path = false -> OCR.extract_text S pdf_path = None) /\
  (OCR.file_exists S pdf_path = true ->
   (OCR.token S = "" ->
    OCR.extract_text S pdf_path = OCR._extract_with_pymupdf S pdf_path) /\
   (forall t, OCR._call_paddleocr S pdf_path = Some t -> t <> "" ->
      OCR.extract_text S pdf_path = Some t) /\
   (OCR._call_paddleocr S pdf_path = None \/
    OCR._call_paddleocr S pdf_path = Some "" ->
    OCR.extract_text S pdf_path = OCR._extract_with_pymupdf S pdf_path)) /\
  (forall t, OCR._extract_with_pymupdf S pdf_path = Some t ->
     t = "" \/ blank t = false) /\
  (forall pages, OCR.page_texts S pdf_path = Some pages ->
     Forall (fun t => blank t = false) pages ->
     OCR._extract_with_pymupdf S pdf_path = Some (join nl pages)) /\
  (OCR.extract_text S pdf_path = None ->
   OCR.file_exists S pdf_path = false \/ OCR.page_texts S pdf_path = None) /\
  (OCR.extract_text S pdf_path = Some "" ->
   exists pages,
     OCR.page_texts S pdf_path = Some pages /\
     Forall (fun t => blank t = true) pages).
Proof.
  assert (Hpaddle : forall t,
            OCR.file_exists S pdf_path = true ->
            OCR.extract_text S pdf_path = Some t ->
            (OCR._call_paddleocr S pdf_path = Some t /\ t <> "") \/
            OCR._extract_with_pymupdf S pdf_path = Some t).
  { intros t Hex. unfold OCR.extract_text. rewrite Hex. cbn [negb].
    destruct (OCR.token S) as [|c tk]; [now right|].
    destruct (OCR._call_paddleocr S pdf_path) as [[|d text]|];
      try (now right).
    intros [= <-]. left. split; [reflexivity | discriminate]. }
  assert (Hmu : forall t, OCR._extract_with_pymupdf S pdf_path = Some t ->
            exists pages,
              OCR.page_texts S pdf_path = Some pages /\
              t = join nl (filter (fun text => negb (blank text)) pages)).
  { intros t. unfold OCR._extract_with_pymupdf.
    destruct (OCR.page_texts S pdf_path) as [pages|]; [|discriminate].
    cbn [obind]. rewrite kept_pages. intros [= <-]. now exists pages. }
  assert (Hkept : forall pages,
            Forall (fun t => blank t = false)
                   (filter (fun text => negb (blank text)) pages)).
  { intros pages. apply Forall_forall. intros t Ht.
    apply filter_In in Ht. destruct Ht as (_ & Ht).
    now destruct (blank t). }
  split; [|split; [|split; [|split; [|split]]]].
  - intros H. unfold OCR.extract_text. now rewrite H.
  - intros Hex. unfold OCR.extract_text. rewrite Hex. cbn [negb].
    split; [intros H; now rewrite H|].
    split.
    + intros t Ht Hne. rewrite Ht.
      unfold OCR._call_paddleocr in Ht.
      destruct (OCR.token S) as [|c tk]; [discriminate|].
      destruct t; [congruence | reflexivity].
    + destruct (OCR.token S) as [|c tk]; [reflexivity|].
      now intros [->| ->].
  - intros t Ht. destruct (Hmu t Ht) as (pages & _ & ->).
    destruct (filter (fun text => negb (blank text)) pages) as [|p ps] eqn:E;
      [now left|].
    right. apply join_not_blank; [|discriminate].
    rewrite <- E. apply Hkept.
  - intros pages Hp Hall. unfold OCR._extract_with_pymupdf.
    rewrite Hp. cbn [obind]. rewrite kept_pages. do 2 f_equal.
    clear Hp. induction Hall as [|t ts Ht _ IH]; [reflexivity|].
    cbn [filter]. rewrite Ht. cbn [negb]. now rewrite IH.
  - intros Hnone. destruct (OCR.file_exists S pdf_path) eqn:Hex;
      [|now left].
    right. unfold OCR.extract_text in Hnone. rewrite Hex in Hnone.
    cbn [negb] in Hnone. unfold OCR._extract_with_pymupdf in Hnone.
    destruct (OCR.page_texts S pdf_path); [|reflexivity].
    destruct (OCR.token S); [discriminate Hnone|].
    destruct (OCR._call_paddleocr S pdf_path) as [[|d text]|];
      discriminate Hnone.
  - intros Hempty. destruct (OCR.file_exists S pdf_path) eqn:Hex.
    + destruct (Hpaddle "" eq_refl Hempty) as [(_ & Hne)|Ht];
        [congruence|].
      destruct (Hmu "" Ht) as (pages & Hp & Hjoin).
      exists pages. split; [exact Hp|].
      pose proof (Hkept pages) as Hk.
      destruct (filter (fun text => negb (blank text)) pages) as [|p ps] eqn:E.
      * apply Forall_forall. intros t Hin.
        destruct (blank t) eqn:Eb; [reflexivity|].
        assert (Hf : In t (filter (fun text => negb (blank text)) pages))
          by (apply filter_In; split; [exact Hin | now rewrite Eb]).
        rewrite E in Hf. destruct Hf.
      * assert (Hb : blank (join nl (p :: ps)) = false)
          by (apply join_not_blank; [exact Hk | discriminate]).
        rewrite <- Hjoin in Hb. discriminate Hb.
    + unfold OCR.extract_text in Hempty. rewrite Hex in Hempty.
      discriminate Hempty.
Qed.

Lemma extract_text_fallback_witness :
  let S := {| OCR.api_url := "https://ocr.example/recognize";
              OCR.token := "secret";
              OCR.file_exists := fun _ => true;
              OCR.post := fun _ _ => Some (JObj [("success", JBool true)]);
              OCR.page_texts :=
                fun _ => Some ["Page one"; "  "; "Page two"] |} in
  OCR._call_paddleocr S "paper.pdf" = Some "" /\
  OCR.extract_text S "paper.pdf" = Some ("Page one" ++ nl ++ "Page two").
Proof.
  cbv zeta. split; [reflexivity|].
  destruct (extract_text_fallback
              {| OCR.api_url := "https://ocr.example/recognize";
                 OCR.token := "secret";
                 OCR.file_exists := fun _ => true;
                 OCR.post := fun _ _ => Some (JObj [("success", JBool true)]);
                 OCR.page_texts :=
                   fun _ => Some ["Page one"; "  "; "Page two"] |}
              "paper.pdf") as (_ & H & _).
  destruct (H eq_refl) as (_ & _ & Hfall).
  rewrite Hfall; [reflexivity | now right].
Defined.

(* ====================================================================== *)
(** * The batch job as a whole                                             *)
(* ====================================================================== *)

(** Two dictionaries with the same keys and the same entries are the
    same. *)
Lemma dict_ext_eq {V} (c c1 : Py.dict V) :
  Py.dict_keys c1 = Py.dict_keys c -> Py.dict_wf c ->
  (forall k, Py.dict_get k c1 = Py.dict_get k c) -> c1 = c.
Proof.
  unfold Py.dict_wf, Py.dict_keys. revert c1.
  induction c as [|[k v] t IH]; intros [|[k1 v1] t1] Hkeys Hnd Hget;
    try discriminate Hkeys; [reflexivity|].
  cbn in Hkeys. injection Hkeys as -> Hkeys.
  inversion Hnd as [|? ? Hnot Hnd']; subst.
  pose proof (Hget k) as Hk. cbn in Hk. rewrite String.eqb_refl in Hk.
  injection Hk as ->. f_equal. apply IH; [exact Hkeys | exact Hnd'|].
  intros k'. destruct (String.eqb_spec k' k) as [->|Hne].
  - rewrite (proj2 (dict_get_None k t)) by exact Hnot.
    apply dict_get_None. unfold Py.dict_keys. now rewrite Hkeys.
  - specialize (Hget k'). cbn in Hget.
    now rewrite (proj2 (String.eqb_neq k' k) Hne) in Hget.
Qed.

(** Replacing one entry changes a count by what the entry contributes. *)
Lemma count_update {V} (f : V -> bool) (c c1 : Py.dict V) (id : string)
  (p p' : V) :
  Py.dict_keys c1 = Py.dict_keys c -> Py.dict_wf c ->
  Py.dict_get id c = Some p -> Py.dict_get id c1 = Some p' ->
  (forall k, k <> id -> Py.dict_get k c1 = Py.dict_get k c) ->
  Z.of_nat (List.length (filter f (Py.dict_values c1))) + Z.b2z (f p)
  = Z.of_nat (List.length (filter f (Py.dict_values c))) + Z.b2z (f p').
Proof.
  unfold Py.dict_wf, Py.dict_keys, Py.dict_values. revert c1.
  induction c as [|[k v] t IH]; intros [|[k1 v1] t1] Hkeys Hnd Hp Hp' Hoth;
    try discriminate Hkeys; [discriminate Hp|].
  cbn in Hkeys. injection Hkeys as -> Hkeys.
  inversion Hnd as [|? ? Hnot Hnd']; subst.
  cbn [Py.dict_get] in Hp, Hp'.
  assert (Htail : forall k', k' <> id -> Py.dict_get k' t1 = Py.dict_get k' t).
  { intros k' Hk'. destruct (String.eqb_spec k' k) as [->|Hne].
    - rewrite (proj2 (dict_get_None k t)) by exact Hnot.
      apply dict_get_None. unfold Py.dict_keys. now rewrite Hkeys.
    - specialize (Hoth k' Hk'). cbn in Hoth.
      now rewrite (proj2 (String.eqb_neq k' k) Hne) in Hoth. }
  destruct (String.eqb_spec id k) as [->|Hne].
  - injection Hp as ->. injection Hp' as ->.
    assert (Ht : t1 = t).
    { apply dict_ext_eq; [exact Hkeys | exact Hnd'|].
      intros k'. destruct (String.eqb_spec k' k) as [->|Hne].
      - rewrite (proj2 (dict_get_None k t)) by exact Hnot.
        apply dict_get_None. unfold Py.dict_keys. now rewrite Hkeys.
      - now apply Htail. }
    subst t1. cbn [map snd filter].
    destruct (f p), (f p'); cbn [List.length Z.b2z]; lia.
  - assert (Hv : v1 = v).
    { assert (Hk : k <> id) by congruence.
      specialize (Hoth k Hk). cbn in Hoth.
      rewrite String.eqb_refl in Hoth. now injection Hoth. }
    subst v1. specialize (IH t1 Hkeys Hnd' Hp Hp' Htail).
    cbn [map snd filter]. destruct (f v); cbn [List.length]; lia.
Qed.

Lemma waiting_count (s : DataStore) :
  waiting s
  = Z.of_nat (List.length
                (filter (fun p => Bool.eqb (processed p) false)
                        (Py.dict_values (_papers_cache s)))).
Proof. reflexivity. Qed.

Lemma store_mutate_keys {L : Library} (E : Env) (f : Paper -> Paper)
  (id : string) (w : World) :
  Py.dict_keys
    (_papers_cache
       (store (snd (store_mutate E (fun t id => mutate f t id) id w))))
  = Py.dict_keys (_papers_cache (store w)).
Proof.
  destruct (get_paper id (store w)) as [p|] eqn:Hget.
  - destruct (@store_mutate_found L E f id w p Hget)
      as (w' & Hrun & _ & _ & Hkeys & _).
    now rewrite Hrun.
  - now rewrite store_mutate_missing.
Qed.

Lemma analyse_and_mark_keys {L : Library} (E : Env) (id : string)
  (paper : Paper) (w1 : World) :
  Py.dict_keys
    (_papers_cache
       (store (snd
          ((current <- read_store (get_paper id) ;;
            let paper :=
              match current with Some p => p | None => paper end in
            analysis <-! analyze_paper E (title (metadata paper))
                           (abstract (metadata paper))
                           (extracted_text paper) ;;
            store_mutate E (fun t id => set_ai_analysis t id analysis) id ;;
            store_mutate E (fun t id => set_processed t id true) id ;;
            ret (Ok tt))%M w1))))
  = Py.dict_keys (_papers_cache (store w1)).
Proof.
  unfold bind at 1. unfold read_store at 1. cbv zeta.
  unfold bindx, bind.
  match goal with
  | |- context [analyze_paper E ?t ?a ?x w1] =>
      pose proof (analyze_paper_store E t a x w1) as Hst;
      destruct (analyze_paper E t a x w1) as [[analysis|e] w2]
  end; cbn [fst snd] in *; [|unfold ret; cbn; now rewrite Hst].
  pose proof (store_mutate_keys E (with_ai_analysis (Some analysis)) id w2)
    as H3.
  change (store_mutate E (fun t id0 => set_ai_analysis t id0 analysis) id w2)
    with (store_mutate E
            (fun t id0 => mutate (with_ai_analysis (Some analysis)) t id0)
            id w2).
  destruct (store_mutate E
              (fun t id0 => mutate (with_ai_analysis (Some analysis)) t id0)
              id w2) as [b3 w3].
  pose proof (store_mutate_keys E (with_processed true) id w3) as H4.
  change (store_mutate E (fun t id0 => set_processed t id0 true) id w3)
    with (store_mutate E (fun t id0 => mutate (with_processed true) t id0)
            id w3).
  destruct (store_mutate E
              (fun t id0 => mutate (with_processed true) t id0) id w3)
    as [b4 w4].
  unfold ret. cbn [fst snd] in *. now rewrite H4, H3, Hst.
Qed.

Lemma process_body_keys {L : Library} (E : Env) (paper : Paper)
  (path : string) (w : World) :
  Py.dict_keys (_papers_cache (store (snd (process_body E paper path w))))
  = Py.dict_keys (_papers_cache (store w)).
Proof.
  unfold process_body. cbv zeta.
  set (id := arxiv_id (metadata paper)).
  unfold bindx at 1. unfold bind at 1.
  destruct (Py.truthy (extracted_text paper)).
  - unfold ret at 1. apply (analyse_and_mark_keys E id paper w).
  - destruct (extract_text E path) as [text|e]; [|reflexivity].
    unfold bind at 1.
    assert (Hst : Py.dict_keys
                    (_papers_cache (store (snd (store_text E id text w))))
                  = Py.dict_keys (_papers_cache (store w))).
    { unfold store_text. destruct text as [[|c t]|]; try reflexivity.
      unfold bind.
      pose proof (store_mutate_keys E (with_extracted_text (Some (String c t)))
                    id w) as H.
      change (store_mutate E
                (fun now0 id0 => set_extracted_text now0 id0 (String c t))
                id w)
        with (store_mutate E
                (fun t0 id0 =>
                   mutate (with_extracted_text (Some (String c t))) t0 id0)
                id w).
      now destruct (store_mutate E _ id w). }
    destruct (store_text E id text w) as [stored w1].
    cbn [snd] in Hst. unfold ret at 1. rewrite <- Hst.
    apply (analyse_and_mark_keys E id paper w1).
Qed.

(** One paper of the work list, as far as the accounts go. *)
Lemma process_one_step {L : Library} (E : Env) (r : process_tally)
  (paper : Paper) (w : World) :
  get_paper (arxiv_id (metadata paper)) (store w) = Some paper ->
  let run := process_one E r paper w in
  Py.dict_keys (_papers_cache (store (snd run)))
  = Py.dict_keys (_papers_cache (store w)) /\
  (forall k, k <> arxiv_id (metadata paper) ->
     get_paper k (store (snd run)) = get_paper k (store w)) /\
  n_processed r <= n_processed (fst run) /\
  n_failed r <= n_failed (fst run) /\
  Z.of_nat (List.length (backend_calls (snd run)))
  <= Z.of_nat (List.length (backend_calls w))
     + (n_processed (fst run) - n_processed r)
     + (n_failed (fst run) - n_failed r) /\
  (List.length (backend_calls w) <= List.length (backend_calls (snd run)))%nat /\
  exists p',
    get_paper (arxiv_id (metadata paper)) (store (snd run)) = Some p' /\
    ((n_processed (fst run) = n_processed r + 1 /\ processed p' = true) \/
     (n_processed (fst run) = n_processed r /\
      processed p' = processed paper)).
Proof.
  intros Hget run. unfold run, process_one.
  destruct (pdf_path paper) as [[|c path]|] eqn:Epdf;
    try (unfold ret; cbn [fst snd n_processed n_failed];
         repeat split; try lia; exists paper; split; [exact Hget | now right]).
  destruct (@process_body_spec L E paper (String c path) w Hget)
    as (p' & Hget' & _ & _ & _ & _ & Hoth & Hout).
  pose proof (process_body_keys E paper (String c path) w) as Hkeys.
  cbn zeta in *. unfold bind.
  destruct (process_body E paper (String c path) w) as [[u|e] w'];
    unfold ret; cbn [fst snd n_processed n_failed n_skipped] in *.
  - destruct Hout as (Hproc & Hcalls & _). rewrite Hcalls, length_app.
    cbn [List.length].
    repeat split; try assumption; try lia.
    exists p'. split; [exact Hget'|]. left. now split.
  - destruct Hout as (Hproc & _ & Hwhy).
    assert (Hc : List.length (backend_calls w')
                 = List.length (backend_calls w) \/
                 List.length (backend_calls w')
                 = S (List.length (backend_calls w))).
    { destruct Hwhy as [(_ & _ & ->)|(-> & _)]; [now left|].
      right. rewrite length_app. cbn. lia. }
    repeat split; try assumption; try lia.
    exists p'. split; [exact Hget'|]. right. now split.
Qed.

(** The loop of [process_all_papers] over papers that are in the store
    under their own, distinct identifiers and wait for processing. *)
Lemma process_loop_accounts {L : Library} (E : Env) (papers : list Paper)
  (r : process_tally) (w : World) :
  NoDup (map (fun p => arxiv_id (metadata p)) papers) ->
  (forall p, In p papers ->
     get_paper (arxiv_id (metadata p)) (store w) = Some p /\
     processed p = false) ->
  Py.dict_wf (_papers_cache (store w)) ->
  let run := for_each (process_one E) r papers w in
  waiting (store (snd run))
  = waiting (store w) - (n_processed (fst run) - n_processed r) /\
  Py.dict_keys (_papers_cache (store (snd run)))
  = Py.dict_keys (_papers_cache (store w)) /\
  (forall k, ~ In k (map (fun p => arxiv_id (metadata p)) papers) ->
     get_paper k (store (snd run)) = get_paper k (store w)) /\
  Z.of_nat (List.length (backend_calls (snd run)))
  <= Z.of_nat (List.length (backend_calls w))
     + (n_processed (fst run) - n_processed r)
     + (n_failed (fst run) - n_failed r) /\
  (List.length (backend_calls w) <= List.length (backend_calls (snd run)))%nat.
Proof.
  revert r w. induction papers as [|p papers IH]; intros r w Hnd Hall Hwf.
  - cbn. repeat split; lia.
  - cbn [for_each]. cbn zeta. unfold bind.
    inversion Hnd as [|? ? Hnot Hnd']; subst.
    destruct (Hall p (or_introl eq_refl)) as (Hget & Hproc).
    destruct (@process_one_step L E r p w Hget)
      as (Hkeys & Hoth & Hmono & Hfmono & Hcalls & Hcmono & p' & Hget' & Hcase).
    cbn zeta in *.
    destruct (process_one E r p w) as [r1 w1]. cbn [fst snd] in *.
    assert (Hwf1 : Py.dict_wf (_papers_cache (store w1)))
      by (unfold Py.dict_wf; now rewrite Hkeys).
    assert (Hall1 : forall q, In q papers ->
              get_paper (arxiv_id (metadata q)) (store w1) = Some q /\
              processed q = false).
    { intros q Hq. destruct (Hall q (or_intror Hq)) as (Hgq & Hpq).
      split; [|exact Hpq]. rewrite Hoth; [exact Hgq|].
      intros Heq. apply Hnot. rewrite <- Heq.
      now apply (in_map (fun p0 => arxiv_id (metadata p0))). }
    destruct (IH r1 w1 Hnd' Hall1 Hwf1) as (Hw & Hk & Ho & Hc & Hcm).
    assert (Hstep : waiting (store w1)
                    = waiting (store w) - (n_processed r1 - n_processed r)).
    { rewrite !waiting_count.
      pose proof (@count_update Paper (fun q => Bool.eqb (processed q) false)
                    (_papers_cache (store w)) (_papers_cache (store w1))
                    (arxiv_id (metadata p)) p p' Hkeys Hwf Hget Hget' Hoth)
        as Hcount.
      cbv beta in Hcount. rewrite Hproc in Hcount.
      destruct Hcase as [(Hn & Hp')|(Hn & Hp')]; rewrite Hp' in Hcount;
        try rewrite Hproc in Hcount; cbn in Hcount; lia. }
    split; [lia|]. split; [now rewrite Hk|].
    split.
    { intros k Hk'. rewrite Ho by (intros Hin; apply Hk'; now right).
      apply Hoth. intros ->. apply Hk'. now left. }
    split; lia.
Qed.

Lemma NoDup_map_filter {A B} (g : A -> B) (f : A -> bool) (l : list A) :
  NoDup (map g l) -> NoDup (map g (filter f l)).
Proof.
  induction l as [|x l IH]; cbn; intros H; [constructor|].
  inversion H as [|? ? Hnot Hnd]; subst.
  destruct (f x); [|now apply IH].
  cbn. constructor; [|now apply IH].
  intros Hin. apply Hnot. apply in_map_iff in Hin.
  destruct Hin as (y & Hy & Hin). apply filter_In in Hin.
  apply in_map_iff. exists y. tauto.
Qed.

Lemma NoDup_firstn {A} (n : nat) (l : list A) :
  NoDup l -> NoDup (firstn n l).
Proof.
  intros H. rewrite <- (firstn_skipn n l) in H.
  now apply NoDup_app_remove_r in H.
Qed.

Lemma unprocessed_firstn {L : Library} (s : DataStore) :
  unprocessed s
  = firstn 50 (Py.sort_desc date_key
                 (filter (selects None None None (Some false) None)
                         (Py.dict_values (_papers_cache s)))).
Proof.
  pose proof (@sorted_matches_spec L s None None None (Some false)
                None None None eq_refl eq_refl) as Hs.
  unfold unprocessed, list_papers. rewrite Hs.
  match goal with
  | |- context [Py.sort_desc ?k ?l] =>
      change (Py.slice (Py.sort_desc k l) 0 (0 + 50)
              = firstn 50 (Py.sort_desc k l))
  end.
  rewrite slice_page by lia. reflexivity.
Qed.

(** X23. The accounts of one run of the batch job, for a store in which
    every paper is filed once and under its own identifier.  The number
    of papers that wait for processing drops by exactly the [processed]
    counter, and the number of processed ones grows by it: a paper
    counted as failed or skipped still waits afterwards.  No paper is
    added or removed, papers outside the work list are not touched, and
    the backend is called at most once for each paper counted as
    processed or failed. *)
Theorem batch_run_accounts {L : Library} (E : Env) (w : World) :
  keyed (store w) ->
  Py.dict_wf (_papers_cache (store w)) ->
  let run := process_all_papers E w in
  let t := fst run in
  waiting (store (snd run)) = waiting (store w) - n_processed t /\
  count_papers (store (snd run)) None (Some true)
  = count_papers (store w) None (Some true) + n_processed t /\
  Py.dict_keys (_papers_cache (store (snd run)))
  = Py.dict_keys (_papers_cache (store w)) /\
  (forall k p, get_paper k (store w) = Some p ->
     ~ In p (unprocessed (store w)) ->
     get_paper k (store (snd run)) = Some p) /\
  Z.of_nat (List.length (backend_calls w))
  <= Z.of_nat (List.length (backend_calls (snd run)))
  <= Z.of_nat (List.length (backend_calls w)) + n_processed t + n_failed t.
Proof.
  intros Hkeyed Hwf run t. unfold t, run, process_all_papers, bind, read_store.
  set (papers := unprocessed (store w)).
  assert (Hvalues : forall p, In p (Py.dict_values (_papers_cache (store w))) ->
            get_paper (arxiv_id (metadata p)) (store w) = Some p).
  { intros p Hp. apply in_map_iff in Hp. destruct Hp as ([k q] & Heq & Hin).
    cbn in Heq. subst q. rewrite (Hkeyed k p Hin).
    now apply dict_In_get. }
  assert (Hids : map (fun p => arxiv_id (metadata p))
                     (Py.dict_values (_papers_cache (store w)))
                 = Py.dict_keys (_papers_cache (store w))).
  { unfold Py.dict_values, Py.dict_keys. rewrite map_map.
    apply map_ext_in. intros [k p] Hin. cbn. now apply Hkeyed. }
  assert (Hsub : forall p, In p papers ->
            In p (Py.dict_values (_papers_cache (store w))) /\
            processed p = false).
  { intros p Hp. unfold papers in Hp. rewrite unprocessed_firstn in Hp.
    apply in_firstn in Hp.
    apply (Permutation_in _ (Permutation_sym (sort_desc_perm date_key _)))
      in Hp.
    apply filter_In in Hp. destruct Hp as (Hin & Hsel). split; [exact Hin|].
    unfold selects in Hsel. cbn in Hsel. now destruct (processed p). }
  assert (Hnd : NoDup (map (fun p => arxiv_id (metadata p)) papers)).
  { unfold papers. rewrite unprocessed_firstn, <- firstn_map.
    apply NoDup_firstn.
    eapply Permutation_NoDup;
      [apply Permutation_map, sort_desc_perm|].
    apply NoDup_map_filter. rewrite Hids. exact Hwf. }
  assert (Hall : forall p, In p papers ->
            get_paper (arxiv_id (metadata p)) (store w) = Some p /\
            processed p = false).
  { intros p Hp. destruct (Hsub p Hp) as (Hin & Hproc).
    split; [now apply Hvalues | exact Hproc]. }
  destruct (@process_loop_accounts L E papers
              {| n_processed := 0; n_failed := 0; n_skipped := 0 |} w
              Hnd Hall Hwf) as (Hw & Hk & Ho & Hc & Hcm).
  cbn zeta in *. cbn [n_processed n_failed] in *.
  destruct (for_each (process_one E)
              {| n_processed := 0; n_failed := 0; n_skipped := 0 |} papers w)
    as [r' w'].
  cbn [fst snd] in *.
  split; [lia|]. split.
  { assert (Hsize : forall s,
              count_papers s None (Some true) + waiting s = size s).
    { intros s. unfold waiting, count_papers, size, Py.dict_values.
      rewrite !by_processed_filter, !by_category_filter, !filter_all.
      pose proof (filter_split_length
                    (fun p => Bool.eqb (processed p) true)
                    (map snd (_papers_cache s))) as H.
      rewrite length_map in H.
      replace (filter (fun p => Bool.eqb (processed p) false)
                      (map snd (_papers_cache s)))
        with (filter (fun x => negb (Bool.eqb (processed x) true))
                     (map snd (_papers_cache s)))
        by (apply filter_ext; intros p; now destruct (processed p)).
      lia. }
    pose proof (Hsize (store w)) as H1. pose proof (Hsize (store w')) as H2.
    assert (Hs : size (store w') = size (store w)).
    { unfold size. rewrite <- (length_map fst (_papers_cache (store w'))).
      rewrite <- (length_map fst (_papers_cache (store w))).
      unfold Py.dict_keys in Hk. now rewrite Hk. }
    lia. }
  split; [exact Hk|].
  split; [|lia].
  intros k p Hget Hnot.
  assert (Hk' : arxiv_id (metadata p) = k).
  { apply Hkeyed. now apply dict_get_In. }
  rewrite Ho; [exact Hget|].
  intros Hin. apply in_map_iff in Hin. destruct Hin as (q & Hq & Hqin).
  destruct (Hall q Hqin) as (Hgq & _).
  rewrite Hq, Hget in Hgq. injection Hgq as ->. now apply Hnot.
Qed.

Lemma batch_run_accounts_witness :
  let run := process_all_papers Sample.fails_on_paper1
               (Sample.world_of Sample.documents_store) in
  waiting (store (snd run))
  = waiting Sample.documents_store - n_processed (fst run).
Proof.
  assert (Hk : keyed Sample.documents_store).
  { intros k p Hin. cbn in Hin.
    repeat (destruct Hin as [[= <- <-]|Hin]; [reflexivity|]).
    destruct Hin. }
  assert (Hwf : Py.dict_wf (_papers_cache Sample.documents_store)).
  { unfold Py.dict_wf. cbn.
    repeat (constructor; [cbn; intuition discriminate|]). constructor. }
  exact (proj1 (@batch_run_accounts Ref.library Sample.fails_on_paper1
                  (Sample.world_of Sample.documents_store) Hk Hwf)).
Defined.

(* ====================================================================== *)
(** * Further properties of the configuration                              *)
(* ====================================================================== *)

Lemma rev_string_append (a b : string) :
  Py.rev_string "" (a ++ b) = Py.rev_string "" b ++ Py.rev_string "" a.
Proof.
  induction a as [|c a IH]; cbn [append Py.rev_string].
  - now rewrite append_empty_r.
  - rewrite (rev_string_app (String c "") (a ++ b)), IH.
    rewrite (rev_string_app (String c "") a).
    now rewrite append_assoc_string.
Qed.

Lemma rev_string_involutive (s : string) :
  Py.rev_string "" (Py.rev_string "" s) = s.
Proof.
  induction s as [|c s IH]; [reflexivity|].
  cbn [Py.rev_string]. rewrite (rev_string_app (String c "") s).
  rewrite rev_string_append, IH. reflexivity.
Qed.

Lemma lstrip_idempotent (s : string) : lstrip (lstrip s) = lstrip s.
Proof.
  induction s as [|c s IH]; [reflexivity|]. cbn [lstrip].
  destruct (is_space c) eqn:E; [exact IH|]. cbn [lstrip]. now rewrite E.
Qed.

Lemma lstrip_app_visible (u v : string) (c : ascii) :
  is_space c = false ->
  lstrip (u ++ String c v) = lstrip u ++ String c v.
Proof.
  intros Hc. induction u as [|d u IH]; cbn [append lstrip].
  - now rewrite Hc.
  - destruct (is_space d); [exact IH | reflexivity].
Qed.

Lemma lstrip_head (s : string) :
  lstrip s = "" \/ exists c t, lstrip s = String c t /\ is_space c = false.
Proof.
  induction s as [|c s IH]; [now left|]. cbn [lstrip].
  destruct (is_space c) eqn:E; [exact IH|]. right. eauto.
Qed.

(** Stripping leaves a text without white space at either end: stripping
    it again changes nothing. *)
Lemma strip_idempotent (s : string) : strip (strip s) = strip s.
Proof.
  unfold strip.
  destruct (lstrip_head s) as [->|(c & t & -> & Hc)]; [reflexivity|].
  cbn [Py.rev_string]. rewrite (rev_string_app (String c "") t).
  rewrite (lstrip_app_visible _ "" c Hc).
  rewrite rev_string_append. cbn [Py.rev_string append lstrip].
  rewrite Hc. cbn [Py.rev_string].
  rewrite (rev_string_app (String c "")
             (Py.rev_string "" (lstrip (Py.rev_string "" t)))).
  rewrite rev_string_involutive.
  rewrite (lstrip_app_visible _ "" c Hc), lstrip_idempotent.
  now rewrite rev_string_append.
Qed.

(** Splitting at the separator undoes joining with it, for pieces that
    do not hold the separator. *)
Lemma split_join (pieces : list string) :
  pieces <> [] ->
  Forall (fun p => Py.contains "," p = false) pieces ->
  Py.split "," (join "," pieces) = pieces.
Proof.
  intros Hne Hall. induction Hall as [|p rest Hp Hrest IH]; [congruence|].
  destruct rest as [|q rest].
  - cbn [join]. unfold Py.split. now rewrite (split_go_none _ "" _ Hp).
  - change (join "," (p :: q :: rest)) with (p ++ "," ++ join "," (q :: rest)).
    unfold Py.split. rewrite split_go_first; [|discriminate|].
    + cbn [Py.rev_string append]. f_equal.
      apply IH. discriminate.
    + intros a1 a2 -> Ha2. destruct a2 as [|c a2]; [congruence|].
      cbn [append prefix].
      destruct (ascii_dec "," c) as [<-|Hc]; [|reflexivity].
      rewrite (contains_app_r "," a1 (String "," a2)) in Hp;
        [discriminate Hp|].
      apply contains_prefix. cbn. apply prefix_nil.
Qed.

(** X24. The categories the scheduler reads from its setting.  The list
    is never empty: a setting without a comma is one category, the empty
    setting the empty category.  No category begins or ends with white
    space.  For a setting made of pieces without commas, joined by
    commas, the categories are the pieces with the white space around
    them removed, in order; so a list of categories that hold no comma
    and no outer white space is read back as it is. *)
Theorem configured_categories :
  (forall setting, init_categories setting <> []) /\
  (forall setting, Py.contains "," setting = false ->
     init_categories setting = [strip setting]) /\
  init_categories "" = [""] /\
  (forall setting c, In c (init_categories setting) -> strip c = c) /\
  (forall pieces, pieces <> [] ->
     Forall (fun p => Py.contains "," p = false) pieces ->
     init_categories (join "," pieces) = map strip pieces) /\
  (forall cats, cats <> [] ->
     Forall (fun c => Py.contains "," c = false /\ strip c = c) cats ->
     init_categories (join "," cats) = cats).
Proof.
  split; [|split; [|split; [|split; [|split]]]].
  - intros setting. unfold init_categories, Py.split.
    destruct (split_go_cons "," 0 "" setting) as (a & rest & ->).
    discriminate.
  - intros setting H. unfold init_categories, Py.split.
    now rewrite (split_go_none _ "" _ H).
  - reflexivity.
  - intros setting c Hin. unfold init_categories in Hin.
    apply in_map_iff in Hin. destruct Hin as (p & <- & _).
    apply strip_idempotent.
  - intros pieces Hne Hall. unfold init_categories.
    now rewrite split_join.
  - intros cats Hne Hall. unfold init_categories.
    rewrite split_join; [|exact Hne|].
    + induction Hall as [|c cs (_ & Hc) _ IH]; [reflexivity|].
      cbn [map]. rewrite Hc. f_equal.
      destruct cs; [reflexivity | apply IH; discriminate].
    + eapply Forall_impl; [|exact Hall]. now intros c (H & _).
Qed.

Lemma configured_categories_witness :
  init_categories (join "," ["cs.AI"; " cs.LG "; "stat.ML"])
  = ["cs.AI"; "cs.LG"; "stat.ML"].
Proof.
  destruct configured_categories as (_ & _ & _ & _ & H & _).
  apply (H ["cs.AI"; " cs.LG "; "stat.ML"]); [discriminate|].
  repeat constructor.
Defined.

(* ====================================================================== *)
(** * Further properties of the summary handler                            *)
(* ====================================================================== *)

(** X25. The summary handler on a paper with extracted text.  It sends
    one request, made from title, abstract and that text, and touches no
    other paper.  When it answers, the analysis decoded from the reply is
    stored with the paper and saved, the answer carries its summary,
    findings, methodology, strengths and limitations, and the processed
    flag, the text and the chat history of the paper are as before: a
    summary does not mark the paper processed.  When the request raises,
    or the reply cannot be made into an analysis, the handler raises the
    same and the store is as before. *)
Theorem summary_is_stored {L : Library} (E : Env) (id : string)
  (w : World) (paper : Paper) (text : string) :
  get_paper id (store w) = Some paper ->
  extracted_text paper = Some text ->
  text <> "" ->
  let req := analysis_request E (title (metadata paper))
               (abstract (metadata paper)) (Some text) in
  let run := generate_paper_summary E id w in
  backend_calls (snd run) = (backend_calls w ++ [req])%list /\
  (forall k, k <> id ->
     get_paper k (store (snd run)) = get_paper k (store w)) /\
  match fst run with
  | Ok resp =>
      exists a reply t p',
        completion E req = Ok reply /\
        parse_analysis t (or_else reply "{}") = Ok a /\
        get_paper id (store (snd run)) = Some p' /\
        ai_analysis p' = Some a /\
        processed p' = processed paper /\
        extracted_text p' = Some text /\
        chat_history p' = chat_history paper /\
        metadata p' = metadata paper /\
        resp = {| resp_summary := summary a;
                  resp_key_findings := key_findings a;
                  resp_methodology := methodology a;
                  resp_strengths := strengths a;
                  resp_limitations := limitations a |} /\
        persisted (store (snd run))
  | Raise e =>
      store (snd run) = store w /\
      (completion E req = Raise e \/
       exists reply t,
         completion E req = Ok reply /\
         parse_analysis t (or_else reply "{}") = Raise e)
  end.
Proof.
  intros Hget Htext Hne req run.
  assert (Erun : run = run) by reflexivity.
  unfold run at 2 in Erun. clearbody run.
  unfold generate_paper_summary in Erun.
  unfold bind at 1 in Erun. unfold read_store at 1 in Erun.
  rewrite Hget, Htext in Erun.
  destruct text as [|c text]; [congruence|].
  cbn [Py.truthy negb] in Erun. unfold bindx, bind in Erun.
  fold req in Erun.
  pose proof (analyze_paper_store E (title (metadata paper))
                (abstract (metadata paper)) (Some (String c text)) w) as Hst.
  pose proof (analyze_paper_calls E (title (metadata paper))
                (abstract (metadata paper)) (Some (String c text)) w)
    as Hcalls.
  pose proof (@analyze_paper_result L E (title (metadata paper))
                (abstract (metadata paper)) (Some (String c text)) w) as Hres.
  pose proof (@analyze_paper_raises L E (title (metadata paper))
                (abstract (metadata paper)) (Some (String c text)) w) as Hexn.
  fold req in Hcalls, Hres, Hexn.
  destruct (analyze_paper E (title (metadata paper))
              (abstract (metadata paper)) (Some (String c text)) w)
    as [[analysis|e] w1]; cbn [fst snd] in *.
  - rewrite <- Hst in Hget.
    destruct (@store_mutate_found L E (with_ai_analysis (Some analysis))
                id w1 paper Hget)
      as (w2 & Hrun2 & Hget2 & Hoth2 & _ & _ & Hcalls2 & Hsaved).
    change (store_mutate E (fun t id0 => set_ai_analysis t id0 analysis) id w1)
      with (store_mutate E
              (fun t id0 => mutate (with_ai_analysis (Some analysis)) t id0)
              id w1) in Erun.
    rewrite Hrun2 in Erun. unfold ret in Erun. subst run. cbn [fst snd].
    split; [now rewrite Hcalls2, Hcalls|].
    split; [intros k Hk; now rewrite Hoth2, Hst by exact Hk|].
    destruct (Hres analysis eq_refl) as (reply & t & H1 & H2).
    exists analysis, reply, t.
    eexists. split; [exact H1|]. split; [exact H2|].
    split; [exact Hget2|]. cbn.
    repeat split; try reflexivity; try assumption.
  - unfold ret in Erun. subst run. cbn [fst snd].
    split; [exact Hcalls|]. split; [intros k _; now rewrite Hst|].
    split; [exact Hst | exact (Hexn e eq_refl)].
Qed.

Lemma summary_is_stored_witness :
  let s := snd (add_paper Sample.sample_paper Sample.sorted_store) in
  let run := generate_paper_summary
               (Sample.answering (Some "{}") Sample.no_stream)
               "test-1234.5678" (Sample.world_of s) in
  List.length (backend_calls (snd run)) = 1%nat /\
  option_map processed (get_paper "test-sort-0" (store (snd run)))
  = Some false.
Proof.
  cbv zeta.
  destruct (@summary_is_stored Ref.library
              (Sample.answering (Some "{}") Sample.no_stream)
              "test-1234.5678"
              (Sample.world_of
                 (snd (add_paper Sample.sample_paper Sample.sorted_store)))
              Sample.sample_paper "Extracted text content"
              eq_refl eq_refl ltac:(discriminate))
    as (Hcalls & Hoth & _).
  split.
  - rewrite Hcalls. reflexivity.
  - rewrite Hoth by discriminate. reflexivity.
Defined.

(* ====================================================================== *)
(** * Starting the store again                                             *)
(* ====================================================================== *)

(** X26. Starting the store on the file an earlier store left.  When
    that file is the dump of the earlier cache, the new store has the
    same papers under the same identifiers in the same order, and leaves
    the file as it is.  When the file holds a record that does not
    validate, or is not a JSON object at all, the new store starts empty
    with the file left as found, and the first paper added then rewrites
    the file to hold that paper alone: the records the file held before,
    the valid ones included, are gone from it. *)
Theorem restart_keeps_or_overwrites {L : Library} {LL : LibraryLaws L}
  (now : datetime) (s : DataStore) (paper : Paper) :
  (persisted s -> Py.dict_wf (_papers_cache s) ->
   _papers_cache (init now (papers_file s)) = _papers_cache s /\
   papers_file (init now (papers_file s)) = papers_file s) /\
  (forall f,
     match f with
     | JsonDoc (JObj ms) =>
         Exists (fun r => Paper_validate now (snd r) = None)
                (Py.dict_of_pairs ms)
     | _ => True
     end ->
     let s0 := init now (Some f) in
     _papers_cache s0 = [] /\
     papers_file s0 = Some f /\
     fst (add_paper paper s0) = true /\
     papers_file (snd (add_paper paper s0))
     = Some (JsonDoc (JObj [(arxiv_id (metadata paper), Paper_dump paper)]))).
Proof.
  split.
  - intros Hsaved Hwf. unfold persisted in Hsaved. rewrite Hsaved.
    unfold init, _ensure_file_exists, _load_cache.
    cbn [papers_file _papers_cache].
    rewrite dict_of_pairs_wf by (unfold Py.dict_wf; now rewrite dump_keys).
    rewrite load_items_dump by exact Hwf.
    split; reflexivity.
  - intros f Hbad. cbn zeta.
    assert (Hinit : init now (Some f)
                    = {| _papers_cache := []; papers_file := Some f |}).
    { unfold init, _ensure_file_exists, _load_cache.
      cbn [papers_file _papers_cache].
      destruct f as [text|j]; [reflexivity|].
      destruct j; try reflexivity.
      now rewrite (load_items_bad now [] Hbad). }
    rewrite Hinit. repeat split.
Qed.

Lemma restart_keeps_or_overwrites_witness :
  _papers_cache (init 0 (papers_file Sample.sorted_store))
  = _papers_cache Sample.sorted_store /\
  papers_file
    (snd (add_paper Sample.paper1
            (init 0 (Some (JsonDoc
                             (JObj [("test-sort-0", Paper_dump Sample.paper0);
                                    ("broken", JObj [])]))))))
  = Some (JsonDoc (JObj [("test-sort-1", Paper_dump Sample.paper1)])).
Proof.
  pose proof (@restart_keeps_or_overwrites Ref.library ref_library_laws 0
                Sample.sorted_store Sample.paper1) as (Hkeep & Hover).
  split.
  - apply Hkeep; [reflexivity|].
    unfold Py.dict_wf. cbn.
    repeat (constructor; [cbn; intuition discriminate|]). constructor.
  - apply (Hover (JsonDoc (JObj [("test-sort-0", Paper_dump Sample.paper0);
                                 ("broken", JObj [])]))).
    cbn. apply Exists_cons_tl, Exists_cons_hd. reflexivity.
Defined.
